(** * Gemini document analyzer: prompt assembly, extraction, post-processing

    A shallow embedding of [app.py] (the Streamlit front end) and
    [analyze_docs.py] (the console script), with the properties their
    specification states about them.

    Python values are modelled as follows.
    - [str] is a sequence of Unicode code points: [list N].  String
      literals of the source are written with [lit], which maps an ASCII
      literal to its code points.
    - A call that may raise is an [outcome]: either the value returned
      or the text [str(e)] of the exception raised.
    - A [dict] is the list of its items in insertion order, with
      [dict_set] for item assignment.
    - Everything outside the two files (the hosted model, pypdf, the
      file system, the UTF-8 decoder) is given as data or as a function
      argument, never computed. *)

From Stdlib Require Import List NArith ZArith QArith Qabs Bool Lia.
From Stdlib Require Import Ascii String.
From Stdlib Require Import PrimFloat FloatOps SpecFloat FloatAxioms Uint63.
Import ListNotations.
Close Scope Q_scope.

Set Warnings "-inexact-float".

(* ===================================================================== *)
(** * Python strings                                                      *)
(* ===================================================================== *)

Module Py.

Definition char := N.
Definition str := list char.

(** An ASCII literal of the source as a [str]. *)
Definition lit (s : string) : str :=
  map N_of_ascii (list_ascii_of_string s).

Arguments lit : simpl never.

(** ["\n"] *)
Definition nl : str := [10%N].

Definition between (lo hi c : N) : bool := (lo <=? c)%N && (c <=? hi)%N.

(** [str.isspace] on one character; also the class [\s] of [re] on
    [str] patterns. *)
Definition isspace (c : char) : bool :=
  between 9 13 c || between 28 32 c
  || (c =? 133)%N || (c =? 160)%N || (c =? 5760)%N
  || between 8192 8202 c || (c =? 8232)%N || (c =? 8233)%N
  || (c =? 8239)%N || (c =? 8287)%N || (c =? 12288)%N.

Definition isdigit_ascii (c : char) : bool := between 48 57 c.

(** [str.isalnum] on one character.  On ASCII it is the letters and
    digits; beyond ASCII it is the Unicode database's answer, [wide]. *)
Definition isalnum (wide : char -> bool) (c : char) : bool :=
  if (c <? 128)%N
  then between 48 57 c || between 65 90 c || between 97 122 c
  else wide c.

(** Lower-casing as [re.IGNORECASE] applies it to the text when it is
    compared with a pattern letter among [a c e m n o p y]: those letters
    are the lower case of their ASCII capitals only. *)
Definition lower (c : char) : char :=
  if between 65 90 c then (c + 32)%N else c.

Fixpoint dropwhile (p : char -> bool) (s : str) : str :=
  match s with
  | c :: s' => if p c then dropwhile p s' else s
  | [] => []
  end.

Fixpoint takewhile (p : char -> bool) (s : str) : str :=
  match s with
  | c :: s' => if p c then c :: takewhile p s' else []
  | [] => []
  end.

(** [s.strip(chars)] for the set of characters [p]. *)
Definition strip_set (p : char -> bool) (s : str) : str :=
  rev (dropwhile p (rev (dropwhile p s))).

(** [s.strip()] *)
Definition strip (s : str) : str := strip_set isspace s.

Definition mem (c : char) (cs : str) : bool := existsb (N.eqb c) cs.

(** [s.replace(a, b)] for single characters [a] and [b]. *)
Definition replace (a b : char) (s : str) : str :=
  map (fun c => if (c =? a)%N then b else c) s.

(** [s.split(sep)] for a single character [sep]. *)
Fixpoint split (sep : char) (s : str) : list str :=
  match s with
  | [] => [[]]
  | c :: s' =>
      if (c =? sep)%N then [] :: split sep s'
      else match split sep s' with
           | w :: ws => (c :: w) :: ws
           | [] => [[c]]
           end
  end.

(** [str(n)] for a non-negative integer. *)
Fixpoint digits_of_uint (d : Decimal.uint) : str :=
  match d with
  | Decimal.Nil => []
  | Decimal.D0 d' => 48%N :: digits_of_uint d'
  | Decimal.D1 d' => 49%N :: digits_of_uint d'
  | Decimal.D2 d' => 50%N :: digits_of_uint d'
  | Decimal.D3 d' => 51%N :: digits_of_uint d'
  | Decimal.D4 d' => 52%N :: digits_of_uint d'
  | Decimal.D5 d' => 53%N :: digits_of_uint d'
  | Decimal.D6 d' => 54%N :: digits_of_uint d'
  | Decimal.D7 d' => 55%N :: digits_of_uint d'
  | Decimal.D8 d' => 56%N :: digits_of_uint d'
  | Decimal.D9 d' => 57%N :: digits_of_uint d'
  end.

Definition str_of_nat (n : nat) : str := digits_of_uint (Nat.to_uint n).

(** [needle in hay] *)
Fixpoint prefixb (p s : str) : bool :=
  match p, s with
  | [], _ => true
  | a :: p', b :: s' => (a =? b)%N && prefixb p' s'
  | _ :: _, [] => false
  end.

Fixpoint infixb (needle hay : str) : bool :=
  prefixb needle hay ||
  match hay with
  | [] => false
  | _ :: hay' => infixb needle hay'
  end.

(** [s.split("\n")] is [lines]. *)
Definition lines (s : str) : list str := split 10%N s.

(** The truth value of a string: non-empty. *)
Definition truthy (s : str) : bool :=
  match s with [] => false | _ :: _ => true end.

(** A call that returns or raises; [Raises e] carries [str(e)]. *)
Inductive outcome (A : Type) : Type :=
| Returns (a : A)
| Raises (e : str).
Arguments Returns {A} a.
Arguments Raises {A} e.

(** A [dict] with string keys, as its items in insertion order. *)
Definition dict (V : Type) := list (str * V).

Fixpoint str_eqb (a b : str) : bool :=
  match a, b with
  | [], [] => true
  | x :: a', y :: b' => (x =? y)%N && str_eqb a' b'
  | _, _ => false
  end.

(** [d[k] = v]: a key already present keeps its place and takes the new
    value; a new key goes last. *)
Fixpoint dict_set {V} (d : dict V) (k : str) (v : V) : dict V :=
  match d with
  | [] => [(k, v)]
  | (k', v') :: d' =>
      if str_eqb k' k then (k', v) :: d' else (k', v') :: dict_set d' k v
  end.

Definition keys {V} (d : dict V) : list str := map fst d.

End Py.

(* ===================================================================== *)
(** * app.py: the Streamlit front end                                     *)
(* ===================================================================== *)

Module App.
Import Py.

(** An uploaded file, with what the libraries answer when it is read:
    [pdf_pages] is [pypdf.PdfReader(f).pages], each page with the outcome
    of its [extract_text()]; [decoded] is [f.read().decode("utf-8")]. *)
Record UploadedFile := {
  name : str;
  type : str;
  pdf_pages : outcome (list (outcome str));
  decoded : outcome str
}.

(** [response.usage_metadata] *)
Record UsageMetadata := {
  prompt_token_count : Z;
  candidates_token_count : Z;
  total_token_count : Z
}.

(** What [model.generate_content(prompt)] returns; reading
    [response.text] may itself raise. *)
Record Response := {
  text : outcome str;
  usage_metadata : UsageMetadata
}.

(** What a run does to the page and to the service, in order. *)
Inductive event :=
| genai_configure (api_key : str)
| generate_content (model prompt : str)
| st_error (msg : str)
| st_warning (msg : str)
| st_info (msg : str)
| st_success (msg : str)
| st_subheader (msg : str)
| st_code (body : str)
| st_download_button (label data file_name : str)
| usage_stats (total_count prompt_count candidates_count : Z) (total_cost : float)
| st_stop.

(** A computation that returns [A] and leaves a trace. *)
Definition io (A : Type) : Type := A * list event.
Definition ret {A} (a : A) : io A := (a, []).
Definition bind {A B} (m : io A) (k : A -> io B) : io B :=
  let (a, t1) := m in let (b, t2) := k a in (b, t1 ++ t2).
Definition emit (e : event) : io unit := (tt, [e]).
Definition trace {A} (m : io A) : list event := snd m.
Definition value {A} (m : io A) : A := fst m.

Notation "x <- m ;; k" := (bind m (fun x => k))
  (at level 61, m at next level, right associativity).
Notation "m ;;; k" := (bind m (fun _ => k))
  (at level 61, right associativity).

(** [for page in pdf_reader.pages: text += page.extract_text() + "\n"] *)
Fixpoint pages_loop (pages : list (outcome str)) (text : str) : outcome str :=
  match pages with
  | [] => Returns text
  | Returns t :: rest => pages_loop rest (text ++ (t ++ nl))
  | Raises e :: _ => Raises e
  end.

(** The body of the [try] of [read_file_content]. *)
Definition extract (uploaded_file : UploadedFile) : outcome str :=
  if str_eqb (type uploaded_file) (lit "application/pdf") then
    match pdf_pages uploaded_file with
    | Returns pages => pages_loop pages []
    | Raises e => Raises e
    end
  else decoded uploaded_file.

Definition read_file_content (uploaded_file : UploadedFile) : io (option str) :=
  match extract uploaded_file with
  | Returns t => ret (Some t)
  | Raises e =>
      emit (st_error (lit "Error reading " ++ name uploaded_file ++ lit ": " ++ e)) ;;;
      ret None
  end.

(** [for filename, content in docs_contents.items(): combined_docs += ...] *)
Definition combined_docs (docs_contents : dict str) : str :=
  fold_left
    (fun acc item =>
       acc ++ (nl ++ lit "--- Document (" ++ fst item ++ lit ") ---" ++ nl
                  ++ snd item ++ nl))
    docs_contents [].

Definition role_instruction (is_checklist : bool) : str :=
  lit "You are a helpful assistant that analyzes documents." ++
  (if is_checklist
   then lit " Your goal is to complete the provided checklist based on the documents. Ensure you fill in the 'Company name' field if present."
   else []).

Definition prompt (instruction_content : str) (docs_contents : dict str)
    (is_checklist : bool) : str :=
  nl ++ lit "    " ++ role_instruction is_checklist ++ nl
  ++ nl
  ++ lit "    Here is the template/checklist you must follow for the output:" ++ nl
  ++ lit "    " ++ instruction_content ++ nl
  ++ nl
  ++ lit "    Here are the documents to analyze:" ++ nl
  ++ lit "    " ++ combined_docs docs_contents ++ nl
  ++ nl
  ++ lit "    Please analyze the documents and produce an output that strictly follows the format and structure of the provided template/checklist." ++ nl
  ++ lit "    ".

Definition model_name : str := lit "gemini-2.5-flash".

Section Service.

(** The hosted model: what [generate_content] answers for the configured
    key and the prompt. *)
Variable gemini : str -> str -> outcome Response.

(** The truth value Python gives a usage object ([not usage_metadata]);
    it is the message class's own, outside the two files. *)
Variable usage_bool : UsageMetadata -> bool.

(** Whether a character beyond ASCII is alphanumeric ([str.isalnum]). *)
Variable wide_alnum : char -> bool.

Definition analyze_documents (api_key instruction_content : str)
    (docs_contents : dict str) (is_checklist : bool)
  : io (str * option UsageMetadata) :=
  emit (genai_configure api_key) ;;;
  let prompt := prompt instruction_content docs_contents is_checklist in
  emit (generate_content model_name prompt) ;;;
  match gemini api_key prompt with
  | Returns response =>
      match text response with
      | Returns t => ret (t, Some (usage_metadata response))
      | Raises e => ret (lit "Error during analysis: " ++ e, None)
      end
  | Raises e => ret (lit "Error during analysis: " ++ e, None)
  end.

(** [re.search(r"Company name:\s*(.+)", text, re.IGNORECASE)], in three
    layers: the literal label compared case-insensitively, then [\s*]
    (greedy, giving characters back one at a time when what follows
    fails), then the group [(.+)], the longest run of characters other
    than a newline, at least one. *)
Fixpoint literal_ci (pat s : str) : option str :=
  match pat, s with
  | [], _ => Some s
  | p :: pat', c :: s' =>
      if (lower c =? lower p)%N then literal_ci pat' s' else None
  | _ :: _, [] => None
  end.

Definition not_newline (c : char) : bool := negb (c =? 10)%N.

Definition group_dot_plus (s : str) : option str :=
  match takewhile not_newline s with
  | [] => None
  | g => Some g
  end.

Fixpoint spaces_then_group (s : str) : option str :=
  match s with
  | c :: s' =>
      if isspace c then
        match spaces_then_group s' with
        | Some g => Some g
        | None => group_dot_plus s
        end
      else group_dot_plus s
  | [] => None
  end.

Definition label : str := lit "Company name:".

Definition match_at (s : str) : option str :=
  match literal_ci label s with
  | Some rest => spaces_then_group rest
  | None => None
  end.

(** The first position, from the left, at which the pattern matches;
    the result is [match.group(1)]. *)
Fixpoint re_search (s : str) : option str :=
  match match_at s with
  | Some g => Some g
  | None =>
      match s with
      | [] => None
      | _ :: s' => re_search s'
      end
  end.

Definition brackets : str := lit "[]".

Definition extract_company_name (text : str) : str :=
  match re_search text with
  | Some g => strip_set (fun c => mem c brackets) (strip g)
  | None => lit "Company"
  end.

(** Lines 325-327: the characters kept, the trimmed and underscored
    name, and the download's file name. *)
Definition kept (c : char) : bool :=
  isalnum wide_alnum c || mem c (lit " -_").

Definition safe_company_name (company_name : str) : str :=
  replace 32%N 95%N (strip (filter kept company_name)).

Definition filename (company_name : str) : str :=
  lit "checklist_" ++ safe_company_name company_name ++ lit ".txt".

(** Lines 194-220, once [st.secrets] has been read ([secret] is what it
    holds under the key's name): the system key is the secret when the
    secrets hold one, else the environment's; the key used is the typed
    override when it is non-empty, else the system key when that is
    non-empty. *)
Definition system_api_key (secret getenv : option str) : option str :=
  match secret with
  | Some k => Some k
  | None => getenv
  end.

(** [st.secrets]: where no secrets file exists, the test
    ["GOOGLE_API_KEY" in st.secrets] of line 194 raises, outside any
    [try]; where one exists, it holds the key or not. *)
Inductive st_secrets :=
| no_secrets_file (e : str)
| secrets_file (GOOGLE_API_KEY : option str).

(** Lines 194-197 as they run. *)
Definition load_system_api_key (secrets : st_secrets) (getenv : option str)
  : outcome (option str) :=
  match secrets with
  | no_secrets_file e => Raises e
  | secrets_file secret => Returns (system_api_key secret getenv)
  end.

Definition truthy_opt (o : option str) : bool :=
  match o with
  | Some s => truthy s
  | None => false
  end.

Definition api_key (user_api_key : str) (system_api_key : option str)
  : option str :=
  if truthy user_api_key then Some user_api_key
  else if truthy_opt system_api_key then system_api_key
  else None.

(** A token count as a float.  The counters are 32-bit fields, far
    inside the range where the conversion is exact. *)
Definition float_of_int (n : Z) : float :=
  if (n <? 0)%Z then PrimFloat.opp (PrimFloat.of_uint63 (Uint63.of_Z (- n)))
  else PrimFloat.of_uint63 (Uint63.of_Z n).

Definition total_cost (prompt_count candidates_count : Z) : float :=
  let input_cost := (float_of_int prompt_count / 1000000 * 0.3)%float in
  let output_cost := (float_of_int candidates_count / 1000000 * 2.5)%float in
  (input_cost + output_cost)%float.

Definition display_cost_stats (usage : option UsageMetadata) : io unit :=
  match usage with
  | None => ret tt
  | Some u =>
      if usage_bool u then
        let prompt_count := prompt_token_count u in
        let candidates_count := candidates_token_count u in
        let total_count := total_token_count u in
        emit (usage_stats total_count prompt_count candidates_count
                (total_cost prompt_count candidates_count))
      else ret tt
  end.

(** Lines 282-286: the documents' texts, keyed by file name. *)
Fixpoint read_docs (doc_files : list UploadedFile) (docs_contents : dict str)
  : io (dict str) :=
  match doc_files with
  | [] => ret docs_contents
  | doc :: rest =>
      content <- read_file_content doc ;;
      if truthy_opt content then
        match content with
        | Some c => read_docs rest (dict_set docs_contents (name doc) c)
        | None => read_docs rest docs_contents
        end
      else read_docs rest docs_contents
  end.

Definition check_mark : str := [9989%N].
Definition inbox_tray : str := [128229%N].

(** Lines 293-312. *)
Definition process_template (key : str) (template_file : option UploadedFile)
    (docs_contents : dict str) : io unit :=
  match template_file with
  | None => ret tt
  | Some f =>
      template_content <- read_file_content f ;;
      match template_content with
      | Some c =>
          if truthy c then
            emit (st_info (lit "Generating Analysis Report...")) ;;;
            r <- analyze_documents key c docs_contents false ;;
            display_cost_stats (snd r) ;;;
            emit (st_success (check_mark ++ lit " Analysis Report Ready")) ;;;
            emit (st_subheader (lit "Analysis Output")) ;;;
            emit (st_code (fst r)) ;;;
            emit (st_download_button
                    (inbox_tray ++ lit " Download Analysis Report")
                    (fst r) (lit "analysis_result.txt"))
          else emit (st_error (lit "Could not read template content."))
      | None => emit (st_error (lit "Could not read template content."))
      end
  end.

(** Lines 315-340. *)
Definition process_checklist (key : str) (checklist_file : option UploadedFile)
    (docs_contents : dict str) : io unit :=
  match checklist_file with
  | None => ret tt
  | Some f =>
      checklist_content <- read_file_content f ;;
      match checklist_content with
      | Some c =>
          if truthy c then
            emit (st_info (lit "Processing Checklist...")) ;;;
            r <- analyze_documents key c docs_contents true ;;
            display_cost_stats (snd r) ;;;
            let company_name := extract_company_name (fst r) in
            let filename := filename company_name in
            emit (st_success (check_mark ++ lit " Checklist Ready ("
                                ++ company_name ++ lit ")")) ;;;
            emit (st_subheader (lit "Checklist Output")) ;;;
            emit (st_code (fst r)) ;;;
            emit (st_download_button
                    (inbox_tray ++ lit " Download Checklist (" ++ filename ++ lit ")")
                    (fst r) filename)
          else emit (st_error (lit "Could not read checklist content."))
      | None => emit (st_error (lit "Could not read checklist content."))
      end
  end.

Definition is_some {A} (o : option A) : bool :=
  match o with Some _ => true | None => false end.

(** Lines 271-343: what pressing the Analyze button does.  Nothing
    modelled inside the outer [try] raises, so its handler has no case. *)
Definition on_analyze (api_key : option str)
    (template_file checklist_file : option UploadedFile)
    (doc_files : list UploadedFile) : io unit :=
  match api_key with
  | None =>
      emit (st_error (lit "Please provide a Google API Key in the settings sidebar."))
  | Some key =>
      if negb (truthy key) then
        emit (st_error (lit "Please provide a Google API Key in the settings sidebar."))
      else if negb (is_some template_file) && negb (is_some checklist_file) then
        emit (st_warning (lit "Please upload at least one template or checklist file."))
      else
        match doc_files with
        | [] => emit (st_warning (lit "Please upload at least one document."))
        | _ :: _ =>
            docs_contents <- read_docs doc_files [] ;;
            match docs_contents with
            | [] =>
                emit (st_error (lit "Could not read any document content.")) ;;;
                emit st_stop
            | _ :: _ =>
                process_template key template_file docs_contents ;;;
                process_checklist key checklist_file docs_contents
            end
        end
  end.

End Service.

End App.

(* ===================================================================== *)
(** * analyze_docs.py: the console script                                 *)
(* ===================================================================== *)

Module Cli.
Import Py.

(** What the script finds around it: the environment's key, which paths
    exist, what reading a file as UTF-8 text gives, whether a path opens
    for writing, and the hosted model with the outcome of reading
    [response.text]. *)
Record World := {
  GOOGLE_API_KEY : option str;
  path_exists : str -> bool;
  read_text : str -> outcome str;
  open_w : str -> outcome unit;
  gemini : str -> str -> outcome (outcome str)
}.

Inductive event :=
| print (line : str)
| genai_configure (api_key : str)
| generate_content (model prompt : str)
| open_for_writing (path : str)
| write_file (path content : str).

(** Lines 29-34: [valid_docs] and the warnings printed on the way. *)
Fixpoint check_paths (w : World) (doc_paths valid_docs : list str)
  : list str * list event :=
  match doc_paths with
  | [] => (valid_docs, [])
  | p :: rest =>
      if path_exists w p then check_paths w rest (valid_docs ++ [p])
      else
        let (v, t) := check_paths w rest valid_docs in
        (v, print (lit "Warning: Document '" ++ p ++ lit "' not found. Skipping.") :: t)
  end.

Definition header (idx : nat) (p : str) : str :=
  nl ++ lit "--- Document " ++ str_of_nat (idx + 1) ++ lit " (" ++ p
     ++ lit ") ---" ++ nl.

(** Lines 53-62, from position [idx] on: the documents' text, or the
    path and the exception of the first document that does not read. *)
Fixpoint read_docs (w : World) (idx : nat) (valid_docs : list str)
    (docs_content : str) : str + str * str :=
  match valid_docs with
  | [] => inl docs_content
  | p :: rest =>
      match read_text w p with
      | Returns body =>
          read_docs w (S idx) rest (docs_content ++ header idx p ++ body ++ nl)
      | Raises e => inr (p, e)
      end
  end.

Definition prompt (template_content docs_content : str) : str :=
  nl ++ lit "    You are a helpful assistant that analyzes documents based on a specific template." ++ nl
  ++ nl
  ++ lit "    Here is the template you must follow for the output:" ++ nl
  ++ lit "    " ++ template_content ++ nl
  ++ nl
  ++ lit "    Here are the documents to analyze:" ++ nl
  ++ lit "    " ++ docs_content ++ nl
  ++ nl
  ++ lit "    Please analyze the documents and produce an output that strictly follows the format and structure of the provided template." ++ nl
  ++ lit "    ".

Definition model_name : str := lit "gemini-2.5-flash".

(** Lines 79-89.  [open(output_path, 'w')] creates the file or empties
    it, and it does so before [response.text] is read: when reading the
    text raises, the file is left empty. *)
Definition submit (w : World) (key output_path prompt : str) : list event :=
  generate_content model_name prompt ::
  match gemini w key prompt with
  | Raises e => [print (lit "An error occurred during analysis: " ++ e)]
  | Returns text =>
      match open_w w output_path with
      | Raises e => [print (lit "An error occurred during analysis: " ++ e)]
      | Returns _ =>
          open_for_writing output_path ::
          match text with
          | Raises e => [print (lit "An error occurred during analysis: " ++ e)]
          | Returns t =>
              [write_file output_path t;
               print (nl ++ lit "Analysis complete! Output saved to '"
                         ++ output_path ++ lit "'.")]
          end
      end
  end.

(** The whole script, given what the user types at its three prompts. *)
Definition analyze_documents (w : World)
    (typed_template typed_docs typed_output : str) : list event :=
  match GOOGLE_API_KEY w with
  | None => [print (lit "Error: GOOGLE_API_KEY not found in environment variables.")]
  | Some api_key =>
  if negb (truthy api_key) then
    [print (lit "Error: GOOGLE_API_KEY not found in environment variables.")]
  else
  genai_configure api_key ::
  print (lit "--- Gemini Document Analyzer ---") ::
  let template_path := strip typed_template in
  if negb (path_exists w template_path) then
    [print (lit "Error: Template file '" ++ template_path ++ lit "' not found.")]
  else
  let doc_paths_input := strip typed_docs in
  let doc_paths := map strip (split 44%N doc_paths_input) in
  let (valid_docs, warnings) := check_paths w doc_paths [] in
  warnings ++
  match valid_docs with
  | [] => [print (lit "Error: No valid documents provided.")]
  | _ :: _ =>
  let output_path := strip typed_output in
  if negb (truthy output_path) then
    [print (lit "Error: Output path cannot be empty.")]
  else
  match read_text w template_path with
  | Raises e => [print (lit "Error reading template file: " ++ e)]
  | Returns template_content =>
  match read_docs w 0 valid_docs [] with
  | inr (p, e) => [print (lit "Error reading document '" ++ p ++ lit "': " ++ e)]
  | inl docs_content =>
      print (nl ++ lit "Analyzing documents with Gemini...") ::
      submit w api_key output_path (prompt template_content docs_content)
  end
  end
  end
  end.

Definition calls (t : list event) : list event :=
  filter (fun e => match e with generate_content _ _ => true | _ => false end) t.

End Cli.

(* ===================================================================== *)
(** * The specification's wording, where it is compared with the code     *)
(* ===================================================================== *)

Module Claimed.
Import Py.

(** "a delimiter line carrying that document's 1-based position and its
    filename": some line of the prompt holds both the decimal position
    and the name, for every document of the mapping. *)
Fixpoint position_labelled_from (idx : nat) (p : str) (docs : dict str) : bool :=
  match docs with
  | [] => true
  | (filename, _) :: rest =>
      existsb (fun line => infixb (str_of_nat (idx + 1)) line && infixb filename line)
              (lines p)
      && position_labelled_from (S idx) p rest
  end.

Definition position_labelled (p : str) (docs : dict str) : bool :=
  position_labelled_from 0 p docs.

(** "concatenated with a newline between pages": the page texts joined
    by ["\n"]. *)
Fixpoint join_pages (pages : list str) : str :=
  match pages with
  | [] => []
  | [t] => t
  | t :: rest => t ++ nl ++ join_pages rest
  end.

(** "searched for a line labeled Company name:; the remainder of the
    line": the first line that holds the label, and what follows the
    label on that line. *)
Fixpoint after_label (line : str) : option str :=
  match App.literal_ci App.label line with
  | Some rest => Some rest
  | None =>
      match line with
      | [] => None
      | _ :: line' => after_label line'
      end
  end.

Fixpoint labelled_line (ls : list str) : option str :=
  match ls with
  | [] => None
  | l :: ls' =>
      match after_label l with
      | Some rest => Some rest
      | None => labelled_line ls'
      end
  end.

Definition company_name (text : str) : str :=
  match labelled_line (lines text) with
  | Some rest => strip_set (fun c => mem c App.brackets) (strip rest)
  | None => lit "Company"
  end.

End Claimed.

(* ===================================================================== *)
(** * The shapes the theorems state                                       *)
(* ===================================================================== *)

Module Shape.
Import Py.

(** One document of the web prompt: its delimiter line, its text, a
    newline. *)
Definition doc_block (item : str * str) : str :=
  nl ++ lit "--- Document (" ++ fst item ++ lit ") ---" ++ nl
     ++ snd item ++ nl.

(** What stands before the instruction text, between it and the
    documents, and after the documents. *)
Definition preamble (is_checklist : bool) : str :=
  nl ++ lit "    " ++ App.role_instruction is_checklist ++ nl
  ++ nl
  ++ lit "    Here is the template/checklist you must follow for the output:" ++ nl
  ++ lit "    ".

Definition documents_label : str :=
  nl ++ nl ++ lit "    Here are the documents to analyze:" ++ nl ++ lit "    ".

Definition closing : str :=
  nl ++ nl
  ++ lit "    Please analyze the documents and produce an output that strictly follows the format and structure of the provided template/checklist." ++ nl
  ++ lit "    ".

(** The console script's preamble and closing directive; the documents'
    label is the same in both prompts. *)
Definition cli_preamble : str :=
  nl ++ lit "    You are a helpful assistant that analyzes documents based on a specific template." ++ nl
  ++ nl
  ++ lit "    Here is the template you must follow for the output:" ++ nl
  ++ lit "    ".

Definition cli_closing : str :=
  nl ++ nl
  ++ lit "    Please analyze the documents and produce an output that strictly follows the format and structure of the provided template." ++ nl
  ++ lit "    ".

(** The console script's documents, numbered from [idx + 1]. *)
Fixpoint numbered_blocks (idx : nat) (docs : list (str * str)) : str :=
  match docs with
  | [] => []
  | (p, body) :: rest =>
      (Cli.header idx p ++ body ++ nl) ++ numbered_blocks (S idx) rest
  end.

(** The prompts handed to the service in a trace. *)
Definition prompts (t : list App.event) : list str :=
  flat_map (fun e => match e with
                     | App.generate_content _ p => [p]
                     | _ => []
                     end) t.

Definition two_docs : dict str :=
  [(lit "a.txt", lit "X"); (lit "b.txt", lit "Y")].

(** Two paths with the text every file of [plain_world] reads as. *)
Definition two_docs_read : list (str * str) :=
  [(lit "a.txt", lit "text"); (lit "b.txt", lit "text")].

(** The rational number a finite float stands for. *)
Definition Q_of_float (f : float) : option Q :=
  match Prim2SF f with
  | S754_zero _ => Some 0%Q
  | S754_finite s m e =>
      Some ((if s then -1 else 1) * inject_Z (Zpos m) * Qpower 2 e)%Q
  | _ => None
  end.

(** The estimate in exact arithmetic: 0.3 and 2.5 per million tokens. *)
Definition exact_cost (prompt_count candidates_count : Z) : Q :=
  (inject_Z prompt_count * (3 # 10000000)
   + inject_Z candidates_count * (25 # 10000000))%Q.

(** A float within 1e-9 of a rational. *)
Definition close_to (f : float) (q : Q) : bool :=
  match Q_of_float f with
  | Some v => Qle_bool (Qabs (v - q)) (1 # 1000000000)
  | None => false
  end.

(** Token counts the estimate is evaluated at: none, one side only, a
    million each, uneven counts, and the largest 32-bit counts. *)
Definition sample_counts : list (Z * Z) :=
  [(0, 0); (1000000, 0); (0, 1000000); (1000000, 1000000);
   (2000000, 4000000); (1234, 567); (1, 1); (999999, 1);
   (2147483647, 2147483647)]%Z.

(** The estimate as IEEE 754 binary64 prescribes it: each count
    converted exactly, divided by a million, multiplied by its price,
    and the two products added, every operation rounded to nearest. *)
Definition ieee_cost (prompt_count candidates_count : Z) : spec_float :=
  SF64add
    (SF64mul (SF64div (binary_normalize prec emax prompt_count 0 false)
                      (Prim2SF 1000000))
             (Prim2SF 0.3))
    (SF64mul (SF64div (binary_normalize prec emax candidates_count 0 false)
                      (Prim2SF 1000000))
             (Prim2SF 2.5)).

(** A PDF's text when every page gives its text: each page's text
    followed by a newline. *)
Definition pages_text (texts : list str) : str :=
  List.concat (map (fun t => t ++ nl) texts).

(** The documents that give a non-empty text, with that text, in the
    order of the upload. *)
Definition kept_docs (doc_files : list App.UploadedFile) : dict str :=
  flat_map (fun f => match App.extract f with
                     | Returns (c :: t) => [(App.name f, c :: t)]
                     | _ => []
                     end) doc_files.

(** The console script's document paths, from the typed line. *)
Definition doc_paths_of (typed_docs : str) : list str :=
  map strip (split 44%N (strip typed_docs)).

Definition not_found_warning (p : str) : Cli.event :=
  Cli.print (lit "Warning: Document '" ++ p ++ lit "' not found. Skipping.").

(** A console world with a key, in which every path exists and opens
    for writing, the service answers, and every file reads as ["text"]
    except ["b.txt"], which does not decode. *)
Definition undecodable_b : Cli.World :=
  {| Cli.GOOGLE_API_KEY := Some (lit "key");
     Cli.path_exists := fun _ => true;
     Cli.read_text := fun p =>
       if str_eqb p (lit "b.txt")
       then Raises (lit "'utf-8' codec can't decode byte 0xff")
       else Returns (lit "text");
     Cli.open_w := fun _ => Returns tt;
     Cli.gemini := fun _ _ => Returns (Returns (lit "report")) |}.

(** The same world, but ["b.txt"] does not exist and the rest reads. *)
Definition missing_b : Cli.World :=
  {| Cli.GOOGLE_API_KEY := Some (lit "key");
     Cli.path_exists := fun p => negb (str_eqb p (lit "b.txt"));
     Cli.read_text := fun _ => Returns (lit "text");
     Cli.open_w := fun _ => Returns tt;
     Cli.gemini := fun _ _ => Returns (Returns (lit "report")) |}.

(** The error messages of the documents whose extraction raises. *)
Definition read_errors (doc_files : list App.UploadedFile) : list App.event :=
  flat_map (fun f => match App.extract f with
                     | Raises e =>
                         [App.st_error (lit "Error reading " ++ App.name f
                                            ++ lit ": " ++ e)]
                     | Returns _ => []
                     end) doc_files.

Definition text_file (name body : str) : App.UploadedFile :=
  {| App.name := name; App.type := lit "text/plain";
     App.pdf_pages := Raises (lit "not a PDF");
     App.decoded := Returns body |}.

Definition pdf_file (name : str) (pages : outcome (list (outcome str)))
  : App.UploadedFile :=
  {| App.name := name; App.type := lit "application/pdf";
     App.pdf_pages := pages;
     App.decoded := Raises (lit "'utf-8' codec can't decode byte 0xe2") |}.

End Shape.

(* ===================================================================== *)
(** * app.py: the rest of the page                                        *)
(* ===================================================================== *)

Module Page.
Import Py App.

Definition warning_sign : str := [9888%N; 65039%N].

(** Lines 199-203: the key status in the sidebar. *)
Definition key_status (system_api_key : option str) : io unit :=
  if truthy_opt system_api_key
  then emit (st_success (check_mark ++ lit " System API Key loaded"))
  else emit (st_warning (warning_sign ++ lit " No System API Key found")).

(** Lines 188-227: the sidebar, which shows the status and decides the
    key.  Titles, markdown and dividers are not recorded. *)
Definition sidebar (secret getenv : option str) (user_api_key : str)
  : io (option str) :=
  let system_api_key := system_api_key secret getenv in
  key_status system_api_key ;;;
  emit (st_info (lit "Upload your template and documents to begin analysis.")) ;;;
  ret (api_key user_api_key system_api_key).

(** Lines 345-348: the placeholder of an untouched page. *)
Definition placeholder (analyze_btn : bool)
    (template_file checklist_file : option UploadedFile)
    (doc_files : list UploadedFile) : io unit :=
  if negb analyze_btn && negb (is_some template_file)
     && negb (is_some checklist_file)
     && match doc_files with [] => true | _ :: _ => false end
  then emit (st_info (lit "Results will appear here after analysis."))
  else ret tt.

Section Script.

Variable gemini : str -> str -> outcome Response.
Variable usage_bool : UsageMetadata -> bool.
Variable wide_alnum : char -> bool.

(** One run of the script, from the sidebar down.  After [st.stop()]
    nothing more runs; the only statement left by then is the
    placeholder, which a pressed button rules out anyway. *)
Definition script (secret getenv : option str) (user_api_key : str)
    (analyze_btn : bool) (template_file checklist_file : option UploadedFile)
    (doc_files : list UploadedFile) : io unit :=
  api_key <- sidebar secret getenv user_api_key ;;
  emit (st_subheader (lit "1. Upload Templates")) ;;;
  emit (st_subheader (lit "2. Upload Documents")) ;;;
  emit (st_subheader (lit "3. Results")) ;;;
  (if analyze_btn
   then on_analyze gemini usage_bool wide_alnum api_key template_file
          checklist_file doc_files
   else ret tt) ;;;
  placeholder analyze_btn template_file checklist_file doc_files.

(** The script with the secrets store as it is: where the lookup of
    line 194 raises, the run ends there with that exception. *)
Definition page (secrets : st_secrets) (getenv : option str)
    (user_api_key : str) (analyze_btn : bool)
    (template_file checklist_file : option UploadedFile)
    (doc_files : list UploadedFile) : outcome (io unit) :=
  match secrets with
  | no_secrets_file e => Raises e
  | secrets_file secret =>
      Returns (script secret getenv user_api_key analyze_btn template_file
                 checklist_file doc_files)
  end.

End Script.

End Page.

(* ===================================================================== *)
(** * What the further properties observe                                 *)
(* ===================================================================== *)

Module Observe.
Import Py App.

(** The downloads offered in a trace: data and file name. *)
Definition downloads (t : list event) : list (str * str) :=
  flat_map (fun e => match e with
                     | st_download_button _ data file_name => [(data, file_name)]
                     | _ => []
                     end) t.

(** The texts shown with [st.code]. *)
Definition shown (t : list event) : list str :=
  flat_map (fun e => match e with st_code body => [body] | _ => [] end) t.

(** The keys configured on the client. *)
Definition configured (t : list event) : list str :=
  flat_map (fun e => match e with genai_configure k => [k] | _ => [] end) t.

Definition nonempty {A} (l : list A) : bool :=
  match l with [] => false | _ :: _ => true end.

(** A press gets as far as the analysis: a key, a template or a
    checklist, and a document with text. *)
Definition ready (api_key : option str)
    (template_file checklist_file : option UploadedFile)
    (doc_files : list UploadedFile) : bool :=
  truthy_opt api_key
  && (is_some template_file || is_some checklist_file)
  && nonempty (value (read_docs doc_files [])).

(** The text of an uploaded instruction file, when it has one. *)
Definition instruction_text (file : option UploadedFile) : option str :=
  match file with
  | Some f =>
      match extract f with
      | Returns (c :: t) => Some (c :: t)
      | _ => None
      end
  | None => None
  end.

Definition instruction_prompt (file : option UploadedFile)
    (docs_contents : dict str) (is_checklist : bool) : list str :=
  match instruction_text file with
  | Some text => [prompt text docs_contents is_checklist]
  | None => []
  end.

(** One turn of the documents loop on the mapping. *)
Definition store (docs_contents : dict str) (doc : UploadedFile) : dict str :=
  match extract doc with
  | Returns (c :: t) => dict_set docs_contents (name doc) (c :: t)
  | _ => docs_contents
  end.

(** A character of a safe file name stem. *)
Definition safe_char (wide : char -> bool) (c : char) : Prop :=
  isalnum wide c = true \/ c = 45%N \/ c = 95%N.

(** The console script's writes: path and content. *)
Definition writes (t : list Cli.event) : list (str * str) :=
  flat_map (fun e => match e with
                     | Cli.write_file path content => [(path, content)]
                     | _ => []
                     end) t.

(** The files the console script opens for writing. *)
Definition opens (t : list Cli.event) : list str :=
  flat_map (fun e => match e with Cli.open_for_writing path => [path] | _ => [] end) t.

Definition configures (t : list Cli.event) : list str :=
  flat_map (fun e => match e with Cli.genai_configure k => [k] | _ => [] end) t.

(** A console world with a key in which every path but the empty one
    exists and reads as ["text"], and the service answers. *)
Definition plain_world : Cli.World :=
  {| Cli.GOOGLE_API_KEY := Some (lit "key");
     Cli.path_exists := truthy;
     Cli.read_text := fun _ => Returns (lit "text");
     Cli.open_w := fun _ => Returns tt;
     Cli.gemini := fun _ _ => Returns (Returns (lit "report")) |}.

(** The same world, but the answer has no text: reading
    [response.text] raises. *)
Definition no_text_world : Cli.World :=
  {| Cli.GOOGLE_API_KEY := Some (lit "key");
     Cli.path_exists := truthy;
     Cli.read_text := fun _ => Returns (lit "text");
     Cli.open_w := fun _ => Returns tt;
     Cli.gemini := fun _ _ => Returns (Raises (lit "blocked")) |}.

(** The console script's validations, before any document is read. *)
Definition accepted (w : Cli.World) (typed_template typed_docs typed_output : str)
  : bool :=
  truthy_opt (Cli.GOOGLE_API_KEY w)
  && Cli.path_exists w (strip typed_template)
  && nonempty (filter (Cli.path_exists w) (Shape.doc_paths_of typed_docs))
  && truthy (strip typed_output).

End Observe.

(* ===================================================================== *)
(** * Facts about the string operations                                   *)
(* ===================================================================== *)

Module PyFacts.
Import Py.

Lemma str_eqb_refl (a : str) : str_eqb a a = true.
Proof.
  induction a as [|x a IH]; simpl; [reflexivity|].
  now rewrite N.eqb_refl, IH.
Qed.

Lemma str_eqb_eq (a b : str) : str_eqb a b = true <-> a = b.
Proof.
  split.
  - revert b; induction a as [|x a IH]; intros [|y b] H; simpl in H;
      try discriminate; [reflexivity|].
    apply andb_true_iff in H as [Hx Hab].
    apply N.eqb_eq in Hx. apply IH in Hab. now subst.
  - intros ->. apply str_eqb_refl.
Qed.

Lemma str_eqb_neq (a b : str) : a <> b -> str_eqb a b = false.
Proof.
  intros H. destruct (str_eqb a b) eqn:E; [|reflexivity].
  apply str_eqb_eq in E. contradiction.
Qed.

(** A loop that appends [f x] for each [x] builds the concatenation. *)
Lemma fold_append {A} (f : A -> str) (l : list A) (acc : str) :
  fold_left (fun acc x => acc ++ f x) l acc = acc ++ List.concat (map f l).
Proof.
  revert acc; induction l as [|x l IH]; intros acc; simpl.
  - now rewrite app_nil_r.
  - now rewrite IH, app_assoc.
Qed.

Lemma truthy_true (s : str) : truthy s = true <-> s <> [].
Proof. destruct s; simpl; split; congruence. Qed.

Lemma takewhile_app_stop (p : char -> bool) (a b : str) :
  forallb p a = true ->
  (b = [] \/ exists c b', b = c :: b' /\ p c = false) ->
  takewhile p (a ++ b) = a.
Proof.
  intros Ha Hb. induction a as [|x a IH]; simpl in *.
  - destruct Hb as [->|(c & b' & -> & Hc)]; simpl; [reflexivity|].
    now rewrite Hc.
  - apply andb_true_iff in Ha as [Hx Ha]. rewrite Hx. f_equal. auto.
Qed.

Lemma dict_set_fresh {V} (d : dict V) (k : str) (v : V) :
  ~ In k (keys d) -> dict_set d k v = d ++ [(k, v)].
Proof.
  induction d as [|[k' v'] d IH]; simpl; intros H; [reflexivity|].
  rewrite str_eqb_neq by (intros ->; apply H; now left).
  f_equal. apply IH. intros Hin. apply H. now right.
Qed.

Lemma dict_set_values {V} (P : V -> Prop) (d : dict V) (k : str) (v : V) :
  P v -> Forall (fun kv => P (snd kv)) d ->
  Forall (fun kv => P (snd kv)) (dict_set d k v).
Proof.
  intros Hv. induction 1 as [|[k' v'] d Hx Hd IH]; simpl.
  - now constructor.
  - destruct (str_eqb k' k); constructor; auto.
Qed.

End PyFacts.

(* ===================================================================== *)
(** * Prompt assembly                                                     *)
(* ===================================================================== *)

Module PromptFacts.
Import Py Shape PyFacts.

Lemma prompt_shape (instruction_content : str) (docs_contents : dict str)
    (is_checklist : bool) :
  App.prompt instruction_content docs_contents is_checklist
  = preamble is_checklist ++ instruction_content ++ documents_label
    ++ List.concat (map doc_block docs_contents) ++ closing.
Proof.
  unfold App.prompt, App.combined_docs, preamble, documents_label, closing.
  rewrite (fold_append doc_block).
  rewrite <- !app_assoc. reflexivity.
Qed.

Lemma blocks_split (l1 l2 l3 : dict str) (d1 d2 : str * str) :
  List.concat (map doc_block (l1 ++ d1 :: l2 ++ d2 :: l3))
  = List.concat (map doc_block l1) ++ doc_block d1
    ++ List.concat (map doc_block l2) ++ doc_block d2
    ++ List.concat (map doc_block l3).
Proof.
  rewrite map_app, concat_app. simpl.
  rewrite map_app, concat_app. simpl.
  reflexivity.
Qed.

Lemma doc_block_length (item : str * str) :
  List.length (doc_block item)
  = 22 + List.length (fst item) + List.length (snd item).
Proof.
  unfold doc_block. rewrite !length_app. simpl. lia.
Qed.

Lemma blocks_length (docs : dict str) :
  List.length (List.concat (map doc_block docs))
  = list_sum (map (fun item => 22 + List.length (fst item)
                                  + List.length (snd item)) docs).
Proof.
  induction docs as [|d docs IH]; [reflexivity|].
  cbn [map List.concat list_sum fold_right].
  now rewrite length_app, doc_block_length, IH.
Qed.

(** The console loop, started at any position with any text so far. *)
Lemma cli_read_docs_all (w : Cli.World) (docs : list (str * str)) :
  (forall p body, In (p, body) docs -> Cli.read_text w p = Returns body) ->
  forall idx acc,
    Cli.read_docs w idx (map fst docs) acc = inl (acc ++ numbered_blocks idx docs).
Proof.
  induction docs as [|[p body] docs IH]; intros H idx acc;
    cbn [map fst Cli.read_docs numbered_blocks].
  - now rewrite app_nil_r.
  - rewrite (H p body) by now left.
    rewrite IH by (intros; apply H; now right).
    now rewrite <- !app_assoc.
Qed.

Lemma numbered_blocks_nth (docs : list (str * str)) :
  forall idx i p body,
    nth_error docs i = Some (p, body) ->
    numbered_blocks idx docs
    = numbered_blocks idx (firstn i docs)
      ++ (Cli.header (idx + i) p ++ body ++ nl)
      ++ numbered_blocks (idx + S i) (skipn (S i) docs).
Proof.
  induction docs as [|[q b] docs IH]; intros idx i p body H.
  - destruct i; discriminate.
  - destruct i as [|i]; simpl in H.
    + injection H as -> ->.
      cbn [firstn skipn numbered_blocks app].
      now rewrite Nat.add_0_r, Nat.add_1_r.
    + change (skipn (S (S i)) ((q, b) :: docs)) with (skipn (S i) docs).
      cbn [firstn numbered_blocks].
      rewrite (IH (S idx) i p body H).
      replace (S idx + i) with (idx + S i) by lia.
      replace (S idx + S i) with (idx + S (S i)) by lia.
      now rewrite <- !app_assoc.
Qed.

Lemma cli_prompt_shape (template_content docs_content : str) :
  Cli.prompt template_content docs_content
  = cli_preamble ++ template_content ++ documents_label ++ docs_content
    ++ cli_closing.
Proof.
  unfold Cli.prompt, cli_preamble, documents_label, cli_closing.
  rewrite <- !app_assoc. reflexivity.
Qed.

(** C1, as the code has it.  In both variants the prompt is the
    preamble, the instruction text, the documents' label, one block per
    document in order, and the closing directive: the instruction text
    and every document's text are embedded once each, and a document
    listed earlier has its block earlier.  In the web front end a
    block's delimiter line is [--- Document (<filename>) ---], with the
    filename and no position; in the console script it is
    [--- Document <i> (<path>) ---] with the 1-based position [i]. *)
Theorem prompt_embeds_documents_in_order :
  forall (instruction_content : str) (is_checklist : bool)
         (docs_contents : dict str),
    App.prompt instruction_content docs_contents is_checklist
    = preamble is_checklist ++ instruction_content ++ documents_label
      ++ List.concat (map doc_block docs_contents) ++ closing
    /\ (forall l1 d1 l2 d2 l3,
          docs_contents = l1 ++ d1 :: l2 ++ d2 :: l3 ->
          App.prompt instruction_content docs_contents is_checklist
          = (preamble is_checklist ++ instruction_content ++ documents_label
               ++ List.concat (map doc_block l1))
            ++ doc_block d1
            ++ List.concat (map doc_block l2)
            ++ doc_block d2
            ++ (List.concat (map doc_block l3) ++ closing))
    /\ List.length (App.prompt instruction_content docs_contents is_checklist)
       = List.length (preamble is_checklist) + List.length instruction_content
         + List.length documents_label
         + list_sum (map (fun item => 22 + List.length (fst item)
                                         + List.length (snd item)) docs_contents)
         + List.length closing
    /\ (forall (w : Cli.World) (docs : list (str * str)),
          (forall p body, In (p, body) docs -> Cli.read_text w p = Returns body) ->
          Cli.read_docs w 0 (map fst docs) [] = inl (numbered_blocks 0 docs))
    /\ (forall (docs : list (str * str)) i p body,
          nth_error docs i = Some (p, body) ->
          numbered_blocks 0 docs
          = numbered_blocks 0 (firstn i docs)
            ++ ((nl ++ lit "--- Document " ++ str_of_nat (i + 1) ++ lit " ("
                    ++ p ++ lit ") ---" ++ nl)
                ++ body ++ nl)
            ++ numbered_blocks (S i) (skipn (S i) docs))
    /\ (forall (w : Cli.World) (docs : list (str * str)) (template_content : str),
          (forall p body, In (p, body) docs -> Cli.read_text w p = Returns body) ->
          exists docs_content,
            Cli.read_docs w 0 (map fst docs) [] = inl docs_content
            /\ Cli.prompt template_content docs_content
               = cli_preamble ++ template_content ++ documents_label
                 ++ numbered_blocks 0 docs ++ cli_closing
            /\ List.length (Cli.prompt template_content docs_content)
               = List.length cli_preamble + List.length template_content
                 + List.length documents_label
                 + List.length (numbered_blocks 0 docs)
                 + List.length cli_closing).
Proof.
  intros instruction_content is_checklist docs_contents.
  split; [apply prompt_shape|].
  split.
  { intros l1 d1 l2 d2 l3 ->.
    rewrite prompt_shape, blocks_split, <- !app_assoc. reflexivity. }
  split.
  { rewrite prompt_shape, !length_app, blocks_length. lia. }
  split.
  { intros w docs H. now rewrite (cli_read_docs_all w docs H 0 []). }
  split.
  { intros docs i p body H.
    exact (numbered_blocks_nth docs 0 i p body H). }
  intros w docs template_content H.
  exists (numbered_blocks 0 docs).
  split; [now rewrite (cli_read_docs_all w docs H 0 [])|].
  rewrite cli_prompt_shape. split; [reflexivity|].
  rewrite !length_app. lia.
Qed.

(** The web prompt for [{"a.txt": "X", "b.txt": "Y"}] has the "a.txt"
    block before the "b.txt" block; the console prompt for two files
    that read has the template and the two numbered blocks. *)
Lemma prompt_embeds_documents_in_order_witness :
  App.prompt (lit "T") two_docs false
  = (preamble false ++ lit "T" ++ documents_label ++ [])
    ++ doc_block (lit "a.txt", lit "X")
    ++ []
    ++ doc_block (lit "b.txt", lit "Y")
    ++ ([] ++ closing)
  /\ exists docs_content,
       Cli.read_docs Observe.plain_world 0 (map fst two_docs_read) []
       = inl docs_content
       /\ Cli.prompt (lit "T") docs_content
          = cli_preamble ++ lit "T" ++ documents_label
            ++ numbered_blocks 0 two_docs_read ++ cli_closing
       /\ List.length (Cli.prompt (lit "T") docs_content)
          = List.length cli_preamble + List.length (lit "T")
            + List.length documents_label
            + List.length (numbered_blocks 0 two_docs_read)
            + List.length cli_closing.
Proof.
  split.
  - exact (proj1 (proj2 (prompt_embeds_documents_in_order (lit "T") false two_docs))
             [] (lit "a.txt", lit "X") [] (lit "b.txt", lit "Y") [] eq_refl).
  - refine (proj2 (proj2 (proj2 (proj2 (proj2
              (prompt_embeds_documents_in_order (lit "T") false two_docs)))))
              Observe.plain_world two_docs_read (lit "T") _).
    intros p body [H|[H|[]]]; injection H as <- <-; reflexivity.
Defined.

(** C1 as stated fails on the web front end: in the prompt for
    [{"a.txt": "X", "b.txt": "Y"}] no line carries a document's position
    together with its filename, while the same documents in the console
    script's text are so labelled. *)
Lemma web_prompt_has_no_position :
  Claimed.position_labelled (App.prompt (lit "T") two_docs false) two_docs = false
  /\ nth 8 (lines (App.prompt (lit "T") two_docs false)) [] = lit "--- Document (a.txt) ---"
  /\ Claimed.position_labelled (numbered_blocks 0 two_docs) two_docs = true.
Proof. vm_compute. repeat split. Qed.

End PromptFacts.

(* ===================================================================== *)
(** * The analysis call                                                   *)
(* ===================================================================== *)

Module AnalysisFacts.
Import Py Shape App.

(** Whatever the service answers, one call is made, with the assembled
    prompt, after the key is configured. *)
Lemma analyze_documents_trace (gemini : str -> str -> outcome Response)
    (key instruction_content : str) (docs_contents : dict str)
    (is_checklist : bool) :
  trace (analyze_documents gemini key instruction_content docs_contents is_checklist)
  = [genai_configure key;
     generate_content model_name
       (prompt instruction_content docs_contents is_checklist)].
Proof.
  unfold analyze_documents, trace, bind, emit, ret.
  destruct (gemini key _) as [response|e]; [destruct (text response)|];
    reflexivity.
Qed.

Lemma analyze_documents_raises (gemini : str -> str -> outcome Response)
    (key instruction_content : str) (docs_contents : dict str)
    (is_checklist : bool) (e : str) :
  gemini key (prompt instruction_content docs_contents is_checklist) = Raises e ->
  value (analyze_documents gemini key instruction_content docs_contents is_checklist)
  = (lit "Error during analysis: " ++ e, None).
Proof.
  intros H. unfold analyze_documents, value, bind, emit, ret.
  now rewrite H.
Qed.

Lemma analyze_documents_text_raises (gemini : str -> str -> outcome Response)
    (key instruction_content : str) (docs_contents : dict str)
    (is_checklist : bool) (response : Response) (e : str) :
  gemini key (prompt instruction_content docs_contents is_checklist)
    = Returns response ->
  text response = Raises e ->
  value (analyze_documents gemini key instruction_content docs_contents is_checklist)
  = (lit "Error during analysis: " ++ e, None).
Proof.
  intros H Ht. unfold analyze_documents, value, bind, emit, ret.
  now rewrite H, Ht.
Qed.

(** C2.  When the generation call raises, or the response raises when
    its text is read, [analyze_documents] still returns: the result text
    is ["Error during analysis: "] followed by the exception's text, so
    it is not empty, and the usage is [None]. *)
Theorem service_failure_is_returned :
  forall (gemini : str -> str -> outcome Response)
         (api_key instruction_content : str) (docs_contents : dict str)
         (is_checklist : bool) (e : str),
    (gemini api_key (prompt instruction_content docs_contents is_checklist)
       = Raises e
     \/ exists response,
          gemini api_key (prompt instruction_content docs_contents is_checklist)
            = Returns response
          /\ text response = Raises e) ->
    value (analyze_documents gemini api_key instruction_content docs_contents
             is_checklist)
    = (lit "Error during analysis: " ++ e, None)
    /\ fst (value (analyze_documents gemini api_key instruction_content
                     docs_contents is_checklist)) <> []
    /\ snd (value (analyze_documents gemini api_key instruction_content
                     docs_contents is_checklist)) = None.
Proof.
  intros gemini api_key instruction_content docs_contents is_checklist e H.
  assert (E : value (analyze_documents gemini api_key instruction_content
                       docs_contents is_checklist)
              = (lit "Error during analysis: " ++ e, None)).
  { destruct H as [H|(response & H & Ht)].
    - now apply analyze_documents_raises.
    - now apply analyze_documents_text_raises with response. }
  rewrite E. repeat split. discriminate.
Qed.

(** A service that is out of quota. *)
Lemma service_failure_is_returned_witness :
  value (analyze_documents (fun _ _ => Raises (lit "429 quota exceeded"))
           (lit "key") (lit "T") two_docs false)
  = (lit "Error during analysis: 429 quota exceeded", None).
Proof.
  exact (proj1 (service_failure_is_returned
                  (fun _ _ => Raises (lit "429 quota exceeded"))
                  (lit "key") (lit "T") two_docs false
                  (lit "429 quota exceeded") (or_introl eq_refl))).
Defined.

End AnalysisFacts.

(* ===================================================================== *)
(** * The checklist's file name                                           *)
(* ===================================================================== *)

Module FilenameFacts.
Import Py Shape App PyFacts.

Lemma literal_ci_app (pat lbl s : str) :
  map lower lbl = map lower pat -> literal_ci pat (lbl ++ s) = Some s.
Proof.
  revert lbl; induction pat as [|p pat IH]; intros [|c lbl] H;
    try discriminate; [reflexivity|].
  cbn [map] in H. injection H as Hc Hl.
  cbn [literal_ci app]. rewrite Hc, N.eqb_refl. now apply IH.
Qed.

Lemma isspace_not_newline (b : char) : isspace b = false -> not_newline b = true.
Proof.
  unfold not_newline. destruct (b =? 10)%N eqn:E; [|reflexivity].
  apply N.eqb_eq in E. subst b. discriminate.
Qed.

Lemma group_dot_plus_line (b : char) (body rest : str) :
  not_newline b = true ->
  forallb not_newline body = true ->
  (rest = [] \/ exists r, rest = 10%N :: r) ->
  group_dot_plus ((b :: body) ++ rest) = Some (b :: body).
Proof.
  intros Hb Hbody Hrest. unfold group_dot_plus.
  rewrite takewhile_app_stop.
  - reflexivity.
  - cbn [forallb]. now rewrite Hb.
  - destruct Hrest as [->|(r & ->)]; [now left|right].
    now exists 10%N, r.
Qed.

(** [\s*] runs over all the white space, line breaks included, when a
    character that is not white space follows. *)
Lemma spaces_then_group_skips (ws : str) (b : char) (body rest : str) :
  forallb isspace ws = true ->
  isspace b = false ->
  forallb not_newline body = true ->
  (rest = [] \/ exists r, rest = 10%N :: r) ->
  spaces_then_group (ws ++ (b :: body) ++ rest) = Some (b :: body).
Proof.
  intros Hws Hb Hbody Hrest.
  induction ws as [|c ws IH].
  - cbn [app spaces_then_group]. rewrite Hb.
    apply (group_dot_plus_line b body rest); auto using isspace_not_newline.
  - cbn [forallb] in Hws. apply andb_true_iff in Hws as [Hc Hws].
    cbn [app spaces_then_group]. rewrite Hc.
    change (ws ++ b :: body ++ rest) with (ws ++ (b :: body) ++ rest).
    now rewrite IH.
Qed.

(** Positions at which the pattern does not match are passed over. *)
Lemma re_search_skip (pre s : str) :
  (forall k, k < List.length pre -> match_at (skipn k (pre ++ s)) = None) ->
  re_search (pre ++ s) = re_search s.
Proof.
  induction pre as [|c pre IH]; intros H; [reflexivity|].
  assert (H0 : match_at ((c :: pre) ++ s) = None)
    by (apply (H 0); cbn [List.length]; lia).
  cbn [app re_search] in *. rewrite H0.
  apply IH. intros k Hk.
  apply (H (S k)). cbn [List.length]. lia.
Qed.

Lemma re_search_here (s g : str) : match_at s = Some g -> re_search s = Some g.
Proof. intros H. destruct s; cbn [re_search]; now rewrite H. Qed.

Lemma re_search_found (pre lbl ws : str) (b : char) (body rest : str) :
  (forall k, k < List.length pre ->
             match_at (skipn k (pre ++ lbl ++ ws ++ (b :: body) ++ rest)) = None) ->
  map lower lbl = map lower label ->
  forallb isspace ws = true ->
  isspace b = false ->
  forallb not_newline body = true ->
  (rest = [] \/ exists r, rest = 10%N :: r) ->
  re_search (pre ++ lbl ++ ws ++ (b :: body) ++ rest) = Some (b :: body).
Proof.
  intros Hpre Hlbl Hws Hb Hbody Hrest.
  rewrite re_search_skip by exact Hpre.
  apply re_search_here. unfold match_at.
  rewrite literal_ci_app by exact Hlbl.
  now apply spaces_then_group_skips.
Qed.

Lemma In_dropwhile (p : char -> bool) (c : char) (s : str) :
  In c (dropwhile p s) -> In c s.
Proof.
  induction s as [|x s IH]; cbn [dropwhile]; [easy|].
  destruct (p x); [intros H; right; auto|easy].
Qed.

Lemma In_strip_set (p : char -> bool) (c : char) (s : str) :
  In c (strip_set p s) -> In c s.
Proof.
  unfold strip_set. intros H.
  apply In_dropwhile with p. apply in_rev.
  apply In_dropwhile with p. now apply in_rev.
Qed.

Lemma kept_cases (wide : char -> bool) (c : char) :
  kept wide c = true ->
  isalnum wide c = true \/ c = 32%N \/ c = 45%N \/ c = 95%N.
Proof.
  unfold kept. intros H. apply orb_true_iff in H as [H|H]; [now left|right].
  change (lit " -_") with [32%N; 45%N; 95%N] in H.
  cbn [mem existsb] in H.
  repeat (apply orb_true_iff in H as [H|H]);
    try (apply N.eqb_eq in H; subst; auto); discriminate.
Qed.

(** Only letters, digits, hyphens and underscores are left in the name. *)
Lemma safe_company_name_chars (wide : char -> bool) (company_name : str) :
  Forall (fun c => isalnum wide c = true \/ c = 45%N \/ c = 95%N)
         (safe_company_name wide company_name).
Proof.
  unfold safe_company_name, replace. apply Forall_forall. intros c Hc.
  apply in_map_iff in Hc as (x & <- & Hx).
  apply In_strip_set, filter_In in Hx as [_ Hx].
  cbv beta.
  destruct (x =? 32)%N eqn:E; [now right; right|].
  apply N.eqb_neq in E.
  destruct (kept_cases wide x Hx) as [H|[H|[H|H]]]; auto; contradiction.
Qed.

Lemma literal_ci_inv (pat s r : str) :
  literal_ci pat s = Some r ->
  exists l, s = l ++ r /\ map lower l = map lower pat.
Proof.
  revert s; induction pat as [|p pat IH]; intros s H.
  - cbn in H. injection H as <-. now exists [].
  - destruct s as [|c s]; [discriminate|]. cbn [literal_ci] in H.
    destruct (lower c =? lower p)%N eqn:E; [|discriminate].
    apply N.eqb_eq in E. apply IH in H as (l & -> & Hl).
    exists (c :: l). split; [reflexivity|]. cbn [map]. now rewrite E, Hl.
Qed.

Lemma takewhile_forallb (p q : char -> bool) (s : str) :
  forallb q s = true -> forallb q (takewhile p s) = true.
Proof.
  induction s as [|c s IH]; cbn [takewhile forallb]; [reflexivity|].
  intros H. apply andb_true_iff in H as [Hc Hs].
  destruct (p c); [|reflexivity]. cbn [forallb]. now rewrite Hc, IH.
Qed.

(** What the group captures inside a run of white space is white space. *)
Lemma spaces_then_group_blank (s g : str) :
  forallb isspace s = true ->
  spaces_then_group s = Some g -> forallb isspace g = true.
Proof.
  revert g; induction s as [|c s IH]; intros g Hs H; [discriminate|].
  assert (G : group_dot_plus (c :: s) = Some g -> forallb isspace g = true).
  { unfold group_dot_plus. intros Hg.
    assert (g = takewhile not_newline (c :: s))
      by (destruct (takewhile not_newline (c :: s)); [discriminate|congruence]).
    subst g. now apply takewhile_forallb. }
  cbn [spaces_then_group] in H. cbn [forallb] in Hs.
  apply andb_true_iff in Hs as [Hc Hs]. rewrite Hc in H.
  destruct (spaces_then_group s) as [g'|] eqn:E; [|now apply G].
  injection H as <-. now apply IH.
Qed.

(** In a run of white space that is not all line breaks, the white
    space is given back until the group finds a character to match. *)
Lemma spaces_then_group_gives_back (s : str) :
  forallb isspace s = true ->
  existsb not_newline s = true -> spaces_then_group s <> None.
Proof.
  induction s as [|c s IH]; [discriminate|].
  cbn [forallb existsb spaces_then_group]. intros Hs H.
  apply andb_true_iff in Hs as [Hc Hs]. rewrite Hc.
  destruct (spaces_then_group s) eqn:E; [discriminate|].
  apply orb_true_iff in H as [H|H]; [|now apply IH in H].
  unfold group_dot_plus. cbn [takewhile]. rewrite H. discriminate.
Qed.

Lemma spaces_then_group_newlines (s : str) :
  Forall (fun c => c = 10%N) s -> spaces_then_group s = None.
Proof.
  induction 1 as [|c s Hc Hs IH]; [reflexivity|].
  subst c. cbn [spaces_then_group]. rewrite IH. reflexivity.
Qed.

Lemma strip_all_space (s : str) : forallb isspace s = true -> strip s = [].
Proof.
  intros H. unfold strip, strip_set.
  assert (D : dropwhile isspace s = []).
  { induction s as [|c s IH]; [reflexivity|].
    cbn [forallb] in H. apply andb_true_iff in H as [Hc Hs].
    cbn [dropwhile]. rewrite Hc. now apply IH. }
  now rewrite D.
Qed.

(** The label needs thirteen characters, none of them a line break. *)
Lemma label_needs_thirteen (a nls : str) :
  List.length a < 13 -> Forall (fun c => c = 10%N) nls ->
  literal_ci label (a ++ nls) = None.
Proof.
  intros Ha Hn. destruct (literal_ci label (a ++ nls)) as [r|] eqn:E;
    [exfalso|reflexivity].
  apply literal_ci_inv in E as (l & E & Hl).
  assert (Hlen : List.length l = 13).
  { rewrite <- (length_map lower l), Hl. reflexivity. }
  apply app_eq_app in E as (m & [[-> _]|[-> ->]]).
  - rewrite length_app in Ha. lia.
  - rewrite length_app in Hlen.
    destruct m as [|x m]; [cbn in Hlen; lia|].
    rewrite Forall_forall in Hn.
    assert (x = 10%N) by (apply Hn, in_or_app; left; now left). subst x.
    assert (Hin : In (lower 10%N) (map lower label)).
    { rewrite <- Hl. apply in_map, in_or_app. right. now left. }
    vm_compute in Hin.
    repeat (destruct Hin as [Hin|Hin]; [discriminate|]). exact Hin.
Qed.

Lemma In_skipn (n : nat) (l : str) (x : char) : In x (skipn n l) -> In x l.
Proof.
  revert l; induction n as [|n IH]; intros [|c l]; cbn [skipn]; auto.
  intros H. right. now apply IH.
Qed.

Lemma re_search_none (s : str) :
  (forall k, k <= List.length s -> match_at (skipn k s) = None) ->
  re_search s = None.
Proof.
  induction s as [|c s IH]; intros H.
  - assert (H0 : match_at [] = None) by (apply (H 0); cbn; lia).
    cbn [re_search]. now rewrite H0.
  - cbn [re_search].
    assert (H0 : match_at (c :: s) = None) by (apply (H 0); cbn; lia).
    rewrite H0. apply IH. intros k Hk.
    apply (H (S k)). cbn [List.length]. lia.
Qed.

(** The label with nothing after it but line breaks matches nowhere. *)
Lemma re_search_label_then_newlines (pre lbl nls : str) :
  (forall k, k < List.length pre ->
             match_at (skipn k (pre ++ lbl ++ nls)) = None) ->
  map lower lbl = map lower label ->
  Forall (fun c => c = 10%N) nls ->
  re_search (pre ++ lbl ++ nls) = None.
Proof.
  intros Hpre Hlbl Hn.
  rewrite re_search_skip by exact Hpre.
  assert (Hlen : List.length lbl = 13).
  { rewrite <- (length_map lower lbl), Hlbl. reflexivity. }
  apply re_search_none. intros [|k] _.
  - cbn [skipn]. unfold match_at. rewrite literal_ci_app by exact Hlbl.
    now apply spaces_then_group_newlines.
  - rewrite skipn_app. unfold match_at.
    rewrite label_needs_thirteen; [reflexivity| |].
    + rewrite length_skipn. lia.
    + apply Forall_forall. intros x Hx. apply In_skipn in Hx.
      rewrite Forall_forall in Hn. now apply Hn.
Qed.

(** The label with white space after it to the end of the text, not all
    of it line breaks: the name is empty. *)
Lemma extract_blank_after_label (pre lbl ws : str) :
  (forall k, k < List.length pre ->
             match_at (skipn k (pre ++ lbl ++ ws)) = None) ->
  map lower lbl = map lower label ->
  forallb isspace ws = true ->
  existsb not_newline ws = true ->
  extract_company_name (pre ++ lbl ++ ws) = [].
Proof.
  intros Hpre Hlbl Hws Hsome. unfold extract_company_name.
  rewrite re_search_skip by exact Hpre.
  destruct (spaces_then_group ws) as [g|] eqn:E;
    [|now apply spaces_then_group_gives_back in E].
  rewrite (re_search_here (lbl ++ ws) g)
    by (unfold match_at; now rewrite literal_ci_app).
  now rewrite (strip_all_space g (spaces_then_group_blank ws g Hws E)).
Qed.

(** C4, as the code has it.  The file name is ["checklist_"], the
    sanitized name and [".txt"]; the sanitized name keeps only
    alphanumerics, spaces, hyphens and underscores of the company name,
    trimmed, with spaces turned into underscores.  The company name is
    ["Company"] when the pattern matches nowhere.  Where the label
    occurs first (in any letter case), the white space after it is
    skipped, line breaks included, and the name is the text from the
    first character that is not white space to the end of its line,
    with surrounding white space and brackets stripped: the remainder of
    the label's line, or, when that is blank, the next line that is not.
    When nothing but white space follows the label to the end of the
    text, the name is empty (file name ["checklist_.txt"]) if that white
    space holds a character other than a line break, and the pattern
    does not match there (name ["Company"]) if it is empty or all line
    breaks. *)
Theorem checklist_filename_derivation :
  forall (wide : char -> bool) (text : str),
    filename wide (extract_company_name text)
    = lit "checklist_"
      ++ replace 32%N 95%N
           (strip (filter (fun c => isalnum wide c || mem c (lit " -_"))
                          (extract_company_name text)))
      ++ lit ".txt"
    /\ Forall (fun c => isalnum wide c = true \/ c = 45%N \/ c = 95%N)
              (safe_company_name wide (extract_company_name text))
    /\ (re_search text = None ->
        extract_company_name text = lit "Company"
        /\ filename wide (extract_company_name text) = lit "checklist_Company.txt")
    /\ (forall pre lbl ws b body rest,
          text = pre ++ lbl ++ ws ++ (b :: body) ++ rest ->
          (forall k, k < List.length pre -> match_at (skipn k text) = None) ->
          map lower lbl = map lower (lit "Company name:") ->
          forallb isspace ws = true ->
          isspace b = false ->
          forallb not_newline body = true ->
          (rest = [] \/ exists r, rest = 10%N :: r) ->
          extract_company_name text
          = strip_set (fun c => mem c (lit "[]")) (strip (b :: body)))
    /\ filename wide
         (extract_company_name (lit "Company name: Acme, Inc. [Confidential]"))
       = lit "checklist_Acme_Inc_Confidential.txt"
    /\ (forall pre lbl ws,
          text = pre ++ lbl ++ ws ->
          (forall k, k < List.length pre -> match_at (skipn k text) = None) ->
          map lower lbl = map lower (lit "Company name:") ->
          forallb isspace ws = true ->
          existsb not_newline ws = true ->
          extract_company_name text = []
          /\ filename wide (extract_company_name text) = lit "checklist_.txt")
    /\ (forall pre lbl nls,
          text = pre ++ lbl ++ nls ->
          (forall k, k < List.length pre -> match_at (skipn k text) = None) ->
          map lower lbl = map lower (lit "Company name:") ->
          Forall (fun c => c = 10%N) nls ->
          re_search text = None
          /\ extract_company_name text = lit "Company"
          /\ filename wide (extract_company_name text)
             = lit "checklist_Company.txt")
    /\ filename wide (extract_company_name (lit "Company name: "))
       = lit "checklist_.txt"
    /\ filename wide (extract_company_name (lit "Company name:"))
       = lit "checklist_Company.txt".
Proof.
  intros wide text.
  split; [reflexivity|].
  split; [apply safe_company_name_chars|].
  split.
  { intros H. unfold extract_company_name. rewrite H.
    split; [reflexivity|]. vm_compute. reflexivity. }
  split.
  { intros pre lbl ws b body rest -> Hpre Hlbl Hws Hb Hbody Hrest.
    unfold extract_company_name.
    now rewrite (re_search_found pre lbl ws b body rest Hpre Hlbl Hws Hb Hbody Hrest). }
  split; [vm_compute; reflexivity|].
  split.
  { intros pre lbl ws -> Hpre Hlbl Hws Hsome.
    rewrite (extract_blank_after_label pre lbl ws Hpre Hlbl Hws Hsome).
    split; [reflexivity|]. vm_compute. reflexivity. }
  split.
  { intros pre lbl nls -> Hpre Hlbl Hn.
    pose proof (re_search_label_then_newlines pre lbl nls Hpre Hlbl Hn) as E.
    split; [exact E|]. unfold extract_company_name. rewrite E.
    split; [reflexivity|]. vm_compute. reflexivity. }
  split; vm_compute; reflexivity.
Qed.

(** A checklist whose label is in capitals, on the second line, with
    the name in brackets; and one that ends after the label, a blank
    and a line break. *)
Lemma checklist_filename_derivation_witness :
  extract_company_name
    (lit "Report" ++ nl ++ lit "COMPANY NAME:  [Acme Corp]" ++ nl ++ lit "Date: today")
  = lit "Acme Corp"
  /\ extract_company_name (lit "Report" ++ nl ++ lit "company NAME: " ++ nl) = []
  /\ filename (fun _ => false)
       (extract_company_name (lit "Report" ++ nl ++ lit "company NAME: " ++ nl))
     = lit "checklist_.txt".
Proof.
  split.
  - refine (proj1 (proj2 (proj2 (proj2
              (checklist_filename_derivation (fun _ => false)
                 (lit "Report" ++ nl ++ lit "COMPANY NAME:  [Acme Corp]" ++ nl
                      ++ lit "Date: today")))))
              (lit "Report" ++ nl) (lit "COMPANY NAME:") (lit "  ")
              91%N (lit "Acme Corp]") (nl ++ lit "Date: today")
              eq_refl _ eq_refl eq_refl eq_refl eq_refl _).
    + intros k Hk.
      do 7 (destruct k as [|k]; [vm_compute; reflexivity|]).
      vm_compute in Hk. lia.
    + right. now exists (lit "Date: today").
  - refine (proj1 (proj2 (proj2 (proj2 (proj2 (proj2
              (checklist_filename_derivation (fun _ => false)
                 (lit "Report" ++ nl ++ lit "company NAME: " ++ nl)))))))
              (lit "Report" ++ nl) (lit "company NAME:") (lit " " ++ nl)
              eq_refl _ eq_refl eq_refl eq_refl).
    intros k Hk.
    do 7 (destruct k as [|k]; [vm_compute; reflexivity|]).
    vm_compute in Hk. lia.
Defined.

(** C4 as stated fails when nothing but white space follows the label on
    its line: the name then comes from the next line, where the claim
    gives the empty remainder of the label's line (or the default). *)
Lemma name_taken_from_next_line :
  extract_company_name (lit "Company name:" ++ nl ++ lit "Date: 2024-01-01")
  = lit "Date: 2024-01-01"
  /\ Claimed.company_name (lit "Company name:" ++ nl ++ lit "Date: 2024-01-01") = []
  /\ extract_company_name (lit "Company name:" ++ nl ++ lit "Date: 2024-01-01")
     <> Claimed.company_name (lit "Company name:" ++ nl ++ lit "Date: 2024-01-01")
  /\ extract_company_name (lit "Company name:" ++ nl ++ lit "Date: 2024-01-01")
     <> lit "Company"
  /\ filename (fun _ => false)
       (extract_company_name (lit "Company name:" ++ nl ++ lit "Date: 2024-01-01"))
     = lit "checklist_Date_2024-01-01.txt".
Proof. vm_compute. repeat split; discriminate. Qed.

End FilenameFacts.

(* ===================================================================== *)
(** * The cost estimate                                                   *)
(* ===================================================================== *)

Module CostFacts.
Import Py Shape App.

Lemma display_cost_stats_some (usage_bool : UsageMetadata -> bool)
    (u : UsageMetadata) :
  usage_bool u = true ->
  trace (display_cost_stats usage_bool (Some u))
  = [usage_stats (total_token_count u) (prompt_token_count u)
       (candidates_token_count u)
       (total_cost (prompt_token_count u) (candidates_token_count u))].
Proof. intros H. unfold display_cost_stats. now rewrite H. Qed.

Lemma million_tokens_each_within_tolerance :
  exists q, Q_of_float (total_cost 1000000 1000000) = Some q
            /\ (Qabs (q - (28 # 10)) <= (1 # 1000000000))%Q.
Proof.
  eexists. split; [vm_compute; reflexivity|].
  apply Qle_bool_iff. vm_compute. reflexivity.
Qed.

Lemma float_of_int_spec (n : Z) :
  (0 <= n < 2 ^ 31)%Z ->
  Prim2SF (float_of_int n) = binary_normalize prec emax n 0 false.
Proof.
  intros H. unfold float_of_int.
  replace (n <? 0)%Z with false by (symmetry; apply Z.ltb_ge; lia).
  rewrite of_uint63_spec, Uint63.of_Z_spec, Z.mod_small; [reflexivity|].
  change wB with (2 ^ 63)%Z. lia.
Qed.

Lemma total_cost_spec (prompt_count candidates_count : Z) :
  (0 <= prompt_count < 2 ^ 31)%Z ->
  (0 <= candidates_count < 2 ^ 31)%Z ->
  Prim2SF (total_cost prompt_count candidates_count)
  = ieee_cost prompt_count candidates_count.
Proof.
  intros Hp Hc. unfold total_cost, ieee_cost.
  rewrite FloatAxioms.add_spec, !FloatAxioms.mul_spec, !FloatAxioms.div_spec.
  rewrite !float_of_int_spec by assumption.
  reflexivity.
Qed.

Lemma sample_costs_close :
  forallb (fun pc => close_to (total_cost (fst pc) (snd pc))
                       (exact_cost (fst pc) (snd pc)))
          sample_counts = true.
Proof. vm_compute. reflexivity. Qed.

(** C5.  With usage present and its counters in their 32-bit range,
    the estimate shown is [P / 1,000,000 * 0.3 + C / 1,000,000 * 2.5]
    as IEEE 754 binary64 evaluates it on the exact counts.  For a
    million tokens each way it is the double 2.8, within 1e-9 of the
    rational 2.8; at each of the sample counts it is within 1e-9 of the
    exact value; input tokens alone cost 0.3 per million and output
    tokens alone 2.5.  With usage absent nothing is shown: no estimate,
    not a zero. *)
Theorem cost_estimate :
  forall (usage_bool : UsageMetadata -> bool) (u : UsageMetadata),
    usage_bool u = true ->
    (0 <= prompt_token_count u < 2 ^ 31)%Z ->
    (0 <= candidates_token_count u < 2 ^ 31)%Z ->
    trace (display_cost_stats usage_bool (Some u))
    = [usage_stats (total_token_count u) (prompt_token_count u)
         (candidates_token_count u)
         (float_of_int (prompt_token_count u) / 1000000 * 0.3
          + float_of_int (candidates_token_count u) / 1000000 * 2.5)%float]
    /\ total_cost 1000000 1000000 = 2.8%float
    /\ (exists q, Q_of_float (total_cost 1000000 1000000) = Some q
                  /\ (Qabs (q - (28 # 10)) <= (1 # 1000000000))%Q)
    /\ trace (display_cost_stats usage_bool None) = []
    /\ (exists cost,
          trace (display_cost_stats usage_bool (Some u))
          = [usage_stats (total_token_count u) (prompt_token_count u)
               (candidates_token_count u) cost]
          /\ Prim2SF cost
             = ieee_cost (prompt_token_count u) (candidates_token_count u))
    /\ Prim2SF (float_of_int (prompt_token_count u))
       = binary_normalize prec emax (prompt_token_count u) 0 false
    /\ forallb (fun pc => close_to (total_cost (fst pc) (snd pc))
                            (exact_cost (fst pc) (snd pc)))
               sample_counts = true
    /\ total_cost 1000000 0 = 0.3%float
    /\ total_cost 0 1000000 = 2.5%float
    /\ total_cost 0 0 = 0%float.
Proof.
  intros usage_bool u H Hp Hc.
  split; [now apply display_cost_stats_some|].
  split; [vm_compute; reflexivity|].
  split; [exact million_tokens_each_within_tolerance|].
  split; [reflexivity|].
  split.
  { eexists. split; [now apply display_cost_stats_some|].
    now apply total_cost_spec. }
  split; [now apply float_of_int_spec|].
  split; [exact sample_costs_close|].
  repeat split; vm_compute; reflexivity.
Qed.

(** A response that used a million tokens each way, and one that used
    1234 and 567. *)
Lemma cost_estimate_witness :
  trace (display_cost_stats (fun _ => true)
           (Some {| prompt_token_count := 1000000;
                    candidates_token_count := 1000000;
                    total_token_count := 2000000 |}))
  = [usage_stats 2000000 1000000 1000000 2.8%float]
  /\ exists cost,
       trace (display_cost_stats (fun _ => true)
                (Some {| prompt_token_count := 1234;
                         candidates_token_count := 567;
                         total_token_count := 1801 |}))
       = [usage_stats 1801 1234 567 cost]
       /\ Prim2SF cost = ieee_cost 1234 567.
Proof.
  split.
  - refine (proj1 (cost_estimate (fun _ => true)
                     {| prompt_token_count := 1000000;
                        candidates_token_count := 1000000;
                        total_token_count := 2000000 |} eq_refl _ _));
      cbn; lia.
  - refine (proj1 (proj2 (proj2 (proj2 (proj2
              (cost_estimate (fun _ => true)
                 {| prompt_token_count := 1234;
                    candidates_token_count := 567;
                    total_token_count := 1801 |} eq_refl _ _))))));
      cbn; lia.
Defined.

End CostFacts.

(* ===================================================================== *)
(** * Extraction                                                          *)
(* ===================================================================== *)

Module ExtractionFacts.
Import Py Shape App PyFacts.

Lemma value_bind {A B} (m : io A) (k : A -> io B) :
  value (bind m k) = value (k (value m)).
Proof. unfold value, bind. destruct m as [a t1]. cbn. now destruct (k a). Qed.

Lemma trace_bind {A B} (m : io A) (k : A -> io B) :
  trace (bind m k) = trace m ++ trace (k (value m)).
Proof. unfold trace, value, bind. destruct m as [a t1]. cbn. now destruct (k a). Qed.

(** ** PDF pages *)

Lemma pages_loop_all (texts : list str) (acc : str) :
  pages_loop (map Returns texts) acc = Returns (acc ++ pages_text texts).
Proof.
  revert acc; induction texts as [|t texts IH]; intros acc; cbn [map pages_loop].
  - unfold pages_text. cbn. now rewrite app_nil_r.
  - rewrite IH. unfold pages_text. cbn [map List.concat].
    now rewrite <- !app_assoc.
Qed.

Lemma pages_text_join (t : str) (texts : list str) :
  pages_text (t :: texts) = Claimed.join_pages (t :: texts) ++ nl.
Proof.
  revert t; induction texts as [|t' texts IH]; intros t.
  - unfold pages_text. cbn. now rewrite app_nil_r.
  - change (pages_text (t :: t' :: texts)) with ((t ++ nl) ++ pages_text (t' :: texts)).
    rewrite IH. cbn [Claimed.join_pages]. now rewrite <- !app_assoc.
Qed.

Lemma pages_text_length (texts : list str) :
  List.length (pages_text texts)
  = list_sum (map (fun t => List.length t + 1) texts).
Proof.
  induction texts as [|t texts IH]; [reflexivity|].
  change (pages_text (t :: texts)) with ((t ++ nl) ++ pages_text texts).
  cbn [map list_sum fold_right]. now rewrite !length_app, IH.
Qed.

(** C9, as the code has it.  When every page of a PDF gives its text,
    the extracted text is each page's text followed by a newline, in
    page order, and no error is reported: the pages joined by newlines
    with one more newline after the last page.  A page with no
    extractable text contributes its newline alone. *)
Theorem pdf_text_is_pages_with_newlines :
  forall (uploaded_file : UploadedFile) (texts : list str),
    type uploaded_file = lit "application/pdf" ->
    pdf_pages uploaded_file = Returns (map Returns texts) ->
    read_file_content uploaded_file = (Some (pages_text texts), [])
    /\ pages_text texts = List.concat (map (fun t => t ++ nl) texts)
    /\ (texts <> [] -> pages_text texts = Claimed.join_pages texts ++ nl)
    /\ List.length (pages_text texts)
       = list_sum (map (fun t => List.length t + 1) texts)
    /\ (forall before after,
          texts = before ++ [] :: after ->
          pages_text texts = pages_text before ++ nl ++ pages_text after).
Proof.
  intros f texts Htype Hpages.
  split.
  { unfold read_file_content, extract.
    rewrite Htype, str_eqb_refl, Hpages, pages_loop_all. reflexivity. }
  split; [reflexivity|].
  split.
  { destruct texts as [|t texts]; [congruence|]. intros _. apply pages_text_join. }
  split; [apply pages_text_length|].
  intros before after ->. unfold pages_text.
  now rewrite map_app, concat_app.
Qed.

(** A scanned page between two pages of text. *)
Lemma pdf_text_is_pages_with_newlines_witness :
  read_file_content
    (pdf_file (lit "scan.pdf") (Returns [Returns (lit "A"); Returns []; Returns (lit "B")]))
  = (Some (lit "A" ++ nl ++ nl ++ lit "B" ++ nl), []).
Proof.
  exact (proj1 (pdf_text_is_pages_with_newlines
                  (pdf_file (lit "scan.pdf")
                     (Returns [Returns (lit "A"); Returns []; Returns (lit "B")]))
                  [lit "A"; []; lit "B"] eq_refl eq_refl)).
Defined.

(** C9 as stated fails: the text of a two-page PDF is not its pages with
    a newline between them, it ends with a newline more; and a PDF of
    one page without text gives a newline, not the empty text. *)
Lemma pdf_text_ends_with_newline :
  value (read_file_content
           (pdf_file (lit "two.pdf") (Returns [Returns (lit "A"); Returns (lit "B")])))
  = Some (lit "A" ++ nl ++ lit "B" ++ nl)
  /\ Claimed.join_pages [lit "A"; lit "B"] = lit "A" ++ nl ++ lit "B"
  /\ value (read_file_content
              (pdf_file (lit "two.pdf") (Returns [Returns (lit "A"); Returns (lit "B")])))
     <> Some (Claimed.join_pages [lit "A"; lit "B"])
  /\ value (read_file_content (pdf_file (lit "blank.pdf") (Returns [Returns []])))
     = Some nl
  /\ Claimed.join_pages [[]] = [].
Proof. vm_compute. repeat split; discriminate. Qed.

(** ** The mapping of extracted texts *)

Lemma read_file_content_value (f : UploadedFile) :
  value (read_file_content f)
  = match extract f with Returns t => Some t | Raises _ => None end.
Proof. unfold read_file_content. now destruct (extract f). Qed.

Lemma read_file_content_trace (f : UploadedFile) :
  trace (read_file_content f)
  = match extract f with
    | Returns _ => []
    | Raises e => [st_error (lit "Error reading " ++ name f ++ lit ": " ++ e)]
    end.
Proof. unfold read_file_content. now destruct (extract f). Qed.

(** One turn of the loop. *)
Lemma read_docs_step (doc : UploadedFile) (rest : list UploadedFile)
    (docs_contents : dict str) :
  read_docs (doc :: rest) docs_contents
  = bind (read_file_content doc)
      (fun _ => read_docs rest
                  match extract doc with
                  | Returns (c :: t) => dict_set docs_contents (name doc) (c :: t)
                  | _ => docs_contents
                  end).
Proof.
  cbn [read_docs]. unfold read_file_content.
  destruct (extract doc) as [[|c t]|e]; reflexivity.
Qed.

Lemma read_docs_nonempty (doc_files : list UploadedFile) :
  forall docs_contents,
    Forall (fun kv => snd kv <> []) docs_contents ->
    Forall (fun kv => snd kv <> []) (value (read_docs doc_files docs_contents)).
Proof.
  induction doc_files as [|doc rest IH]; intros acc Hacc; [exact Hacc|].
  rewrite read_docs_step, value_bind. apply IH.
  destruct (extract doc) as [[|c t]|e]; auto.
  apply (dict_set_values (fun v => v <> [])); [discriminate|exact Hacc].
Qed.

Lemma read_docs_kept (doc_files : list UploadedFile) :
  forall docs_contents,
    NoDup (keys docs_contents ++ map name doc_files) ->
    value (read_docs doc_files docs_contents)
    = docs_contents ++ kept_docs doc_files.
Proof.
  induction doc_files as [|doc rest IH]; intros acc Hnd.
  - cbn. now rewrite app_nil_r.
  - rewrite read_docs_step, value_bind.
    cbn [map] in Hnd.
    pose proof (NoDup_remove_1 _ _ _ Hnd) as Hrest.
    pose proof (NoDup_remove_2 _ _ _ Hnd) as Hfresh.
    unfold kept_docs. cbn [flat_map]. fold (kept_docs rest).
    destruct (extract doc) as [[|c t]|e]; try (now apply IH).
    rewrite dict_set_fresh by (intros Hin; apply Hfresh, in_or_app; now left).
    rewrite IH.
    + now rewrite <- app_assoc.
    + unfold keys in *. rewrite map_app, <- app_assoc. exact Hnd.
Qed.

Lemma read_docs_trace (doc_files : list UploadedFile) :
  forall docs_contents,
    trace (read_docs doc_files docs_contents) = read_errors doc_files.
Proof.
  induction doc_files as [|doc rest IH]; intros acc; [reflexivity|].
  rewrite read_docs_step, trace_bind, read_file_content_trace, IH.
  unfold read_errors. cbn [flat_map].
  now destruct (extract doc).
Qed.

Lemma read_errors_In (doc_files : list UploadedFile) (f : UploadedFile) (e : str) :
  In f doc_files -> extract f = Raises e ->
  In (st_error (lit "Error reading " ++ name f ++ lit ": " ++ e))
     (read_errors doc_files).
Proof.
  intros Hin He. unfold read_errors. apply in_flat_map.
  exists f. split; [exact Hin|]. rewrite He. now left.
Qed.

Lemma kept_docs_keys (doc_files : list UploadedFile) (k : str) :
  In k (keys (kept_docs doc_files)) ->
  exists f c t, In f doc_files /\ name f = k /\ extract f = Returns (c :: t).
Proof.
  unfold keys, kept_docs. intros H.
  apply in_map_iff in H as ([k' v] & Hk & H). cbn in Hk. subst k'.
  apply in_flat_map in H as (f & Hf & H).
  destruct (extract f) as [[|c t]|e] eqn:E; try easy.
  destruct H as [H|[]]. injection H as Hn _.
  now exists f, c, t.
Qed.

Lemma NoDup_map_eq {A B} (h : A -> B) (l : list A) (x y : A) :
  NoDup (map h l) -> In x l -> In y l -> h x = h y -> x = y.
Proof.
  induction l as [|a l IH]; cbn [map]; intros Hnd Hx Hy E; [easy|].
  inversion Hnd as [|? ? Hnotin Hnd']; subst.
  destruct Hx as [->|Hx], Hy as [->|Hy]; auto.
  - exfalso. apply Hnotin. rewrite E. now apply in_map.
  - exfalso. apply Hnotin. rewrite <- E. now apply in_map.
Qed.

(** C6, as the code has it.  After the batch is read, every text in the
    mapping is non-empty.  What the page shows is one error message for
    each document whose extraction raised, and nothing else: a document
    that gave the empty text is dropped without a message.  With
    distinct file names, the mapping is exactly the documents that gave
    a non-empty text, in the order of the upload, and a document whose
    extraction raised, or gave the empty text, has no entry. *)
Theorem extracted_mapping_invariant :
  forall (doc_files : list UploadedFile),
    Forall (fun kv => snd kv <> []) (value (read_docs doc_files []))
    /\ trace (read_docs doc_files []) = read_errors doc_files
    /\ (forall f e, In f doc_files -> extract f = Raises e ->
                    In (st_error (lit "Error reading " ++ name f ++ lit ": " ++ e))
                       (trace (read_docs doc_files [])))
    /\ (NoDup (map name doc_files) ->
        value (read_docs doc_files []) = kept_docs doc_files
        /\ (forall f, In f doc_files ->
                      (extract f = Returns [] \/ exists e, extract f = Raises e) ->
                      ~ In (name f) (keys (value (read_docs doc_files []))))).
Proof.
  intros doc_files.
  split; [apply read_docs_nonempty; constructor|].
  split; [apply read_docs_trace|].
  split; [intros f e; rewrite read_docs_trace; apply read_errors_In|].
  intros Hnd.
  assert (E : value (read_docs doc_files []) = kept_docs doc_files)
    by (now rewrite read_docs_kept).
  split; [exact E|].
  intros f Hf Hbad Hin. rewrite E in Hin.
  apply kept_docs_keys in Hin as (g & c & t & Hg & Hname & Hext).
  assert (g = f) by (apply (NoDup_map_eq name doc_files); auto).
  subst g. destruct Hbad as [Hbad|[e Hbad]]; congruence.
Qed.

(** Three documents, the second one unreadable. *)
Lemma extracted_mapping_invariant_witness :
  value (read_docs
           [text_file (lit "a.txt") (lit "X");
            pdf_file (lit "b.pdf") (Raises (lit "EOF marker not found"));
            text_file (lit "c.md") (lit "Z")] [])
  = [(lit "a.txt", lit "X"); (lit "c.md", lit "Z")]
  /\ trace (read_docs
              [text_file (lit "a.txt") (lit "X");
               pdf_file (lit "b.pdf") (Raises (lit "EOF marker not found"));
               text_file (lit "c.md") (lit "Z")] [])
     = [st_error (lit "Error reading b.pdf: EOF marker not found")].
Proof.
  assert (Hnd : NoDup (map name
                         [text_file (lit "a.txt") (lit "X");
                          pdf_file (lit "b.pdf") (Raises (lit "EOF marker not found"));
                          text_file (lit "c.md") (lit "Z")])).
  { repeat constructor; cbn; intros H;
      repeat (destruct H as [H|H]; [vm_compute in H; discriminate|]); exact H. }
  pose proof (extracted_mapping_invariant
                [text_file (lit "a.txt") (lit "X");
                 pdf_file (lit "b.pdf") (Raises (lit "EOF marker not found"));
                 text_file (lit "c.md") (lit "Z")]) as (_ & Htrace & _ & Hmap).
  split; [exact (proj1 (Hmap Hnd))|exact Htrace].
Defined.

(** C6 as stated fails for a document that gives the empty text: it is
    dropped, and nothing tells the caller so. *)
Lemma empty_document_dropped_silently :
  extract (text_file (lit "empty.txt") []) = Returns []
  /\ value (read_docs
              [text_file (lit "a.txt") (lit "X");
               text_file (lit "empty.txt") [];
               text_file (lit "c.md") (lit "Z")] [])
     = [(lit "a.txt", lit "X"); (lit "c.md", lit "Z")]
  /\ trace (read_docs
              [text_file (lit "a.txt") (lit "X");
               text_file (lit "empty.txt") [];
               text_file (lit "c.md") (lit "Z")] []) = [].
Proof. vm_compute. repeat split. Qed.

End ExtractionFacts.

(* ===================================================================== *)
(** * The API key                                                         *)
(* ===================================================================== *)

Module CredentialFacts.
Import Py Shape App.

Lemma api_key_override (user_api_key : str) (system : option str) :
  user_api_key <> [] -> api_key user_api_key system = Some user_api_key.
Proof. destruct user_api_key; [congruence|reflexivity]. Qed.

Lemma api_key_empty_override (system : option str) :
  api_key [] system
  = match system with
    | Some (c :: k) => Some (c :: k)
    | _ => None
    end.
Proof. destruct system as [[|c k]|]; reflexivity. Qed.

Lemma api_key_some_nonempty (user_api_key : str) (system : option str)
    (key : str) :
  api_key user_api_key system = Some key -> key <> [].
Proof.
  destruct user_api_key as [|c u]; cbn.
  - destruct system as [[|c k]|]; cbn; congruence.
  - congruence.
Qed.

Lemma on_analyze_without_key (gemini : str -> str -> outcome Response)
    (usage_bool : UsageMetadata -> bool) (wide : char -> bool)
    (template_file checklist_file : option UploadedFile)
    (doc_files : list UploadedFile) :
  trace (on_analyze gemini usage_bool wide None template_file checklist_file doc_files)
  = [st_error (lit "Please provide a Google API Key in the settings sidebar.")].
Proof. reflexivity. Qed.

Lemma bind_ret {A B} (a : A) (k : A -> io B) : bind (ret a) k = k a.
Proof. unfold bind, ret. now destruct (k a). Qed.

Lemma read_file_content_returns (f : UploadedFile) (t : str) :
  extract f = Returns t -> read_file_content f = ret (Some t).
Proof. intros H. unfold read_file_content. now rewrite H. Qed.

(** What the template step leaves on the page when the template reads. *)
Lemma process_template_trace (gemini : str -> str -> outcome Response)
    (usage_bool : UsageMetadata -> bool) (key : str) (f : UploadedFile)
    (c : char) (t : str) (docs_contents : dict str) :
  extract f = Returns (c :: t) ->
  trace (process_template gemini usage_bool key (Some f) docs_contents)
  = [st_info (lit "Generating Analysis Report...");
     genai_configure key;
     generate_content model_name (prompt (c :: t) docs_contents false)]
    ++ trace (display_cost_stats usage_bool
                (snd (value (analyze_documents gemini key (c :: t)
                               docs_contents false))))
    ++ [st_success (check_mark ++ lit " Analysis Report Ready");
        st_subheader (lit "Analysis Output");
        st_code (fst (value (analyze_documents gemini key (c :: t)
                               docs_contents false)));
        st_download_button (inbox_tray ++ lit " Download Analysis Report")
          (fst (value (analyze_documents gemini key (c :: t)
                         docs_contents false)))
          (lit "analysis_result.txt")].
Proof.
  intros Hf. unfold process_template.
  rewrite (read_file_content_returns f (c :: t) Hf), bind_ret.
  cbn [truthy].
  repeat (rewrite ExtractionFacts.trace_bind; cbv beta).
  rewrite AnalysisFacts.analyze_documents_trace.
  reflexivity.
Qed.

Lemma prompts_read_errors (doc_files : list UploadedFile) :
  prompts (read_errors doc_files) = [].
Proof.
  induction doc_files as [|doc rest IH]; [reflexivity|].
  unfold read_errors. cbn [flat_map]. fold (read_errors rest).
  unfold prompts in *. rewrite flat_map_app, IH.
  now destruct (extract doc).
Qed.

Lemma prompts_display_cost_stats (usage_bool : UsageMetadata -> bool)
    (usage : option UsageMetadata) :
  prompts (trace (display_cost_stats usage_bool usage)) = [].
Proof.
  destruct usage as [u|]; [|reflexivity].
  unfold display_cost_stats. now destruct (usage_bool u).
Qed.

(** With a key, a template that reads and a document that reads, the
    key is the one configured on the client and one prompt is sent. *)
Lemma on_analyze_uses_key (gemini : str -> str -> outcome Response)
    (usage_bool : UsageMetadata -> bool) (wide : char -> bool)
    (key : str) (f : UploadedFile) (c : char) (t : str)
    (doc_files : list UploadedFile) :
  key <> [] ->
  extract f = Returns (c :: t) ->
  value (read_docs doc_files []) <> [] ->
  In (genai_configure key)
     (trace (on_analyze gemini usage_bool wide (Some key) (Some f) None doc_files))
  /\ prompts (trace (on_analyze gemini usage_bool wide (Some key) (Some f) None
                       doc_files))
     = [prompt (c :: t) (value (read_docs doc_files [])) false].
Proof.
  intros Hkey Hf Hdocs.
  destruct key as [|k0 key]; [congruence|].
  destruct doc_files as [|doc rest]; [now contradiction Hdocs|].
  unfold on_analyze. cbn [truthy negb is_some andb].
  rewrite ExtractionFacts.trace_bind, ExtractionFacts.read_docs_trace.
  destruct (value (read_docs (doc :: rest) [])) as [|kv dc] eqn:Ev;
    [congruence|].
  rewrite ExtractionFacts.trace_bind, (process_template_trace _ _ _ f c t _ Hf).
  cbv beta. cbn [process_checklist ret trace snd].
  split.
  - apply in_or_app. right. apply in_or_app. left. right. now left.
  - unfold prompts. rewrite !flat_map_app.
    fold (prompts (read_errors (doc :: rest))). rewrite prompts_read_errors.
    fold (prompts (trace (display_cost_stats usage_bool
            (snd (value (analyze_documents gemini (k0 :: key) (c :: t)
                           (kv :: dc) false)))))).
    rewrite prompts_display_cost_stats. reflexivity.
Qed.

(** No key is resolved exactly when the override is empty and the secret
    is empty, or missing with nothing in the environment. *)
Lemma api_key_none_iff (user_api_key : str) (secret getenv : option str) :
  api_key user_api_key (system_api_key secret getenv) = None
  <-> user_api_key = []
      /\ (secret = Some []
          \/ (secret = None /\ (getenv = None \/ getenv = Some []))).
Proof.
  destruct user_api_key as [|u us], secret as [[|c k]|], getenv as [[|c' k']|];
    cbn; intuition (discriminate || congruence).
Qed.

Lemma sidebar_value (secret getenv : option str) (user_api_key : str) :
  value (Page.sidebar secret getenv user_api_key)
  = api_key user_api_key (system_api_key secret getenv).
Proof.
  unfold Page.sidebar, Page.key_status.
  now destruct (truthy_opt (system_api_key secret getenv)).
Qed.

(** Without a key a run of the page sends no prompt, pressed or not. *)
Lemma script_sends_nothing_without_key
    (gemini : str -> str -> outcome Response)
    (usage_bool : UsageMetadata -> bool) (wide : char -> bool)
    (secret getenv : option str) (user_api_key : str) (analyze_btn : bool)
    (template_file checklist_file : option UploadedFile)
    (doc_files : list UploadedFile) :
  api_key user_api_key (system_api_key secret getenv) = None ->
  prompts (trace (Page.script gemini usage_bool wide secret getenv user_api_key
                    analyze_btn template_file checklist_file doc_files)) = [].
Proof.
  intros H. unfold Page.script, Page.sidebar, Page.key_status, Page.placeholder.
  rewrite H.
  destruct (truthy_opt (system_api_key secret getenv)), analyze_btn,
    (is_some template_file), (is_some checklist_file), doc_files;
    reflexivity.
Qed.

(** C8, as the code has it.  Where the secrets store can be read, the
    system key is the secret when the secrets hold the key's name, empty
    or not, and the environment's value only when they do not.  The key
    used is the typed override when it is not empty; otherwise the
    system key when there is one and it is not empty; otherwise there is
    none.  So no key is resolved exactly when the override is empty and
    either the secret is present and empty (whatever the environment
    holds) or the secrets lack the key and the environment's value is
    missing or empty.  With no key, pressing Analyze shows the request
    for a key and nothing else: no file is read, and no prompt is sent
    to the service.  With a key, a template and a document that read,
    that key is the one configured on the client.  Where no secrets
    file exists, the lookup raises and the page's run ends there: no
    key is resolved and nothing is sent. *)
Theorem credential_resolution :
  forall (user_api_key : str) (secret getenv : option str),
    load_system_api_key (secrets_file secret) getenv
    = Returns (system_api_key secret getenv)
    /\ (forall e gemini usage_bool wide analyze_btn template_file checklist_file
               doc_files,
          load_system_api_key (no_secrets_file e) getenv = Raises e
          /\ Page.page gemini usage_bool wide (no_secrets_file e) getenv
               user_api_key analyze_btn template_file checklist_file doc_files
             = Raises e)
    /\ (forall gemini usage_bool wide analyze_btn template_file checklist_file
               doc_files,
        exists run,
          Page.page gemini usage_bool wide (secrets_file secret) getenv
            user_api_key analyze_btn template_file checklist_file doc_files
          = Returns run
          /\ value (Page.sidebar secret getenv user_api_key)
             = api_key user_api_key (system_api_key secret getenv)
          /\ (api_key user_api_key (system_api_key secret getenv) = None ->
              prompts (trace run) = []))
    /\ (api_key user_api_key (system_api_key secret getenv) = None
        <-> user_api_key = []
            /\ (secret = Some []
                \/ (secret = None /\ (getenv = None \/ getenv = Some []))))
    /\ (forall c k, user_api_key = [] -> secret = Some (c :: k) ->
          api_key user_api_key (system_api_key secret getenv) = Some (c :: k))
    /\ (forall c k, user_api_key = [] -> secret = None -> getenv = Some (c :: k) ->
          api_key user_api_key (system_api_key secret getenv) = Some (c :: k))
    /\ (forall k, system_api_key (Some k) getenv = Some k)
    /\ system_api_key None getenv = getenv
    /\ (user_api_key <> [] ->
        api_key user_api_key (system_api_key secret getenv) = Some user_api_key)
    /\ (forall k, user_api_key = [] ->
                  system_api_key secret getenv = Some k -> k <> [] ->
                  api_key user_api_key (system_api_key secret getenv) = Some k)
    /\ (user_api_key = [] ->
        (system_api_key secret getenv = None
         \/ system_api_key secret getenv = Some []) ->
        api_key user_api_key (system_api_key secret getenv) = None)
    /\ (forall gemini usage_bool wide template_file checklist_file doc_files,
          api_key user_api_key (system_api_key secret getenv) = None ->
          trace (on_analyze gemini usage_bool wide
                   (api_key user_api_key (system_api_key secret getenv))
                   template_file checklist_file doc_files)
          = [st_error (lit "Please provide a Google API Key in the settings sidebar.")]
          /\ prompts (trace (on_analyze gemini usage_bool wide
                               (api_key user_api_key (system_api_key secret getenv))
                               template_file checklist_file doc_files)) = [])
    /\ (forall gemini usage_bool wide key f c t doc_files,
          api_key user_api_key (system_api_key secret getenv) = Some key ->
          extract f = Returns (c :: t) ->
          value (read_docs doc_files []) <> [] ->
          In (genai_configure key)
             (trace (on_analyze gemini usage_bool wide
                       (api_key user_api_key (system_api_key secret getenv))
                       (Some f) None doc_files))).
Proof.
  intros user_api_key secret getenv.
  split; [reflexivity|].
  split; [intros; split; reflexivity|].
  split.
  { intros gemini usage_bool wide analyze_btn template_file checklist_file
           doc_files.
    eexists. split; [reflexivity|]. split; [apply sidebar_value|].
    apply script_sends_nothing_without_key. }
  split; [apply api_key_none_iff|].
  split; [intros c k -> ->; reflexivity|].
  split; [intros c k -> -> ->; reflexivity|].
  split; [reflexivity|].
  split; [reflexivity|].
  split; [apply api_key_override|].
  split.
  { intros k -> -> Hk. rewrite api_key_empty_override.
    destruct k; [congruence|reflexivity]. }
  split.
  { intros -> [->| ->]; reflexivity. }
  split.
  { intros gemini usage_bool wide template_file checklist_file doc_files ->.
    now rewrite on_analyze_without_key. }
  intros gemini usage_bool wide key f c t doc_files Hkey Hf Hdocs.
  rewrite Hkey.
  apply (on_analyze_uses_key gemini usage_bool wide key f c t doc_files);
    eauto using api_key_some_nonempty.
Qed.

(** No override, no secret, no environment variable: pressing Analyze
    with a template and a document sends nothing. *)
Lemma credential_resolution_witness :
  prompts (trace (on_analyze
                    (fun _ _ => Raises (lit "unreachable")) (fun _ => true)
                    (fun _ => false)
                    (api_key [] (system_api_key None None))
                    (Some (text_file (lit "t.txt") (lit "T"))) None
                    [text_file (lit "a.txt") (lit "X")])) = [].
Proof.
  exact (proj2 (proj1 (proj2 (proj2 (proj2 (proj2 (proj2 (proj2 (proj2
           (proj2 (proj2 (proj2 (proj2
           (credential_resolution [] None None))))))))))))
           (fun _ _ => Raises (lit "unreachable")) (fun _ => true)
           (fun _ => false)
           (Some (text_file (lit "t.txt") (lit "T"))) None
           [text_file (lit "a.txt") (lit "X")] eq_refl)).
Defined.

(** C8 as stated fails: with no override, a secret that is present but
    empty, and a key in the environment, a process-wide value exists and
    yet no key is resolved, and a press of Analyze only asks for one. *)
Lemma empty_secret_hides_the_environment_key :
  load_system_api_key (secrets_file (Some [])) (Some (lit "env-key"))
  = Returns (Some [])
  /\ api_key [] (system_api_key (Some []) (Some (lit "env-key"))) = None
  /\ api_key [] (system_api_key None (Some (lit "env-key")))
     = Some (lit "env-key")
  /\ trace (on_analyze (fun _ _ => Raises (lit "unreachable")) (fun _ => true)
              (fun _ => false)
              (api_key [] (system_api_key (Some []) (Some (lit "env-key"))))
              (Some (text_file (lit "t.txt") (lit "T"))) None
              [text_file (lit "a.txt") (lit "X")])
     = [st_error (lit "Please provide a Google API Key in the settings sidebar.")].
Proof. repeat split. Qed.

(** C10.  An empty override is no override: the key used is then the
    system key when that is not empty, and none otherwise, exactly as it
    is decided from the system key alone; an override takes precedence
    exactly when it is not empty. *)
Theorem empty_override_is_no_override :
  forall (secret getenv : option str),
    api_key [] (system_api_key secret getenv)
    = match system_api_key secret getenv with
      | Some (c :: k) => Some (c :: k)
      | _ => None
      end
    /\ api_key (lit "") (system_api_key secret getenv)
       = api_key [] (system_api_key secret getenv)
    /\ (forall k, k <> [] -> api_key [] (Some k) = Some k)
    /\ api_key [] None = None
    /\ (forall user_api_key,
          api_key user_api_key (system_api_key secret getenv) = Some user_api_key
          <-> user_api_key <> []).
Proof.
  intros secret getenv.
  split; [apply api_key_empty_override|].
  split; [reflexivity|].
  split; [intros [|c k] H; [congruence|reflexivity]|].
  split; [reflexivity|].
  intros user_api_key. split.
  - intros H ->. rewrite api_key_empty_override in H.
    destruct (system_api_key secret getenv) as [[|c k]|]; discriminate.
  - apply api_key_override.
Qed.

(** An empty override with a system key in the environment. *)
Lemma empty_override_is_no_override_witness :
  api_key (lit "") (system_api_key None (Some (lit "env-key"))) = Some (lit "env-key").
Proof.
  exact (eq_trans
           (proj1 (proj2 (empty_override_is_no_override None (Some (lit "env-key")))))
           (proj1 (empty_override_is_no_override None (Some (lit "env-key"))))).
Defined.

End CredentialFacts.

(* ===================================================================== *)
(** * The console script's batch read                                     *)
(* ===================================================================== *)

Module ConsoleFacts.
Import Py Shape PyFacts.
Import Cli.

Lemma check_paths_valid (w : World) (doc_paths : list str) :
  forall valid_docs,
    fst (check_paths w doc_paths valid_docs)
    = valid_docs ++ filter (path_exists w) doc_paths.
Proof.
  induction doc_paths as [|p rest IH]; intros acc; cbn [check_paths filter].
  - cbn. now rewrite app_nil_r.
  - destruct (path_exists w p).
    + rewrite IH. now rewrite <- app_assoc.
    + specialize (IH acc). destruct (check_paths w rest acc). exact IH.
Qed.

Lemma check_paths_warnings (w : World) (doc_paths : list str) :
  forall valid_docs,
    snd (check_paths w doc_paths valid_docs)
    = map not_found_warning
        (filter (fun p => negb (path_exists w p)) doc_paths).
Proof.
  induction doc_paths as [|p rest IH]; intros acc; cbn [check_paths filter];
    [reflexivity|].
  destruct (path_exists w p); cbn [negb].
  - apply IH.
  - specialize (IH acc). destruct (check_paths w rest acc) as [v t].
    cbn [snd map] in *. now rewrite IH.
Qed.

Lemma filter_none_all {A} (f : A -> bool) (l : list A) :
  filter f l = [] -> filter (fun x => negb (f x)) l = l.
Proof.
  induction l as [|x l IH]; cbn [filter]; [reflexivity|].
  destruct (f x); [discriminate|]. cbn [negb]. intros H. f_equal. now apply IH.
Qed.

Lemma calls_app (t1 t2 : list event) : calls (t1 ++ t2) = calls t1 ++ calls t2.
Proof. apply filter_app. Qed.

Lemma calls_warnings (ps : list str) : calls (map not_found_warning ps) = [].
Proof. induction ps as [|p ps IH]; [reflexivity|exact IH]. Qed.

(** A document that does not read stops the loop. *)
Lemma read_docs_stops (w : World) (valid_docs : list str) (p e : str) :
  In p valid_docs -> read_text w p = Raises e ->
  forall idx acc, exists q e', read_docs w idx valid_docs acc = inr (q, e').
Proof.
  induction valid_docs as [|q rest IH]; intros Hin He idx acc; [easy|].
  cbn [read_docs].
  destruct (read_text w q) as [body|e'] eqn:Eq; [|now exists q, e'].
  destruct Hin as [->|Hin]; [congruence|].
  now apply IH.
Qed.

(** The loop reports the first document that does not read. *)
Lemma read_docs_first_failure (w : World) (before : list str) (p : str)
    (after : list str) (e : str) :
  (forall q, In q before -> exists body, read_text w q = Returns body) ->
  read_text w p = Raises e ->
  forall idx acc, read_docs w idx (before ++ p :: after) acc = inr (p, e).
Proof.
  induction before as [|q rest IH]; intros Hbefore Hp idx acc;
    cbn [app read_docs].
  - now rewrite Hp.
  - destruct (Hbefore q (or_introl eq_refl)) as [body ->].
    apply IH; [|exact Hp]. intros r Hr. apply Hbefore. now right.
Qed.

Lemma read_docs_all (w : World) (valid_docs : list str) :
  (forall p, In p valid_docs -> exists body, read_text w p = Returns body) ->
  forall idx acc, exists docs_content, read_docs w idx valid_docs acc = inl docs_content.
Proof.
  induction valid_docs as [|q rest IH]; intros H idx acc; cbn [read_docs].
  - now exists acc.
  - destruct (H q (or_introl eq_refl)) as [body ->].
    apply IH. intros p Hp. apply H. now right.
Qed.

(** The run, once the key and the template path are accepted. *)
Lemma analyze_documents_unfold (w : World) (api_key typed_template typed_docs
    typed_output : str) :
  GOOGLE_API_KEY w = Some api_key -> truthy api_key = true ->
  path_exists w (strip typed_template) = true ->
  analyze_documents w typed_template typed_docs typed_output
  = genai_configure api_key
    :: print (lit "--- Gemini Document Analyzer ---")
    :: map not_found_warning
         (filter (fun p => negb (path_exists w p)) (doc_paths_of typed_docs))
    ++ match filter (path_exists w) (doc_paths_of typed_docs) with
       | [] => [print (lit "Error: No valid documents provided.")]
       | p :: ps =>
           if negb (truthy (strip typed_output)) then
             [print (lit "Error: Output path cannot be empty.")]
           else
             match read_text w (strip typed_template) with
             | Raises e => [print (lit "Error reading template file: " ++ e)]
             | Returns template_content =>
                 match read_docs w 0 (p :: ps) [] with
                 | inr (q, e) =>
                     [print (lit "Error reading document '" ++ q ++ lit "': " ++ e)]
                 | inl docs_content =>
                     print (nl ++ lit "Analyzing documents with Gemini...")
                     :: submit w api_key (strip typed_output)
                          (prompt template_content docs_content)
                 end
             end
       end.
Proof.
  intros Hkey Htruthy Htemplate. unfold analyze_documents.
  rewrite Hkey, Htruthy, Htemplate. cbn [negb].
  fold (doc_paths_of typed_docs).
  pose proof (check_paths_valid w (doc_paths_of typed_docs) []) as Hv.
  pose proof (check_paths_warnings w (doc_paths_of typed_docs) []) as Hw.
  destruct (check_paths w (doc_paths_of typed_docs) []) as [valid warnings].
  cbn [fst snd app] in Hv, Hw. subst valid warnings.
  destruct (filter (path_exists w) (doc_paths_of typed_docs)); reflexivity.
Qed.

Lemma calls_submit (w : World) (key output_path prompt : str) :
  calls (submit w key output_path prompt) = [generate_content model_name prompt].
Proof.
  unfold submit. cbn [calls filter].
  destruct (gemini w key prompt) as [[t|e]|e]; destruct (open_w w output_path);
    reflexivity.
Qed.

(** Without a key or without the template, nothing is sent. *)
Lemma analyze_documents_early (w : World) (typed_template typed_docs
    typed_output : str) :
  (GOOGLE_API_KEY w = None \/ GOOGLE_API_KEY w = Some []
   \/ path_exists w (strip typed_template) = false) ->
  calls (analyze_documents w typed_template typed_docs typed_output) = [].
Proof.
  unfold analyze_documents. intros [H|[H|H]].
  - now rewrite H.
  - now rewrite H.
  - rewrite H. destruct (GOOGLE_API_KEY w) as [[|c k]|]; reflexivity.
Qed.

Lemma unreadable_document_aborts (w : World) (typed_template typed_docs
    typed_output p e : str) :
  In p (filter (path_exists w) (doc_paths_of typed_docs)) ->
  read_text w p = Raises e ->
  calls (analyze_documents w typed_template typed_docs typed_output) = [].
Proof.
  intros Hin He.
  destruct (GOOGLE_API_KEY w) as [[|c k]|] eqn:Hkey;
    try solve [apply analyze_documents_early; auto].
  destruct (path_exists w (strip typed_template)) eqn:Ht;
    [|solve [apply analyze_documents_early; auto]].
  rewrite (analyze_documents_unfold w (c :: k)) by auto.
  cbn [calls filter]. fold (calls). rewrite calls_app, calls_warnings.
  destruct (filter (path_exists w) (doc_paths_of typed_docs)) as [|q qs] eqn:Ev;
    [reflexivity|].
  destruct (negb (truthy (strip typed_output))); [reflexivity|].
  destruct (read_text w (strip typed_template)); [|reflexivity].
  destruct (read_docs_stops w (q :: qs) p e Hin He 0 []) as (q' & e' & ->).
  reflexivity.
Qed.

(** C7, as the code has it.  Of the typed paths, those that exist are
    the valid documents, in the order typed, and each path that does not
    exist gets a warning and is skipped.  When no path exists the run
    stops with "No valid documents provided" and sends nothing.  When
    the valid documents all read (and the key, the template and the
    output path are in order), one prompt is sent, missing paths or not.
    A valid document that exists but does not read or decode stops the
    whole run: nothing is sent, whatever the other documents are.  When
    the run gets as far as the documents (key, template path and output
    path in order, template read), it ends, after the warnings, with the
    error of the first valid document that does not read, and that is
    all it prints.  When it does not get that far, because the output
    path is blank or the template does not read, it ends with that
    error instead and the document's error is never printed. *)
Theorem console_batch_read :
  forall (w : World) (typed_template typed_docs typed_output : str),
    fst (check_paths w (doc_paths_of typed_docs) [])
    = filter (path_exists w) (doc_paths_of typed_docs)
    /\ snd (check_paths w (doc_paths_of typed_docs) [])
       = map not_found_warning
           (filter (fun p => negb (path_exists w p)) (doc_paths_of typed_docs))
    /\ (forall api_key,
          GOOGLE_API_KEY w = Some api_key -> api_key <> [] ->
          path_exists w (strip typed_template) = true ->
          filter (path_exists w) (doc_paths_of typed_docs) = [] ->
          analyze_documents w typed_template typed_docs typed_output
          = genai_configure api_key
            :: print (lit "--- Gemini Document Analyzer ---")
            :: map not_found_warning (doc_paths_of typed_docs)
            ++ [print (lit "Error: No valid documents provided.")])
    /\ (forall api_key template_content,
          GOOGLE_API_KEY w = Some api_key -> api_key <> [] ->
          path_exists w (strip typed_template) = true ->
          filter (path_exists w) (doc_paths_of typed_docs) <> [] ->
          strip typed_output <> [] ->
          read_text w (strip typed_template) = Returns template_content ->
          (forall p, In p (filter (path_exists w) (doc_paths_of typed_docs)) ->
                     exists body, read_text w p = Returns body) ->
          exists docs_content,
            read_docs w 0 (filter (path_exists w) (doc_paths_of typed_docs)) []
            = inl docs_content
            /\ calls (analyze_documents w typed_template typed_docs typed_output)
               = [generate_content model_name (prompt template_content docs_content)]
            /\ forall p, In p (doc_paths_of typed_docs) ->
                         path_exists w p = false ->
                         In (not_found_warning p)
                            (analyze_documents w typed_template typed_docs typed_output))
    /\ (forall p e,
          In p (filter (path_exists w) (doc_paths_of typed_docs)) ->
          read_text w p = Raises e ->
          calls (analyze_documents w typed_template typed_docs typed_output) = [])
    /\ (forall api_key template_content before p after e,
          GOOGLE_API_KEY w = Some api_key -> api_key <> [] ->
          path_exists w (strip typed_template) = true ->
          filter (path_exists w) (doc_paths_of typed_docs) = before ++ p :: after ->
          strip typed_output <> [] ->
          read_text w (strip typed_template) = Returns template_content ->
          (forall q, In q before -> exists body, read_text w q = Returns body) ->
          read_text w p = Raises e ->
          analyze_documents w typed_template typed_docs typed_output
          = genai_configure api_key
            :: print (lit "--- Gemini Document Analyzer ---")
            :: map not_found_warning
                 (filter (fun q => negb (path_exists w q)) (doc_paths_of typed_docs))
            ++ [print (lit "Error reading document '" ++ p ++ lit "': " ++ e)])
    /\ (forall api_key,
          GOOGLE_API_KEY w = Some api_key -> api_key <> [] ->
          path_exists w (strip typed_template) = true ->
          filter (path_exists w) (doc_paths_of typed_docs) <> [] ->
          strip typed_output = [] ->
          analyze_documents w typed_template typed_docs typed_output
          = genai_configure api_key
            :: print (lit "--- Gemini Document Analyzer ---")
            :: map not_found_warning
                 (filter (fun q => negb (path_exists w q)) (doc_paths_of typed_docs))
            ++ [print (lit "Error: Output path cannot be empty.")])
    /\ (forall api_key e,
          GOOGLE_API_KEY w = Some api_key -> api_key <> [] ->
          path_exists w (strip typed_template) = true ->
          filter (path_exists w) (doc_paths_of typed_docs) <> [] ->
          strip typed_output <> [] ->
          read_text w (strip typed_template) = Raises e ->
          analyze_documents w typed_template typed_docs typed_output
          = genai_configure api_key
            :: print (lit "--- Gemini Document Analyzer ---")
            :: map not_found_warning
                 (filter (fun q => negb (path_exists w q)) (doc_paths_of typed_docs))
            ++ [print (lit "Error reading template file: " ++ e)]).
Proof.
  intros w typed_template typed_docs typed_output.
  split; [apply (check_paths_valid w _ [])|].
  split; [apply check_paths_warnings|].
  split.
  { intros api_key Hkey Hne Ht Hnone.
    rewrite (analyze_documents_unfold w api_key)
      by (auto; now apply truthy_true).
    rewrite Hnone. now rewrite (filter_none_all _ _ Hnone). }
  split.
  { intros api_key template_content Hkey Hne Ht Hsome Hout Htemplate Hall.
    destruct (read_docs_all w _ Hall 0 []) as [docs_content Hdocs].
    exists docs_content. split; [exact Hdocs|].
    rewrite (analyze_documents_unfold w api_key)
      by (auto; now apply truthy_true).
    destruct (filter (path_exists w) (doc_paths_of typed_docs)) as [|q qs] eqn:Ev;
      [congruence|].
    apply truthy_true in Hout. rewrite Hout, Htemplate, Hdocs. cbn [negb].
    split.
    - cbn [calls filter]. fold calls.
      rewrite calls_app, calls_warnings.
      cbn [app calls filter]. fold calls. apply calls_submit.
    - intros p Hp Hmissing. right; right. apply in_or_app. left.
      apply in_map, filter_In. split; [exact Hp|]. now rewrite Hmissing. }
  split; [intros p e; apply unreadable_document_aborts|].
  split.
  { intros api_key template_content before p after e
           Hkey Hne Ht Hvalid Hout Htemplate Hbefore Hp.
    rewrite (analyze_documents_unfold w api_key)
      by (auto; now apply truthy_true).
    rewrite Hvalid.
    pose proof (read_docs_first_failure w before p after e Hbefore Hp 0 []) as Hr.
    apply truthy_true in Hout.
    destruct (before ++ p :: after) as [|q qs] eqn:E;
      [now destruct before|].
    rewrite Hout, Htemplate, Hr. reflexivity. }
  split.
  { intros api_key Hkey Hne Ht Hsome Hout.
    rewrite (analyze_documents_unfold w api_key)
      by (auto; now apply truthy_true).
    destruct (filter (path_exists w) (doc_paths_of typed_docs)) as [|q qs];
      [congruence|].
    rewrite Hout. reflexivity. }
  intros api_key e Hkey Hne Ht Hsome Hout Htemplate.
  rewrite (analyze_documents_unfold w api_key)
    by (auto; now apply truthy_true).
  destruct (filter (path_exists w) (doc_paths_of typed_docs)) as [|q qs];
    [congruence|].
  apply truthy_true in Hout. rewrite Hout, Htemplate. reflexivity.
Qed.

(** Three paths typed, the second missing: the other two are read and
    one prompt is sent.  Three paths typed, the second not decoding: the
    run ends with that document's error. *)
Lemma console_batch_read_witness :
  (exists docs_content,
     read_docs missing_b 0
       (filter (path_exists missing_b) (doc_paths_of (lit "a.txt, b.txt, c.txt"))) []
     = inl docs_content
     /\ calls (analyze_documents missing_b (lit "t.txt") (lit "a.txt, b.txt, c.txt")
                 (lit "out.txt"))
        = [generate_content model_name (prompt (lit "text") docs_content)]
     /\ forall p, In p (doc_paths_of (lit "a.txt, b.txt, c.txt")) ->
                  path_exists missing_b p = false ->
                  In (not_found_warning p)
                     (analyze_documents missing_b (lit "t.txt")
                        (lit "a.txt, b.txt, c.txt") (lit "out.txt")))
  /\ analyze_documents undecodable_b (lit "t.txt") (lit "a.txt, b.txt, c.txt")
       (lit "out.txt")
     = genai_configure (lit "key")
       :: print (lit "--- Gemini Document Analyzer ---")
       :: map not_found_warning
            (filter (fun q => negb (path_exists undecodable_b q))
               (doc_paths_of (lit "a.txt, b.txt, c.txt")))
       ++ [print (lit "Error reading document '" ++ lit "b.txt" ++ lit "': "
                      ++ lit "'utf-8' codec can't decode byte 0xff")].
Proof.
  split.
  - refine (proj1 (proj2 (proj2 (proj2
              (console_batch_read missing_b (lit "t.txt")
                 (lit "a.txt, b.txt, c.txt") (lit "out.txt")))))
              (lit "key") (lit "text") eq_refl _ eq_refl _ _ eq_refl _).
    + discriminate.
    + vm_compute. discriminate.
    + vm_compute. discriminate.
    + intros p _. now exists (lit "text").
  - refine (proj1 (proj2 (proj2 (proj2 (proj2 (proj2
              (console_batch_read undecodable_b (lit "t.txt")
                 (lit "a.txt, b.txt, c.txt") (lit "out.txt")))))))
              (lit "key") (lit "text") [lit "a.txt"] (lit "b.txt") [lit "c.txt"]
              (lit "'utf-8' codec can't decode byte 0xff")
              eq_refl _ eq_refl _ _ eq_refl _ _).
    + discriminate.
    + vm_compute. reflexivity.
    + vm_compute. discriminate.
    + intros q [<-|[]]. now exists (lit "text").
    + vm_compute. reflexivity.
Defined.

(** C7 as stated fails: with two existing documents of which the second
    does not decode, the valid set is not empty and the first document
    reads, yet the run stops at the error and sends nothing. *)
Lemma decode_failure_aborts_the_run :
  fst (check_paths undecodable_b (doc_paths_of (lit "a.txt, b.txt")) [])
  = [lit "a.txt"; lit "b.txt"]
  /\ read_text undecodable_b (lit "a.txt") = Returns (lit "text")
  /\ analyze_documents undecodable_b (lit "t.txt") (lit "a.txt, b.txt") (lit "out.txt")
     = [genai_configure (lit "key");
        print (lit "--- Gemini Document Analyzer ---");
        print (lit "Error reading document 'b.txt': 'utf-8' codec can't decode byte 0xff")]
  /\ calls (analyze_documents undecodable_b (lit "t.txt") (lit "a.txt, b.txt")
              (lit "out.txt")) = [].
Proof. vm_compute. repeat split. Qed.

End ConsoleFacts.

(* ===================================================================== *)
(** * Further properties: the analysis call and extraction                *)
(* ===================================================================== *)

Module AnalysisMore.
Import Py Shape App Observe.

(** X1.  [analyze_documents] returns no usage exactly when the service
    failed, either in the call or when the response's text was read; a
    caller can tell an error text from an answer by that.  When the
    service answers, its text and usage are returned as they are. *)
Theorem usage_absent_iff_failure :
  forall (gemini : str -> str -> outcome Response)
         (api_key instruction_content : str) (docs_contents : dict str)
         (is_checklist : bool),
    (snd (value (analyze_documents gemini api_key instruction_content
                   docs_contents is_checklist)) = None
     <-> exists e,
           gemini api_key (prompt instruction_content docs_contents is_checklist)
             = Raises e
           \/ exists response,
                gemini api_key (prompt instruction_content docs_contents is_checklist)
                  = Returns response
                /\ text response = Raises e)
    /\ (forall response t,
          gemini api_key (prompt instruction_content docs_contents is_checklist)
            = Returns response ->
          text response = Returns t ->
          value (analyze_documents gemini api_key instruction_content
                   docs_contents is_checklist)
          = (t, Some (usage_metadata response))).
Proof.
  intros gemini api_key instruction_content docs_contents is_checklist.
  unfold analyze_documents, value, bind, emit, ret. cbn [fst snd].
  destruct (gemini api_key _) as [response|e] eqn:E.
  - destruct (text response) as [t|e] eqn:Et; cbn [fst snd]; split.
    + split; [discriminate|].
      intros (e & [H|(r & H & Hr)]); [discriminate|].
      injection H as <-. congruence.
    + intros r t' H Hr. injection H as <-. congruence.
    + split; [|reflexivity]. intros _. exists e. right. now exists response.
    + intros r t' H Hr. injection H as <-. congruence.
  - cbn [fst snd]. split.
    + split; [|reflexivity]. intros _. exists e. now left.
    + discriminate.
Qed.

(** A service that answers with a count of tokens. *)
Lemma usage_absent_iff_failure_witness :
  value (analyze_documents
           (fun _ _ => Returns {| text := Returns (lit "done");
                                  usage_metadata :=
                                    {| prompt_token_count := 7;
                                       candidates_token_count := 3;
                                       total_token_count := 10 |} |})
           (lit "key") (lit "T") two_docs false)
  = (lit "done", Some {| prompt_token_count := 7;
                         candidates_token_count := 3;
                         total_token_count := 10 |}).
Proof.
  exact (proj2 (usage_absent_iff_failure
                  (fun _ _ => Returns {| text := Returns (lit "done");
                                         usage_metadata :=
                                           {| prompt_token_count := 7;
                                              candidates_token_count := 3;
                                              total_token_count := 10 |} |})
                  (lit "key") (lit "T") two_docs false)
           _ (lit "done") eq_refl eq_refl).
Defined.

End AnalysisMore.

Module ExtractionMore.
Import Py Shape App Observe PyFacts.

Lemma pages_loop_stops (before : list str) (e : str) (after : list (outcome str)) :
  forall acc,
    pages_loop (map Returns before ++ Raises e :: after) acc = Raises e.
Proof.
  induction before as [|t before IH]; intros acc; cbn [map app pages_loop];
    [reflexivity|apply IH].
Qed.

(** X2.  A PDF that cannot be opened, or one of whose pages fails to
    extract, gives no text at all: the pages read before the failure are
    discarded, the pages after it are not looked at, and the one message
    shown is that failure's, with the file's name. *)
Theorem pdf_failure_discards_the_file :
  forall (uploaded_file : UploadedFile) (e : str),
    type uploaded_file = lit "application/pdf" ->
    (pdf_pages uploaded_file = Raises e
     \/ exists before after,
          pdf_pages uploaded_file
          = Returns (map Returns before ++ Raises e :: after)) ->
    read_file_content uploaded_file
    = (None, [st_error (lit "Error reading " ++ name uploaded_file
                            ++ lit ": " ++ e)]).
Proof.
  intros f e Htype H. unfold read_file_content, extract.
  rewrite Htype, str_eqb_refl.
  destruct H as [->|(before & after & ->)]; [reflexivity|].
  now rewrite pages_loop_stops.
Qed.

(** A three-page PDF whose second page fails. *)
Lemma pdf_failure_discards_the_file_witness :
  read_file_content
    (pdf_file (lit "r.pdf")
       (Returns [Returns (lit "A"); Raises (lit "bad xref"); Returns (lit "C")]))
  = (None, [st_error (lit "Error reading r.pdf: bad xref")]).
Proof.
  refine (pdf_failure_discards_the_file
            (pdf_file (lit "r.pdf")
               (Returns [Returns (lit "A"); Raises (lit "bad xref");
                         Returns (lit "C")]))
            (lit "bad xref") eq_refl _).
  right. now exists [lit "A"], [Returns (lit "C")].
Defined.

(** ** The mapping as a fold *)

Lemma read_docs_fold (doc_files : list UploadedFile) :
  forall docs_contents,
    value (read_docs doc_files docs_contents)
    = fold_left store doc_files docs_contents.
Proof.
  induction doc_files as [|doc rest IH]; intros acc; [reflexivity|].
  rewrite ExtractionFacts.read_docs_step, ExtractionFacts.value_bind.
  cbn [fold_left]. apply IH.
Qed.

Lemma dict_set_In_inv {V} (d : dict V) (k : str) (v : V) (k' : str) (v' : V) :
  In (k', v') (dict_set d k v) -> (k', v') = (k, v) \/ In (k', v') d.
Proof.
  induction d as [|[k0 v0] d IH]; cbn [dict_set].
  - intros [H|[]]. now left.
  - destruct (str_eqb k0 k) eqn:E.
    + apply str_eqb_eq in E. subst k0.
      intros [H|H]; [now left|right; now right].
    + intros [H|H]; [right; now left|].
      destruct (IH H) as [H'|H']; [now left|right; now right].
Qed.

Lemma dict_set_In {V} (d : dict V) (k : str) (v : V) : In (k, v) (dict_set d k v).
Proof.
  induction d as [|[k0 v0] d IH]; cbn [dict_set]; [now left|].
  destruct (str_eqb k0 k) eqn:E.
  - apply str_eqb_eq in E. subst k0. now left.
  - now right.
Qed.

Lemma dict_set_keys_inv {V} (d : dict V) (k : str) (v : V) (x : str) :
  In x (keys (dict_set d k v)) -> x = k \/ In x (keys d).
Proof.
  unfold keys. intros H. apply in_map_iff in H as ([k' v'] & <- & H).
  destruct (dict_set_In_inv d k v k' v' H) as [E|E].
  - injection E as -> _. now left.
  - right. apply in_map_iff. now exists (k', v').
Qed.

Lemma dict_set_keeps_keys {V} (d : dict V) (k : str) (v : V) (x : str) :
  In x (keys d) -> In x (keys (dict_set d k v)).
Proof.
  unfold keys. induction d as [|[k0 v0] d IH]; cbn [dict_set map fst]; [easy|].
  destruct (str_eqb k0 k); cbn [map fst]; intros [H|H];
    [now left|now right|now left|right; now apply IH].
Qed.

Lemma dict_set_NoDup {V} (d : dict V) (k : str) (v : V) :
  NoDup (keys d) -> NoDup (keys (dict_set d k v)).
Proof.
  induction d as [|[k0 v0] d IH]; intros H.
  - repeat constructor. easy.
  - change (keys ((k0, v0) :: d)) with (k0 :: keys d) in H.
    inversion H as [|? ? Hnotin Hd]; subst.
    cbn [dict_set]. destruct (str_eqb k0 k) eqn:E.
    + change (NoDup (k0 :: keys d)). now constructor.
    + change (NoDup (k0 :: keys (dict_set d k v))).
      constructor; [|now apply IH].
      intros Hin. apply dict_set_keys_inv in Hin as [->|Hin]; [|contradiction].
      now rewrite str_eqb_refl in E.
Qed.

Lemma dict_set_length {V} (d : dict V) (k : str) (v : V) :
  List.length (dict_set d k v) <= S (List.length d).
Proof.
  induction d as [|[k0 v0] d IH]; cbn [dict_set List.length]; [lia|].
  destruct (str_eqb k0 k); cbn [List.length]; lia.
Qed.

Lemma fold_store_NoDup (doc_files : list UploadedFile) :
  forall acc, NoDup (keys acc) -> NoDup (keys (fold_left store doc_files acc)).
Proof.
  induction doc_files as [|doc rest IH]; intros acc H; [exact H|].
  cbn [fold_left]. apply IH. unfold store.
  destruct (extract doc) as [[|c t]|e]; auto using dict_set_NoDup.
Qed.

Lemma fold_store_origin (doc_files : list UploadedFile) :
  forall acc k v,
    In (k, v) (fold_left store doc_files acc) ->
    In (k, v) acc
    \/ exists f, In f doc_files /\ name f = k /\ extract f = Returns v /\ v <> [].
Proof.
  induction doc_files as [|doc rest IH]; intros acc k v H; [now left|].
  cbn [fold_left] in H. apply IH in H as [H|(f & Hf & Hn & He & Hv)].
  - unfold store in H. destruct (extract doc) as [[|c t]|e] eqn:E; auto.
    apply dict_set_In_inv in H as [H|H]; [|now left].
    injection H as -> ->. right. exists doc.
    repeat split; [now left|exact E|discriminate].
  - right. exists f. repeat split; auto. now right.
Qed.

Lemma fold_store_keeps_keys (doc_files : list UploadedFile) :
  forall acc x, In x (keys acc) -> In x (keys (fold_left store doc_files acc)).
Proof.
  induction doc_files as [|doc rest IH]; intros acc x H; [exact H|].
  cbn [fold_left]. apply IH. unfold store.
  destruct (extract doc) as [[|c t]|e]; auto using dict_set_keeps_keys.
Qed.

Lemma fold_store_covers (doc_files : list UploadedFile) :
  forall acc f c t,
    In f doc_files -> extract f = Returns (c :: t) ->
    In (name f) (keys (fold_left store doc_files acc)).
Proof.
  induction doc_files as [|doc rest IH]; intros acc f c t Hin He; [easy|].
  cbn [fold_left]. destruct Hin as [->|Hin]; [|now apply (IH _ f c t)].
  apply fold_store_keeps_keys. unfold store. rewrite He.
  unfold keys. apply in_map_iff. exists (name f, c :: t).
  split; [reflexivity|apply dict_set_In].
Qed.

Lemma fold_store_length (doc_files : list UploadedFile) :
  forall acc,
    List.length (fold_left store doc_files acc)
    <= List.length acc + List.length doc_files.
Proof.
  induction doc_files as [|doc rest IH]; intros acc; cbn [fold_left List.length];
    [lia|].
  specialize (IH (store acc doc)).
  assert (List.length (store acc doc) <= S (List.length acc)).
  { unfold store. destruct (extract doc) as [[|c t]|e]; auto using dict_set_length. }
  lia.
Qed.

(** X3.  Whatever is uploaded, duplicate names included, the mapping has
    one entry per name; every entry is the non-empty text of an uploaded
    document of that name, and every document with text has its name in
    the mapping.  When two documents share a name, the later one's text
    replaces the earlier one's: the last document's text is always the
    one under its name. *)
Theorem mapping_has_one_entry_per_name :
  forall (doc_files : list UploadedFile),
    NoDup (keys (value (read_docs doc_files [])))
    /\ (forall k v,
          In (k, v) (value (read_docs doc_files [])) ->
          exists f, In f doc_files /\ name f = k
                    /\ extract f = Returns v /\ v <> [])
    /\ (forall f c t,
          In f doc_files -> extract f = Returns (c :: t) ->
          In (name f) (keys (value (read_docs doc_files []))))
    /\ List.length (value (read_docs doc_files [])) <= List.length doc_files
    /\ (forall earlier f c t,
          doc_files = earlier ++ [f] -> extract f = Returns (c :: t) ->
          In (name f, c :: t) (value (read_docs doc_files []))).
Proof.
  intros doc_files. rewrite read_docs_fold.
  split; [apply fold_store_NoDup; constructor|].
  split.
  { intros k v H. apply fold_store_origin in H as [[]|H]. exact H. }
  split; [intros f c t; apply fold_store_covers|].
  split; [apply (fold_store_length doc_files [])|].
  intros earlier f c t -> He.
  rewrite fold_left_app. cbn [fold_left]. unfold store at 1. rewrite He.
  apply dict_set_In.
Qed.

(** Two uploads named ["a.txt"], with a third between them. *)
Lemma mapping_has_one_entry_per_name_witness :
  In (lit "a.txt", lit "new")
     (value (read_docs [text_file (lit "a.txt") (lit "old");
                        text_file (lit "b.txt") (lit "Y");
                        text_file (lit "a.txt") (lit "new")] [])).
Proof.
  exact (proj2 (proj2 (proj2 (proj2
           (mapping_has_one_entry_per_name
              [text_file (lit "a.txt") (lit "old");
               text_file (lit "b.txt") (lit "Y");
               text_file (lit "a.txt") (lit "new")]))))
           [text_file (lit "a.txt") (lit "old"); text_file (lit "b.txt") (lit "Y")]
           (text_file (lit "a.txt") (lit "new")) 110%N (lit "ew")
           eq_refl eq_refl).
Defined.

End ExtractionMore.

(* ===================================================================== *)
(** * Further properties: a press of the Analyze button                   *)
(* ===================================================================== *)

Module PressFacts.
Import Py Shape App Observe PyFacts.

Section Run.

Variable gemini : str -> str -> outcome Response.
Variable usage_bool : UsageMetadata -> bool.
Variable wide : char -> bool.

(** ** Observations over traces *)

Lemma obs_errors {X} (obs : event -> list X) (doc_files : list UploadedFile) :
  (forall m, obs (st_error m) = []) ->
  flat_map obs (read_errors doc_files) = [].
Proof.
  intros H. induction doc_files as [|doc rest IH]; [reflexivity|].
  unfold read_errors. cbn [flat_map]. fold (read_errors rest).
  rewrite flat_map_app, IH.
  destruct (extract doc); cbn [flat_map]; [reflexivity|].
  now rewrite H.
Qed.

Lemma obs_display {X} (obs : event -> list X) (usage : option UsageMetadata) :
  (forall a b c d, obs (usage_stats a b c d) = []) ->
  flat_map obs (trace (display_cost_stats usage_bool usage)) = [].
Proof.
  intros H. destruct usage as [u|]; [|reflexivity].
  unfold display_cost_stats. destruct (usage_bool u); [|reflexivity].
  cbn. now rewrite H.
Qed.

(** ** The two steps *)

Lemma process_checklist_trace (key : str) (f : UploadedFile) (c : char)
    (t : str) (docs_contents : dict str) :
  extract f = Returns (c :: t) ->
  trace (process_checklist gemini usage_bool wide key (Some f) docs_contents)
  = [st_info (lit "Processing Checklist...");
     genai_configure key;
     generate_content model_name (prompt (c :: t) docs_contents true)]
    ++ trace (display_cost_stats usage_bool
                (snd (value (analyze_documents gemini key (c :: t)
                               docs_contents true))))
    ++ [st_success
          (check_mark ++ lit " Checklist Ready ("
             ++ extract_company_name
                  (fst (value (analyze_documents gemini key (c :: t)
                                 docs_contents true)))
             ++ lit ")");
        st_subheader (lit "Checklist Output");
        st_code (fst (value (analyze_documents gemini key (c :: t)
                               docs_contents true)));
        st_download_button
          (inbox_tray ++ lit " Download Checklist ("
             ++ filename wide
                  (extract_company_name
                     (fst (value (analyze_documents gemini key (c :: t)
                                    docs_contents true))))
             ++ lit ")")
          (fst (value (analyze_documents gemini key (c :: t)
                         docs_contents true)))
          (filename wide
             (extract_company_name
                (fst (value (analyze_documents gemini key (c :: t)
                               docs_contents true)))))].
Proof.
  intros Hf. unfold process_checklist.
  rewrite (CredentialFacts.read_file_content_returns f (c :: t) Hf),
    CredentialFacts.bind_ret.
  cbn [truthy].
  repeat (rewrite ExtractionFacts.trace_bind; cbv beta).
  rewrite AnalysisFacts.analyze_documents_trace.
  reflexivity.
Qed.

(** An instruction file without text leaves error messages only. *)
Lemma process_template_unread (key : str) (template_file : option UploadedFile)
    (docs_contents : dict str) :
  instruction_text template_file = None ->
  Forall (fun e => exists m, e = st_error m)
         (trace (process_template gemini usage_bool key template_file docs_contents)).
Proof.
  unfold instruction_text, process_template, read_file_content.
  destruct template_file as [f|]; [|constructor].
  destruct (extract f) as [[|c t]|e]; try discriminate; intros _; cbn;
    repeat constructor; eauto.
Qed.

Lemma process_checklist_unread (key : str) (checklist_file : option UploadedFile)
    (docs_contents : dict str) :
  instruction_text checklist_file = None ->
  Forall (fun e => exists m, e = st_error m)
         (trace (process_checklist gemini usage_bool wide key checklist_file
                   docs_contents)).
Proof.
  unfold instruction_text, process_checklist, read_file_content.
  destruct checklist_file as [f|]; [|constructor].
  destruct (extract f) as [[|c t]|e]; try discriminate; intros _; cbn;
    repeat constructor; eauto.
Qed.

Lemma obs_only_errors {X} (obs : event -> list X) (t : list event) :
  (forall m, obs (st_error m) = []) ->
  Forall (fun e => exists m, e = st_error m) t ->
  flat_map obs t = [].
Proof.
  intros H. induction 1 as [|e t [m ->] Ht IH]; [reflexivity|].
  cbn [flat_map]. now rewrite H, IH.
Qed.

Lemma instruction_text_some (file : option UploadedFile) (text : str) :
  instruction_text file = Some text ->
  exists f c t, file = Some f /\ text = c :: t /\ extract f = Returns (c :: t).
Proof.
  unfold instruction_text. destruct file as [f|]; [|discriminate].
  destruct (extract f) as [[|c t]|e] eqn:E; try discriminate.
  intros H. injection H as <-. now exists f, c, t.
Qed.

(** ** The press as a whole *)

Lemma ready_true (api_key : option str)
    (template_file checklist_file : option UploadedFile)
    (doc_files : list UploadedFile) :
  ready api_key template_file checklist_file doc_files = true ->
  exists key,
    api_key = Some key /\ key <> []
    /\ trace (on_analyze gemini usage_bool wide api_key template_file
                checklist_file doc_files)
       = read_errors doc_files
         ++ trace (process_template gemini usage_bool key template_file
                     (value (read_docs doc_files [])))
         ++ trace (process_checklist gemini usage_bool wide key checklist_file
                     (value (read_docs doc_files []))).
Proof.
  unfold ready. intros H.
  apply andb_true_iff in H as [H Hdocs]. apply andb_true_iff in H as [Hkey Hfile].
  destruct api_key as [[|k0 key]|]; try discriminate.
  exists (k0 :: key). split; [reflexivity|]. split; [discriminate|].
  unfold on_analyze. cbn [truthy negb].
  replace (negb (is_some template_file) && negb (is_some checklist_file))
    with false
    by (destruct template_file, checklist_file; cbn in *; congruence).
  destruct doc_files as [|doc rest]; [discriminate|].
  rewrite ExtractionFacts.trace_bind, ExtractionFacts.read_docs_trace.
  destruct (value (read_docs (doc :: rest) [])) as [|kv dc]; [discriminate|].
  now rewrite ExtractionFacts.trace_bind.
Qed.

Lemma ready_false (api_key : option str)
    (template_file checklist_file : option UploadedFile)
    (doc_files : list UploadedFile) :
  ready api_key template_file checklist_file doc_files = false ->
  trace (on_analyze gemini usage_bool wide api_key template_file checklist_file
           doc_files)
  = if negb (truthy_opt api_key) then
      [st_error (lit "Please provide a Google API Key in the settings sidebar.")]
    else if negb (is_some template_file || is_some checklist_file) then
      [st_warning (lit "Please upload at least one template or checklist file.")]
    else if negb (nonempty doc_files) then
      [st_warning (lit "Please upload at least one document.")]
    else
      read_errors doc_files
      ++ [st_error (lit "Could not read any document content."); st_stop].
Proof.
  unfold ready, on_analyze. intros H.
  destruct api_key as [[|k0 key]|]; try reflexivity.
  cbn [truthy truthy_opt negb andb] in *.
  destruct template_file as [tf|], checklist_file as [cf|];
    cbn [is_some negb andb orb] in *; try reflexivity;
    (destruct doc_files as [|doc rest]; [reflexivity|];
     cbn [nonempty negb];
     rewrite ExtractionFacts.trace_bind, ExtractionFacts.read_docs_trace;
     destruct (value (read_docs (doc :: rest) [])) as [|kv dc];
     [reflexivity|discriminate]).
Qed.

Lemma obs_ready {X} (obs : event -> list X) (api_key : option str)
    (template_file checklist_file : option UploadedFile)
    (doc_files : list UploadedFile) :
  (forall m, obs (st_error m) = []) ->
  ready api_key template_file checklist_file doc_files = true ->
  exists key,
    api_key = Some key /\ key <> []
    /\ flat_map obs (trace (on_analyze gemini usage_bool wide api_key
                              template_file checklist_file doc_files))
       = flat_map obs (trace (process_template gemini usage_bool key
                                template_file (value (read_docs doc_files []))))
         ++ flat_map obs (trace (process_checklist gemini usage_bool wide key
                                   checklist_file (value (read_docs doc_files [])))).
Proof.
  intros Herr H.
  destruct (ready_true _ _ _ _ H) as (key & -> & Hkey & ->).
  exists key. split; [reflexivity|]. split; [exact Hkey|].
  now rewrite !flat_map_app, (obs_errors obs doc_files Herr).
Qed.

Lemma obs_refused {X} (obs : event -> list X) (api_key : option str)
    (template_file checklist_file : option UploadedFile)
    (doc_files : list UploadedFile) :
  (forall m, obs (st_error m) = []) ->
  (forall m, obs (st_warning m) = []) ->
  obs st_stop = [] ->
  ready api_key template_file checklist_file doc_files = false ->
  flat_map obs (trace (on_analyze gemini usage_bool wide api_key template_file
                         checklist_file doc_files)) = [].
Proof.
  intros Herr Hwarn Hstop H. rewrite (ready_false _ _ _ _ H).
  destruct (negb (truthy_opt api_key)); [cbn; now rewrite Herr|].
  destruct (negb (is_some template_file || is_some checklist_file));
    [cbn; now rewrite Hwarn|].
  destruct (negb (nonempty doc_files)); [cbn; now rewrite Hwarn|].
  rewrite flat_map_app, (obs_errors obs doc_files Herr).
  cbn. now rewrite Herr, Hstop.
Qed.

Lemma prompts_template (key : str) (template_file : option UploadedFile)
    (docs_contents : dict str) :
  prompts (trace (process_template gemini usage_bool key template_file
                    docs_contents))
  = instruction_prompt template_file docs_contents false.
Proof.
  unfold instruction_prompt.
  destruct (instruction_text template_file) as [text|] eqn:E.
  - apply instruction_text_some in E as (f & c & t & -> & -> & Hf).
    rewrite (CredentialFacts.process_template_trace _ _ _ f c t _ Hf).
    unfold prompts. rewrite !flat_map_app, obs_display; reflexivity.
  - apply obs_only_errors; [reflexivity|now apply process_template_unread].
Qed.

Lemma prompts_checklist (key : str) (checklist_file : option UploadedFile)
    (docs_contents : dict str) :
  prompts (trace (process_checklist gemini usage_bool wide key checklist_file
                    docs_contents))
  = instruction_prompt checklist_file docs_contents true.
Proof.
  unfold instruction_prompt.
  destruct (instruction_text checklist_file) as [text|] eqn:E.
  - apply instruction_text_some in E as (f & c & t & -> & -> & Hf).
    rewrite (process_checklist_trace _ f c t _ Hf).
    unfold prompts. rewrite !flat_map_app, obs_display; reflexivity.
  - apply obs_only_errors; [reflexivity|now apply process_checklist_unread].
Qed.

Lemma downloads_template (key : str) (template_file : option UploadedFile)
    (docs_contents : dict str) :
  downloads (trace (process_template gemini usage_bool key template_file
                      docs_contents))
  = match instruction_text template_file with
    | Some text =>
        [(fst (value (analyze_documents gemini key text docs_contents false)),
          lit "analysis_result.txt")]
    | None => []
    end.
Proof.
  destruct (instruction_text template_file) as [text|] eqn:E.
  - apply instruction_text_some in E as (f & c & t & -> & -> & Hf).
    rewrite (CredentialFacts.process_template_trace _ _ _ f c t _ Hf).
    unfold downloads. rewrite !flat_map_app, obs_display; reflexivity.
  - apply obs_only_errors; [reflexivity|now apply process_template_unread].
Qed.

Lemma downloads_checklist (key : str) (checklist_file : option UploadedFile)
    (docs_contents : dict str) :
  downloads (trace (process_checklist gemini usage_bool wide key checklist_file
                      docs_contents))
  = match instruction_text checklist_file with
    | Some text =>
        [(fst (value (analyze_documents gemini key text docs_contents true)),
          filename wide
            (extract_company_name
               (fst (value (analyze_documents gemini key text docs_contents
                              true)))))]
    | None => []
    end.
Proof.
  destruct (instruction_text checklist_file) as [text|] eqn:E.
  - apply instruction_text_some in E as (f & c & t & -> & -> & Hf).
    rewrite (process_checklist_trace _ f c t _ Hf).
    unfold downloads. rewrite !flat_map_app, obs_display; reflexivity.
  - apply obs_only_errors; [reflexivity|now apply process_checklist_unread].
Qed.

Lemma shown_template (key : str) (template_file : option UploadedFile)
    (docs_contents : dict str) :
  shown (trace (process_template gemini usage_bool key template_file
                  docs_contents))
  = match instruction_text template_file with
    | Some text =>
        [fst (value (analyze_documents gemini key text docs_contents false))]
    | None => []
    end.
Proof.
  destruct (instruction_text template_file) as [text|] eqn:E.
  - apply instruction_text_some in E as (f & c & t & -> & -> & Hf).
    rewrite (CredentialFacts.process_template_trace _ _ _ f c t _ Hf).
    unfold shown. rewrite !flat_map_app, obs_display; reflexivity.
  - apply obs_only_errors; [reflexivity|now apply process_template_unread].
Qed.

Lemma shown_checklist (key : str) (checklist_file : option UploadedFile)
    (docs_contents : dict str) :
  shown (trace (process_checklist gemini usage_bool wide key checklist_file
                  docs_contents))
  = match instruction_text checklist_file with
    | Some text =>
        [fst (value (analyze_documents gemini key text docs_contents true))]
    | None => []
    end.
Proof.
  destruct (instruction_text checklist_file) as [text|] eqn:E.
  - apply instruction_text_some in E as (f & c & t & -> & -> & Hf).
    rewrite (process_checklist_trace _ f c t _ Hf).
    unfold shown. rewrite !flat_map_app, obs_display; reflexivity.
  - apply obs_only_errors; [reflexivity|now apply process_checklist_unread].
Qed.

Lemma prompts_press (api_key : option str)
    (template_file checklist_file : option UploadedFile)
    (doc_files : list UploadedFile) :
  prompts (trace (on_analyze gemini usage_bool wide api_key template_file
                    checklist_file doc_files))
  = if ready api_key template_file checklist_file doc_files
    then instruction_prompt template_file (value (read_docs doc_files [])) false
         ++ instruction_prompt checklist_file (value (read_docs doc_files [])) true
    else [].
Proof.
  destruct (ready api_key template_file checklist_file doc_files) eqn:H.
  - destruct (obs_ready
                (fun e => match e with generate_content _ p => [p] | _ => [] end)
                api_key template_file checklist_file doc_files
                (fun _ => eq_refl) H) as (key & _ & _ & E).
    etransitivity; [exact E|].
    f_equal; [apply prompts_template|apply prompts_checklist].
  - now apply obs_refused.
Qed.

End Run.

(** X4.  What a press sends is decided by the uploads alone.  When there
    is a key, a template or checklist, and a document with text, the
    template's prompt is sent if the template has text, then the
    checklist's if the checklist has text; otherwise nothing is sent.
    So at most two prompts go out, and what the service answers to the
    template's prompt, a failure included, has no bearing on whether the
    checklist's prompt is sent. *)
Theorem prompts_sent_by_a_press :
  forall (gemini gemini' : str -> str -> outcome Response)
         (usage_bool : UsageMetadata -> bool) (wide : char -> bool)
         (api_key : option str)
         (template_file checklist_file : option UploadedFile)
         (doc_files : list UploadedFile),
    prompts (trace (on_analyze gemini usage_bool wide api_key template_file
                      checklist_file doc_files))
    = (if ready api_key template_file checklist_file doc_files
       then instruction_prompt template_file (value (read_docs doc_files [])) false
            ++ instruction_prompt checklist_file (value (read_docs doc_files [])) true
       else [])
    /\ List.length (prompts (trace (on_analyze gemini usage_bool wide api_key
                                      template_file checklist_file doc_files))) <= 2
    /\ prompts (trace (on_analyze gemini' usage_bool wide api_key template_file
                         checklist_file doc_files))
       = prompts (trace (on_analyze gemini usage_bool wide api_key template_file
                           checklist_file doc_files)).
Proof.
  intros gemini gemini' usage_bool wide api_key template_file checklist_file
         doc_files.
  split; [apply prompts_press|].
  split; [|now rewrite !prompts_press].
  rewrite prompts_press.
  destruct (ready api_key template_file checklist_file doc_files); [|cbn; lia].
  rewrite length_app. unfold instruction_prompt.
  destruct (instruction_text template_file), (instruction_text checklist_file);
    cbn; lia.
Qed.

(** X5.  A press that lacks something does nothing beyond saying what is
    missing, and the checks come in a fixed order: the key, then the
    template or checklist, then the documents, then whether any document
    gave text.  Nothing is configured, sent, shown or offered. *)
Theorem refused_press_does_nothing :
  forall (gemini : str -> str -> outcome Response)
         (usage_bool : UsageMetadata -> bool) (wide : char -> bool)
         (api_key : option str)
         (template_file checklist_file : option UploadedFile)
         (doc_files : list UploadedFile),
    ready api_key template_file checklist_file doc_files = false ->
    trace (on_analyze gemini usage_bool wide api_key template_file checklist_file
             doc_files)
    = (if negb (truthy_opt api_key) then
         [st_error (lit "Please provide a Google API Key in the settings sidebar.")]
       else if negb (is_some template_file || is_some checklist_file) then
         [st_warning (lit "Please upload at least one template or checklist file.")]
       else if negb (nonempty doc_files) then
         [st_warning (lit "Please upload at least one document.")]
       else
         read_errors doc_files
         ++ [st_error (lit "Could not read any document content."); st_stop])
    /\ configured (trace (on_analyze gemini usage_bool wide api_key template_file
                            checklist_file doc_files)) = []
    /\ prompts (trace (on_analyze gemini usage_bool wide api_key template_file
                         checklist_file doc_files)) = []
    /\ shown (trace (on_analyze gemini usage_bool wide api_key template_file
                       checklist_file doc_files)) = []
    /\ downloads (trace (on_analyze gemini usage_bool wide api_key template_file
                           checklist_file doc_files)) = [].
Proof.
  intros gemini usage_bool wide api_key template_file checklist_file doc_files H.
  split; [now apply ready_false|].
  repeat split; now apply obs_refused.
Qed.

(** A press with a key and a template, where the only document is
    empty. *)
Lemma refused_press_does_nothing_witness :
  trace (on_analyze (fun _ _ => Raises (lit "unreachable")) (fun _ => true)
           (fun _ => false) (Some (lit "key"))
           (Some (text_file (lit "t.txt") (lit "T"))) None
           [text_file (lit "empty.txt") []])
  = [st_error (lit "Could not read any document content."); st_stop].
Proof.
  exact (proj1 (refused_press_does_nothing
                  (fun _ _ => Raises (lit "unreachable")) (fun _ => true)
                  (fun _ => false) (Some (lit "key"))
                  (Some (text_file (lit "t.txt") (lit "T"))) None
                  [text_file (lit "empty.txt") []] eq_refl)).
Defined.

(** X6.  Every download a press offers carries a text that is also shown
    on the page, and that text is what [analyze_documents] returned.
    Its file name is either ["analysis_result.txt"] or ["checklist_"], a
    stem and [".txt"], where the stem has only letters, digits, hyphens
    and underscores, whatever the model wrote: no path separator, no
    space, no dot. *)
Theorem downloads_are_shown_and_safely_named :
  forall (gemini : str -> str -> outcome Response)
         (usage_bool : UsageMetadata -> bool) (wide : char -> bool)
         (api_key : option str)
         (template_file checklist_file : option UploadedFile)
         (doc_files : list UploadedFile) (data file_name : str),
    In (data, file_name)
       (downloads (trace (on_analyze gemini usage_bool wide api_key template_file
                            checklist_file doc_files))) ->
    In data (shown (trace (on_analyze gemini usage_bool wide api_key template_file
                             checklist_file doc_files)))
    /\ (file_name = lit "analysis_result.txt"
        \/ exists stem,
             file_name = lit "checklist_" ++ stem ++ lit ".txt"
             /\ Forall (safe_char wide) stem)
    /\ exists key text is_checklist,
         api_key = Some key
         /\ data = fst (value (analyze_documents gemini key text
                                 (value (read_docs doc_files [])) is_checklist)).
Proof.
  intros gemini usage_bool wide api_key template_file checklist_file doc_files
         data file_name Hin.
  destruct (ready api_key template_file checklist_file doc_files) eqn:H.
  2:{ unfold downloads in Hin.
      rewrite (obs_refused gemini usage_bool wide _ api_key template_file
                 checklist_file doc_files) in Hin by auto.
      destruct Hin. }
  destruct (obs_ready gemini usage_bool wide
              (fun e => match e with
                        | st_download_button _ d fn => [(d, fn)]
                        | _ => []
                        end)
              api_key template_file checklist_file doc_files
              (fun _ => eq_refl) H) as (key & Hkey & _ & Ed).
  destruct (obs_ready gemini usage_bool wide
              (fun e => match e with st_code b => [b] | _ => [] end)
              api_key template_file checklist_file doc_files
              (fun _ => eq_refl) H) as (key' & Hkey' & _ & Es).
  rewrite Hkey in Hkey'. injection Hkey' as <-.
  unfold downloads in Hin. rewrite Ed in Hin.
  unfold shown. rewrite Es.
  fold (downloads (trace (process_template gemini usage_bool key template_file
                            (value (read_docs doc_files []))))) in Hin.
  fold (downloads (trace (process_checklist gemini usage_bool wide key
                            checklist_file (value (read_docs doc_files []))))) in Hin.
  fold (shown (trace (process_template gemini usage_bool key template_file
                        (value (read_docs doc_files []))))).
  fold (shown (trace (process_checklist gemini usage_bool wide key
                        checklist_file (value (read_docs doc_files []))))).
  rewrite downloads_template, downloads_checklist in Hin.
  rewrite shown_template, shown_checklist.
  apply in_app_or in Hin as [Hin|Hin].
  - destruct (instruction_text template_file) as [text|]; [|destruct Hin].
    destruct Hin as [Hin|[]]. injection Hin as <- <-.
    split; [apply in_or_app; left; now left|].
    split; [now left|]. now exists key, text, false.
  - destruct (instruction_text checklist_file) as [text|]; [|destruct Hin].
    destruct Hin as [Hin|[]]. injection Hin as <- <-.
    split; [apply in_or_app; right; now left|].
    split; [|now exists key, text, true].
    right. eexists. split; [reflexivity|].
    apply FilenameFacts.safe_company_name_chars.
Qed.

(** A checklist answered with a company name that holds a path. *)
Lemma downloads_are_shown_and_safely_named_witness :
  In (lit "Company name: ../etc/Acme Ltd.")
     (shown (trace (on_analyze
                      (fun _ _ => Returns
                         {| text := Returns (lit "Company name: ../etc/Acme Ltd.");
                            usage_metadata :=
                              {| prompt_token_count := 7;
                                 candidates_token_count := 3;
                                 total_token_count := 10 |} |})
                      (fun _ => true) (fun _ => false) (Some (lit "key"))
                      None (Some (text_file (lit "c.txt") (lit "Company name:")))
                      [text_file (lit "a.txt") (lit "X")])))
  /\ (lit "checklist_etcAcme_Ltd.txt" = lit "analysis_result.txt"
      \/ exists stem,
           lit "checklist_etcAcme_Ltd.txt" = lit "checklist_" ++ stem ++ lit ".txt"
           /\ Forall (safe_char (fun _ => false)) stem).
Proof.
  refine (let H := downloads_are_shown_and_safely_named
                     (fun _ _ => Returns
                        {| text := Returns (lit "Company name: ../etc/Acme Ltd.");
                           usage_metadata :=
                             {| prompt_token_count := 7;
                                candidates_token_count := 3;
                                total_token_count := 10 |} |})
                     (fun _ => true) (fun _ => false) (Some (lit "key"))
                     None (Some (text_file (lit "c.txt") (lit "Company name:")))
                     [text_file (lit "a.txt") (lit "X")]
                     (lit "Company name: ../etc/Acme Ltd.")
                     (lit "checklist_etcAcme_Ltd.txt") _
          in conj (proj1 H) (proj1 (proj2 H))).
  vm_compute. left. reflexivity.
Defined.

(** X7.  A failure of the service does not stop the template step: the
    error text is announced as a ready report, shown, and offered for
    download as ["analysis_result.txt"], with no usage statistics. *)
Theorem service_failure_is_offered_as_report :
  forall (gemini : str -> str -> outcome Response)
         (usage_bool : UsageMetadata -> bool) (wide : char -> bool)
         (key : str) (f : UploadedFile) (c : char) (t : str)
         (doc_files : list UploadedFile) (e : str),
    key <> [] ->
    extract f = Returns (c :: t) ->
    value (read_docs doc_files []) <> [] ->
    gemini key (prompt (c :: t) (value (read_docs doc_files [])) false)
      = Raises e ->
    trace (on_analyze gemini usage_bool wide (Some key) (Some f) None doc_files)
    = read_errors doc_files
      ++ [st_info (lit "Generating Analysis Report...");
          genai_configure key;
          generate_content model_name
            (prompt (c :: t) (value (read_docs doc_files [])) false);
          st_success (check_mark ++ lit " Analysis Report Ready");
          st_subheader (lit "Analysis Output");
          st_code (lit "Error during analysis: " ++ e);
          st_download_button (inbox_tray ++ lit " Download Analysis Report")
            (lit "Error during analysis: " ++ e) (lit "analysis_result.txt")].
Proof.
  intros gemini usage_bool wide key f c t doc_files e Hkey Hf Hdocs He.
  assert (Hready : ready (Some key) (Some f) None doc_files = true).
  { unfold ready. destruct key; [congruence|].
    destruct (value (read_docs doc_files [])); [congruence|reflexivity]. }
  destruct (ready_true gemini usage_bool wide _ _ _ _ Hready)
    as (key' & Hk & _ & ->).
  injection Hk as <-.
  rewrite (CredentialFacts.process_template_trace _ _ _ f c t _ Hf).
  rewrite (AnalysisFacts.analyze_documents_raises _ _ _ _ _ _ He).
  cbn [fst snd process_checklist display_cost_stats ret trace app].
  rewrite ?app_nil_r. reflexivity.
Qed.

(** A template, one document, and a service that is out of quota. *)
Lemma service_failure_is_offered_as_report_witness :
  downloads (trace (on_analyze (fun _ _ => Raises (lit "429 quota exceeded"))
                      (fun _ => true) (fun _ => false) (Some (lit "key"))
                      (Some (text_file (lit "t.txt") (lit "T"))) None
                      [text_file (lit "a.txt") (lit "X")]))
  = [(lit "Error during analysis: 429 quota exceeded", lit "analysis_result.txt")].
Proof.
  refine (eq_trans
            (f_equal downloads
               (service_failure_is_offered_as_report
                  (fun _ _ => Raises (lit "429 quota exceeded"))
                  (fun _ => true) (fun _ => false) (lit "key")
                  (text_file (lit "t.txt") (lit "T")) 84%N []
                  [text_file (lit "a.txt") (lit "X")]
                  (lit "429 quota exceeded") _ eq_refl _ eq_refl))
            eq_refl).
  - discriminate.
  - vm_compute. discriminate.
Defined.

End PressFacts.

(* ===================================================================== *)
(** * Further properties: the company name                                *)
(* ===================================================================== *)

Module NameMore.
Import Py Shape App Observe PyFacts.

Lemma takewhile_dropwhile (p : char -> bool) (s : str) :
  s = takewhile p s ++ dropwhile p s.
Proof.
  induction s as [|c s IH]; [reflexivity|].
  cbn [takewhile dropwhile]. destruct (p c); [|reflexivity].
  cbn [app]. now f_equal.
Qed.

Lemma takewhile_all (p : char -> bool) (s : str) :
  Forall (fun c => p c = true) (takewhile p s).
Proof.
  induction s as [|c s IH]; cbn [takewhile]; [constructor|].
  destruct (p c) eqn:E; now constructor.
Qed.

Lemma dropwhile_head (p : char -> bool) (s : str) (x : char) (r : str) :
  dropwhile p s = x :: r -> p x = false.
Proof.
  induction s as [|c s IH]; cbn [dropwhile]; [discriminate|].
  destruct (p c) eqn:E; [exact IH|]. intros H. injection H as <- _. exact E.
Qed.

(** [strip] removes a run from each end and nothing else. *)
Lemma strip_set_infix (p : char -> bool) (s : str) :
  exists a b,
    s = a ++ strip_set p s ++ b
    /\ Forall (fun c => p c = true) a /\ Forall (fun c => p c = true) b.
Proof.
  exists (takewhile p s), (rev (takewhile p (rev (dropwhile p s)))).
  split; [|split; [apply takewhile_all|apply Forall_rev, takewhile_all]].
  unfold strip_set. rewrite <- rev_app_distr, <- takewhile_dropwhile, rev_involutive.
  apply takewhile_dropwhile.
Qed.

Lemma strip_set_first (p : char -> bool) (s : str) (x : char) (r : str) :
  strip_set p s = x :: r -> p x = false.
Proof.
  intros H.
  assert (E : dropwhile p s
              = strip_set p s ++ rev (takewhile p (rev (dropwhile p s)))).
  { unfold strip_set.
    now rewrite <- rev_app_distr, <- takewhile_dropwhile, rev_involutive. }
  rewrite H in E. cbn [app] in E. now apply dropwhile_head in E.
Qed.

Lemma strip_set_last (p : char -> bool) (s : str) (x : char) (r : str) :
  strip_set p s = r ++ [x] -> p x = false.
Proof.
  unfold strip_set. intros H.
  apply (f_equal (@rev char)) in H.
  rewrite rev_involutive, rev_app_distr in H. cbn [rev app] in H.
  now apply dropwhile_head in H.
Qed.

Lemma strip_set_fixed (p : char -> bool) (s : str) :
  Forall (fun c => p c = false) s -> strip_set p s = s.
Proof.
  intros H.
  assert (D : forall l, Forall (fun c => p c = false) l -> dropwhile p l = l).
  { intros l Hl. destruct Hl as [|c l Hc Hl]; [reflexivity|].
    cbn [dropwhile]. now rewrite Hc. }
  unfold strip_set. rewrite (D s H), (D (rev s)) by now apply Forall_rev.
  apply rev_involutive.
Qed.

Lemma group_dot_plus_inv (s g : str) :
  group_dot_plus s = Some g ->
  g <> [] /\ Forall (fun c => not_newline c = true) g
  /\ exists b, s = g ++ b /\ (b = [] \/ exists r, b = 10%N :: r).
Proof.
  unfold group_dot_plus. intros H.
  assert (E : g = takewhile not_newline s)
    by (destruct (takewhile not_newline s); [discriminate|now injection H as <-]).
  split; [destruct (takewhile not_newline s); [discriminate|subst; discriminate]|].
  subst g. split; [apply takewhile_all|].
  exists (dropwhile not_newline s). split; [apply takewhile_dropwhile|].
  destruct (dropwhile not_newline s) as [|x r] eqn:D; [now left|right].
  apply dropwhile_head in D. unfold not_newline in D.
  apply negb_false_iff, N.eqb_eq in D. subst x. now exists r.
Qed.

Lemma spaces_then_group_inv (s g : str) :
  spaces_then_group s = Some g ->
  g <> [] /\ Forall (fun c => not_newline c = true) g
  /\ exists ws b,
       s = ws ++ g ++ b /\ Forall (fun c => isspace c = true) ws
       /\ (b = [] \/ exists r, b = 10%N :: r).
Proof.
  revert g; induction s as [|c s IH]; intros g H; [discriminate|].
  cbn [spaces_then_group] in H.
  assert (G : group_dot_plus (c :: s) = Some g ->
              g <> [] /\ Forall (fun c => not_newline c = true) g
              /\ exists ws b,
                   c :: s = ws ++ g ++ b
                   /\ Forall (fun c => isspace c = true) ws
                   /\ (b = [] \/ exists r, b = 10%N :: r)).
  { intros Hg. apply group_dot_plus_inv in Hg as (Hne & Hall & b & E & Hb).
    split; [exact Hne|]. split; [exact Hall|].
    exists [], b. now repeat split. }
  destruct (isspace c) eqn:Ec; [|now apply G].
  destruct (spaces_then_group s) as [g'|] eqn:Es; [|now apply G].
  injection H as <-.
  destruct (IH g' eq_refl) as (Hne & Hall & ws & b & -> & Hws & Hb).
  split; [exact Hne|]. split; [exact Hall|].
  exists (c :: ws), b. split; [reflexivity|]. split; [now constructor|exact Hb].
Qed.

Lemma re_search_inv (s g : str) :
  re_search s = Some g ->
  g <> [] /\ Forall (fun c => not_newline c = true) g
  /\ exists pre lbl ws rest,
       s = pre ++ lbl ++ ws ++ g ++ rest
       /\ map lower lbl = map lower label
       /\ Forall (fun c => isspace c = true) ws
       /\ (rest = [] \/ exists r, rest = 10%N :: r).
Proof.
  induction s as [|c s IH]; cbn [re_search].
  - cbn. discriminate.
  - destruct (match_at (c :: s)) as [g'|] eqn:E.
    + intros H. injection H as ->. unfold match_at in E.
      destruct (literal_ci label (c :: s)) as [r|] eqn:El; [|discriminate].
      apply FilenameFacts.literal_ci_inv in El as (lbl & Hs & Hl).
      apply spaces_then_group_inv in E as (Hne & Hall & ws & b & -> & Hws & Hb).
      split; [exact Hne|]. split; [exact Hall|].
      exists [], lbl, ws, b. now repeat split.
    + intros H. apply IH in H as (Hne & Hall & pre & lbl & ws & rest & -> & H).
      split; [exact Hne|]. split; [exact Hall|].
      now exists (c :: pre), lbl, ws, rest.
Qed.

Lemma Forall_infix (P : char -> Prop) (a s b : str) :
  Forall P (a ++ s ++ b) -> Forall P s.
Proof.
  intros H. apply Forall_app in H as [_ H]. now apply Forall_app in H as [H _].
Qed.

(** X8.  A company name that is found is really in the text: the text
    holds the label in some letter case, then white space only, then a
    non-empty run of characters that ends at the end of its line, and
    the name is a piece of that run.  The name is a single line, and
    neither its first nor its last character is a bracket. *)
Theorem found_name_comes_from_the_text :
  forall (text g : str),
    re_search text = Some g ->
    (exists pre lbl ws rest,
       text = pre ++ lbl ++ ws ++ g ++ rest
       /\ map lower lbl = map lower (lit "Company name:")
       /\ Forall (fun c => isspace c = true) ws
       /\ (rest = [] \/ exists r, rest = 10%N :: r))
    /\ g <> []
    /\ (exists a b, g = a ++ extract_company_name text ++ b)
    /\ Forall (fun c => c <> 10%N) (extract_company_name text)
    /\ (forall x r, extract_company_name text = x :: r -> x <> 91%N /\ x <> 93%N)
    /\ (forall x r, extract_company_name text = r ++ [x] -> x <> 91%N /\ x <> 93%N).
Proof.
  intros text g H.
  destruct (re_search_inv text g H) as (Hne & Hall & Hdec).
  split; [exact Hdec|]. split; [exact Hne|].
  unfold extract_company_name. rewrite H.
  destruct (strip_set_infix isspace g) as (a1 & b1 & E1 & _ & _).
  destruct (strip_set_infix (fun c => mem c brackets) (strip g))
    as (a2 & b2 & E2 & _ & _).
  fold (strip g) in E1.
  assert (E : g = (a1 ++ a2) ++ strip_set (fun c => mem c brackets) (strip g)
                    ++ (b2 ++ b1)).
  { rewrite E1 at 1. rewrite E2 at 1. now rewrite <- !app_assoc. }
  split; [now exists (a1 ++ a2), (b2 ++ b1)|].
  split.
  { rewrite E in Hall. apply Forall_infix in Hall.
    eapply Forall_impl; [|exact Hall].
    intros c Hc ->. discriminate. }
  assert (B : forall x, mem x brackets = false -> x <> 91%N /\ x <> 93%N).
  { intros x Hx. split; intros ->; discriminate. }
  split; intros x r Hx; apply B.
  - now apply strip_set_first in Hx.
  - now apply strip_set_last in Hx.
Qed.

(** A bracketed name on the line after the label. *)
Lemma found_name_comes_from_the_text_witness :
  exists a b,
    lit "[Acme Corp] " = a ++ extract_company_name
                                (lit "COMPANY NAME:" ++ nl ++ lit "[Acme Corp] "
                                     ++ nl ++ lit "Date: today")
                           ++ b.
Proof.
  exact (proj1 (proj2 (proj2
           (found_name_comes_from_the_text
              (lit "COMPANY NAME:" ++ nl ++ lit "[Acme Corp] " ++ nl
                   ++ lit "Date: today")
              (lit "[Acme Corp] ") eq_refl)))).
Defined.

Lemma safe_chars_kept (wide : char -> bool) (s : str) :
  Forall (safe_char wide) s -> filter (kept wide) s = s.
Proof.
  induction 1 as [|c s Hc Hs IH]; [reflexivity|].
  cbn [filter]. rewrite IH.
  assert (K : kept wide c = true).
  { unfold kept. destruct Hc as [Hc|[->| ->]]; [now rewrite Hc| |];
      apply orb_true_iff; right; reflexivity. }
  now rewrite K.
Qed.

Lemma isalnum_not_space (wide : char -> bool) (c : char) :
  (forall x, wide x = true -> isspace x = false) ->
  isalnum wide c = true -> isspace c = false.
Proof.
  intros Hw. unfold isalnum. destruct (c <? 128)%N eqn:E; [|apply Hw].
  intros H. unfold isspace, between in *.
  apply N.ltb_lt in E.
  repeat match goal with
         | |- (_ || _) = false => apply orb_false_iff; split
         | |- (_ && _) = false => apply andb_false_iff
         | |- (_ =? _)%N = false => apply N.eqb_neq; lia
         end;
    repeat match goal with
           | H : (_ || _) = true |- _ => apply orb_true_iff in H as [H|H]
           | H : (_ && _) = true |- _ => apply andb_true_iff in H as [? ?]
           | H : (_ <=? _)%N = true |- _ => apply N.leb_le in H
           end;
    first [left; apply N.leb_gt; lia | right; apply N.leb_gt; lia].
Qed.

(** X9.  Sanitising is stable: a name that has been made safe comes
    back unchanged when it is made safe again, given that no white
    space counts as alphanumeric. *)
Theorem sanitised_name_is_stable :
  forall (wide : char -> bool) (company_name : str),
    (forall x, wide x = true -> isspace x = false) ->
    safe_company_name wide (safe_company_name wide company_name)
    = safe_company_name wide company_name.
Proof.
  intros wide company_name Hw.
  pose proof (FilenameFacts.safe_company_name_chars wide company_name) as Hsafe.
  set (r := safe_company_name wide company_name) in *.
  unfold safe_company_name at 1.
  rewrite (safe_chars_kept wide r Hsafe).
  unfold strip. rewrite strip_set_fixed.
  - unfold replace. rewrite <- (map_id r) at 2. apply map_ext_in.
    intros c Hc. rewrite Forall_forall in Hsafe.
    destruct (c =? 32)%N eqn:E; [|reflexivity].
    apply N.eqb_eq in E. subst c.
    destruct (Hsafe _ Hc) as [H|[H|H]]; discriminate.
  - eapply Forall_impl; [|exact Hsafe].
    intros c [H|[->| ->]]; [now apply (isalnum_not_space wide)| |]; reflexivity.
Qed.

(** Sanitising a name with punctuation and inner spaces, twice. *)
Lemma sanitised_name_is_stable_witness :
  safe_company_name (fun _ => false)
    (safe_company_name (fun _ => false) (lit " Acme, Inc. [Confidential] "))
  = safe_company_name (fun _ => false) (lit " Acme, Inc. [Confidential] ").
Proof.
  exact (sanitised_name_is_stable (fun _ => false)
           (lit " Acme, Inc. [Confidential] ") (fun x H => False_ind _ (Bool.diff_false_true H))).
Defined.

End NameMore.

(* ===================================================================== *)
(** * Further properties: the key and the page                            *)
(* ===================================================================== *)

Module PageFacts.
Import Py Shape App Page Observe PyFacts.

(** X10.  A key that is resolved is never empty, and it is the typed
    override, the secret, or, when the secrets hold no key, the
    environment's.  A secret that is present but empty hides the
    environment's key: with no override there is then no key at all. *)
Theorem resolved_key_is_a_source :
  forall (user_api_key : str) (secret getenv : option str) (key : str),
    api_key user_api_key (system_api_key secret getenv) = Some key ->
    key <> []
    /\ (key = user_api_key
        \/ secret = Some key
        \/ (secret = None /\ getenv = Some key))
    /\ api_key [] (system_api_key (Some []) getenv) = None.
Proof.
  intros user_api_key secret getenv key H.
  split; [exact (CredentialFacts.api_key_some_nonempty _ _ _ H)|].
  split; [|reflexivity].
  unfold api_key, system_api_key in H.
  destruct user_api_key as [|c u]; cbn [truthy] in H.
  - destruct secret as [[|c k]|]; cbn [truthy_opt truthy] in H.
    + discriminate.
    + right; left. exact H.
    + destruct getenv as [[|c k]|]; cbn [truthy_opt truthy] in H;
        try discriminate.
      right; right. now split.
  - injection H as <-. now left.
Qed.

(** No override, no secret, a key in the environment. *)
Lemma resolved_key_is_a_source_witness :
  lit "env-key" <> []
  /\ (lit "env-key" = []
      \/ None = Some (lit "env-key")
      \/ (@None str = None /\ Some (lit "env-key") = Some (lit "env-key"))).
Proof.
  exact (let H := resolved_key_is_a_source [] None (Some (lit "env-key"))
                    (lit "env-key") eq_refl
         in conj (proj1 H) (proj1 (proj2 H))).
Defined.

Section Run.

Variable gemini : str -> str -> outcome Response.
Variable usage_bool : UsageMetadata -> bool.
Variable wide : char -> bool.

Lemma script_trace (secret getenv : option str) (user_api_key : str)
    (analyze_btn : bool) (template_file checklist_file : option UploadedFile)
    (doc_files : list UploadedFile) :
  trace (script gemini usage_bool wide secret getenv user_api_key analyze_btn
           template_file checklist_file doc_files)
  = trace (key_status (system_api_key secret getenv))
    ++ [st_info (lit "Upload your template and documents to begin analysis.");
        st_subheader (lit "1. Upload Templates");
        st_subheader (lit "2. Upload Documents");
        st_subheader (lit "3. Results")]
    ++ (if analyze_btn
        then trace (on_analyze gemini usage_bool wide
                      (api_key user_api_key (system_api_key secret getenv))
                      template_file checklist_file doc_files)
        else trace (placeholder false template_file checklist_file doc_files)).
Proof.
  unfold script, sidebar.
  repeat (rewrite ExtractionFacts.trace_bind; cbv beta).
  repeat (rewrite ExtractionFacts.value_bind; cbv beta).
  cbn [ret emit trace value fst snd app].
  destruct analyze_btn.
  - unfold placeholder. cbn [negb andb].
    change (trace (ret tt)) with (@nil event).
    now rewrite app_nil_r, <- app_assoc.
  - now rewrite <- app_assoc.
Qed.

Lemma obs_idle {X} (obs : event -> list X) (secret getenv : option str)
    (user_api_key : str) (template_file checklist_file : option UploadedFile)
    (doc_files : list UploadedFile) :
  (forall m, obs (st_info m) = []) ->
  (forall m, obs (st_success m) = []) ->
  (forall m, obs (st_warning m) = []) ->
  (forall m, obs (st_subheader m) = []) ->
  flat_map obs (trace (script gemini usage_bool wide secret getenv user_api_key
                         false template_file checklist_file doc_files)) = [].
Proof.
  intros Hinfo Hsucc Hwarn Hsub. rewrite script_trace, !flat_map_app.
  unfold key_status, placeholder.
  destruct (truthy_opt (system_api_key secret getenv));
    destruct (negb false && negb (is_some template_file)
              && negb (is_some checklist_file)
              && match doc_files with [] => true | _ :: _ => false end);
    cbn; now rewrite ?Hinfo, ?Hsucc, ?Hwarn, ?Hsub.
Qed.

End Run.

(** X11.  Uploading files sends nothing: as long as the Analyze button
    is not pressed, a run of the page configures no key, sends no
    prompt, shows no result and offers no download, whatever is
    uploaded or typed.  With the button pressed, what is sent is what
    the press sends with the key the sidebar resolved. *)
Theorem nothing_is_sent_before_the_button :
  forall (gemini : str -> str -> outcome Response)
         (usage_bool : UsageMetadata -> bool) (wide : char -> bool)
         (secret getenv : option str) (user_api_key : str)
         (template_file checklist_file : option UploadedFile)
         (doc_files : list UploadedFile),
    configured (trace (script gemini usage_bool wide secret getenv user_api_key
                         false template_file checklist_file doc_files)) = []
    /\ prompts (trace (script gemini usage_bool wide secret getenv user_api_key
                         false template_file checklist_file doc_files)) = []
    /\ shown (trace (script gemini usage_bool wide secret getenv user_api_key
                       false template_file checklist_file doc_files)) = []
    /\ downloads (trace (script gemini usage_bool wide secret getenv user_api_key
                           false template_file checklist_file doc_files)) = []
    /\ prompts (trace (script gemini usage_bool wide secret getenv user_api_key
                         true template_file checklist_file doc_files))
       = prompts (trace (on_analyze gemini usage_bool wide
                           (api_key user_api_key (system_api_key secret getenv))
                           template_file checklist_file doc_files)).
Proof.
  intros gemini usage_bool wide secret getenv user_api_key template_file
         checklist_file doc_files.
  repeat split; try (apply obs_idle; reflexivity).
  rewrite script_trace. unfold prompts. rewrite !flat_map_app.
  unfold key_status.
  now destruct (truthy_opt (system_api_key secret getenv)).
Qed.

End PageFacts.

(* ===================================================================== *)
(** * Further properties: the console script                              *)
(* ===================================================================== *)

Module ConsoleMore.
Import Py Shape Observe PyFacts.
Import Cli.

(** The events after the checks, once they have all passed. *)
Lemma accepted_trace (w : World) (typed_template typed_docs typed_output : str) :
  accepted w typed_template typed_docs typed_output = true ->
  exists key,
    GOOGLE_API_KEY w = Some key /\ key <> []
    /\ analyze_documents w typed_template typed_docs typed_output
       = genai_configure key
         :: print (lit "--- Gemini Document Analyzer ---")
         :: map not_found_warning
              (filter (fun p => negb (path_exists w p)) (doc_paths_of typed_docs))
         ++ match read_text w (strip typed_template) with
            | Raises e => [print (lit "Error reading template file: " ++ e)]
            | Returns template_content =>
                match read_docs w 0
                        (filter (path_exists w) (doc_paths_of typed_docs)) [] with
                | inr (q, e) =>
                    [print (lit "Error reading document '" ++ q ++ lit "': " ++ e)]
                | inl docs_content =>
                    print (nl ++ lit "Analyzing documents with Gemini...")
                    :: submit w key (strip typed_output)
                         (prompt template_content docs_content)
                end
            end.
Proof.
  unfold accepted. intros H.
  apply andb_true_iff in H as [H Hout]. apply andb_true_iff in H as [H Hvalid].
  apply andb_true_iff in H as [Hkey Htemplate].
  destruct (GOOGLE_API_KEY w) as [[|c k]|] eqn:Ek; try discriminate.
  exists (c :: k). split; [reflexivity|]. split; [discriminate|].
  rewrite (ConsoleFacts.analyze_documents_unfold w (c :: k)) by auto.
  destruct (filter (path_exists w) (doc_paths_of typed_docs)); [discriminate|].
  now rewrite Hout.
Qed.

Lemma refused_trace (w : World) (typed_template typed_docs typed_output : str) :
  accepted w typed_template typed_docs typed_output = false ->
  analyze_documents w typed_template typed_docs typed_output
  = match GOOGLE_API_KEY w with
    | Some (c :: k) =>
        genai_configure (c :: k)
        :: print (lit "--- Gemini Document Analyzer ---")
        :: (if negb (path_exists w (strip typed_template)) then
              [print (lit "Error: Template file '" ++ strip typed_template
                          ++ lit "' not found.")]
            else
              map not_found_warning
                (filter (fun p => negb (path_exists w p)) (doc_paths_of typed_docs))
              ++ [if nonempty (filter (path_exists w) (doc_paths_of typed_docs))
                  then print (lit "Error: Output path cannot be empty.")
                  else print (lit "Error: No valid documents provided.")])
    | _ => [print (lit "Error: GOOGLE_API_KEY not found in environment variables.")]
    end.
Proof.
  unfold accepted. intros H.
  destruct (GOOGLE_API_KEY w) as [[|c k]|] eqn:Ek;
    try (unfold analyze_documents; now rewrite Ek).
  destruct (path_exists w (strip typed_template)) eqn:Et.
  - rewrite (ConsoleFacts.analyze_documents_unfold w (c :: k)) by auto.
    cbn [negb App.truthy_opt truthy andb] in *.
    destruct (filter (path_exists w) (doc_paths_of typed_docs)) as [|q qs];
      [reflexivity|].
    cbn [nonempty andb] in H. now rewrite H.
  - unfold analyze_documents. now rewrite Ek, Et.
Qed.

Lemma writes_app (t1 t2 : list event) : writes (t1 ++ t2) = writes t1 ++ writes t2.
Proof. apply flat_map_app. Qed.

Lemma writes_warnings (ps : list str) : writes (map not_found_warning ps) = [].
Proof. induction ps as [|p ps IH]; [reflexivity|exact IH]. Qed.

Lemma writes_submit (w : World) (key output_path prompt : str) :
  writes (submit w key output_path prompt)
  = match gemini w key prompt, open_w w output_path with
    | Returns (Returns t), Returns _ => [(output_path, t)]
    | _, _ => []
    end.
Proof.
  unfold submit.
  destruct (gemini w key prompt) as [[t|e]|e]; destruct (open_w w output_path);
    reflexivity.
Qed.

Lemma calls_run (w : World) (typed_template typed_docs typed_output : str) :
  calls (analyze_documents w typed_template typed_docs typed_output)
  = if accepted w typed_template typed_docs typed_output then
      match read_text w (strip typed_template),
            read_docs w 0 (filter (path_exists w) (doc_paths_of typed_docs)) []
      with
      | Returns template_content, inl docs_content =>
          [generate_content model_name (prompt template_content docs_content)]
      | _, _ => []
      end
    else [].
Proof.
  destruct (accepted w typed_template typed_docs typed_output) eqn:H.
  - destruct (accepted_trace _ _ _ _ H) as (key & _ & _ & ->).
    cbn [calls filter]. fold calls.
    rewrite ConsoleFacts.calls_app, ConsoleFacts.calls_warnings.
    destruct (read_text w (strip typed_template)); [|reflexivity].
    destruct (read_docs w 0 _ []) as [dc|[q e]]; [|reflexivity].
    cbn [app calls filter]. fold calls. apply ConsoleFacts.calls_submit.
  - rewrite (refused_trace _ _ _ _ H).
    destruct (GOOGLE_API_KEY w) as [[|c k]|]; try reflexivity.
    cbn [calls filter]. fold calls.
    destruct (negb (path_exists w (strip typed_template))); [reflexivity|].
    rewrite ConsoleFacts.calls_app, ConsoleFacts.calls_warnings.
    now destruct (nonempty _).
Qed.

(** X12.  The console script calls the service exactly when every check
    has passed and the template and every existing document read: then
    once, with the prompt built from them.  In every other run it calls
    nothing.  The key it configures is the environment's. *)
Theorem service_called_iff_inputs_read :
  forall (w : World) (typed_template typed_docs typed_output : str),
    calls (analyze_documents w typed_template typed_docs typed_output)
    = (if accepted w typed_template typed_docs typed_output then
         match read_text w (strip typed_template),
               read_docs w 0 (filter (path_exists w) (doc_paths_of typed_docs)) []
         with
         | Returns template_content, inl docs_content =>
             [generate_content model_name (prompt template_content docs_content)]
         | _, _ => []
         end
       else [])
    /\ List.length (calls (analyze_documents w typed_template typed_docs
                             typed_output)) <= 1
    /\ configures (analyze_documents w typed_template typed_docs typed_output)
       = match GOOGLE_API_KEY w with
         | Some (c :: k) => [c :: k]
         | _ => []
         end.
Proof.
  intros w typed_template typed_docs typed_output.
  pose proof (calls_run w typed_template typed_docs typed_output) as E.
  split; [exact E|]. split.
  - rewrite E. destruct (accepted _ _ _ _); [|cbn; lia].
    destruct (read_text w _); [|cbn; lia].
    destruct (read_docs w 0 _ []) as [dc|[q e]]; cbn; lia.
  - destruct (accepted w typed_template typed_docs typed_output) eqn:H.
    + destruct (accepted_trace _ _ _ _ H) as (key & -> & Hkey & ->).
      destruct key as [|c k]; [congruence|].
      cbn [configures flat_map app]. f_equal.
      fold (configures
              (map not_found_warning
                 (filter (fun p => negb (path_exists w p)) (doc_paths_of typed_docs))
               ++ match read_text w (strip typed_template) with
                  | Returns template_content =>
                      match read_docs w 0
                              (filter (path_exists w) (doc_paths_of typed_docs)) []
                      with
                      | inl docs_content =>
                          print (nl ++ lit "Analyzing documents with Gemini...")
                          :: submit w (c :: k) (strip typed_output)
                               (prompt template_content docs_content)
                      | inr (q, e) =>
                          [print (lit "Error reading document '" ++ q
                                      ++ lit "': " ++ e)]
                      end
                  | Raises e => [print (lit "Error reading template file: " ++ e)]
                  end)).
      unfold configures. rewrite flat_map_app.
      assert (W : forall ps, flat_map
                    (fun e => match e with genai_configure k0 => [k0] | _ => [] end)
                    (map not_found_warning ps) = []).
      { induction ps as [|p ps IH]; [reflexivity|exact IH]. }
      rewrite W.
      destruct (read_text w (strip typed_template)); [|reflexivity].
      destruct (read_docs w 0 _ []) as [dc|[q e]]; [|reflexivity].
      unfold submit.
      destruct (gemini w (c :: k) _) as [[t|e]|e];
        destruct (open_w w (strip typed_output)); reflexivity.
    + rewrite (refused_trace _ _ _ _ H).
      destruct (GOOGLE_API_KEY w) as [[|c k]|]; try reflexivity.
      cbn [configures flat_map app]. f_equal.
      destruct (negb (path_exists w (strip typed_template))); [reflexivity|].
      rewrite flat_map_app.
      assert (W : forall ps, flat_map
                    (fun e => match e with genai_configure k0 => [k0] | _ => [] end)
                    (map not_found_warning ps) = []).
      { induction ps as [|p ps IH]; [reflexivity|exact IH]. }
      rewrite W. now destruct (nonempty _).
Qed.

Lemma writes_run (w : World) (typed_template typed_docs typed_output : str) :
  writes (analyze_documents w typed_template typed_docs typed_output)
  = if accepted w typed_template typed_docs typed_output then
      match GOOGLE_API_KEY w, read_text w (strip typed_template),
            read_docs w 0 (filter (path_exists w) (doc_paths_of typed_docs)) []
      with
      | Some key, Returns template_content, inl docs_content =>
          match gemini w key (prompt template_content docs_content),
                open_w w (strip typed_output)
          with
          | Returns (Returns t), Returns _ => [(strip typed_output, t)]
          | _, _ => []
          end
      | _, _, _ => []
      end
    else [].
Proof.
  destruct (accepted w typed_template typed_docs typed_output) eqn:H.
  - destruct (accepted_trace _ _ _ _ H) as (key & -> & _ & ->).
    cbn [writes flat_map app]. change (flat_map _ ?t) with (writes t).
    rewrite writes_app, writes_warnings.
    destruct (read_text w (strip typed_template)); [|reflexivity].
    destruct (read_docs w 0 _ []) as [dc|[q e]]; [|reflexivity].
    cbn [app writes flat_map]. change (flat_map _ ?t) with (writes t).
    apply writes_submit.
  - rewrite (refused_trace _ _ _ _ H).
    destruct (GOOGLE_API_KEY w) as [[|c k]|]; try reflexivity.
    cbn [writes flat_map app]. change (flat_map _ ?t) with (writes t).
    destruct (negb (path_exists w (strip typed_template))); [reflexivity|].
    rewrite writes_app, writes_warnings. now destruct (nonempty _).
Qed.

Lemma opens_app (t1 t2 : list event) : opens (t1 ++ t2) = opens t1 ++ opens t2.
Proof. apply flat_map_app. Qed.

Lemma opens_warnings (ps : list str) : opens (map not_found_warning ps) = [].
Proof. induction ps as [|p ps IH]; [reflexivity|exact IH]. Qed.

Lemma opens_submit (w : World) (key output_path prompt : str) :
  opens (submit w key output_path prompt)
  = match gemini w key prompt, open_w w output_path with
    | Returns _, Returns _ => [output_path]
    | _, _ => []
    end.
Proof.
  unfold submit.
  destruct (gemini w key prompt) as [[t|e]|e]; destruct (open_w w output_path);
    reflexivity.
Qed.

Lemma opens_run (w : World) (typed_template typed_docs typed_output : str) :
  opens (analyze_documents w typed_template typed_docs typed_output)
  = if accepted w typed_template typed_docs typed_output then
      match GOOGLE_API_KEY w, read_text w (strip typed_template),
            read_docs w 0 (filter (path_exists w) (doc_paths_of typed_docs)) []
      with
      | Some key, Returns template_content, inl docs_content =>
          match gemini w key (prompt template_content docs_content),
                open_w w (strip typed_output)
          with
          | Returns _, Returns _ => [strip typed_output]
          | _, _ => []
          end
      | _, _, _ => []
      end
    else [].
Proof.
  destruct (accepted w typed_template typed_docs typed_output) eqn:H.
  - destruct (accepted_trace _ _ _ _ H) as (key & -> & _ & ->).
    cbn [opens flat_map app]. change (flat_map _ ?t) with (opens t).
    rewrite opens_app, opens_warnings.
    destruct (read_text w (strip typed_template)); [|reflexivity].
    destruct (read_docs w 0 _ []) as [dc|[q e]]; [|reflexivity].
    cbn [app opens flat_map]. change (flat_map _ ?t) with (opens t).
    apply opens_submit.
  - rewrite (refused_trace _ _ _ _ H).
    destruct (GOOGLE_API_KEY w) as [[|c k]|]; try reflexivity.
    cbn [opens flat_map app]. change (flat_map _ ?t) with (opens t).
    destruct (negb (path_exists w (strip typed_template))); [reflexivity|].
    rewrite opens_app, opens_warnings. now destruct (nonempty _).
Qed.

(** The run in which the service answers but reading [response.text]
    raises, after the output file has been opened. *)
Lemma text_failure_trace (w : World) (typed_template typed_docs typed_output : str)
    (key template_content docs_content e : str) :
  accepted w typed_template typed_docs typed_output = true ->
  GOOGLE_API_KEY w = Some key ->
  read_text w (strip typed_template) = Returns template_content ->
  read_docs w 0 (filter (path_exists w) (doc_paths_of typed_docs)) []
  = inl docs_content ->
  gemini w key (prompt template_content docs_content) = Returns (Raises e) ->
  open_w w (strip typed_output) = Returns tt ->
  analyze_documents w typed_template typed_docs typed_output
  = (genai_configure key
     :: print (lit "--- Gemini Document Analyzer ---")
     :: map not_found_warning
          (filter (fun p => negb (path_exists w p)) (doc_paths_of typed_docs)))
    ++ [print (nl ++ lit "Analyzing documents with Gemini...");
        generate_content model_name (prompt template_content docs_content);
        open_for_writing (strip typed_output);
        print (lit "An error occurred during analysis: " ++ e)].
Proof.
  intros H Hk Ht Hd Hg Ho.
  destruct (accepted_trace _ _ _ _ H) as (key' & Hk' & _ & ->).
  assert (key' = key) as -> by congruence.
  rewrite Ht, Hd. unfold submit. rewrite Hg, Ho. reflexivity.
Qed.

(** X13.  The only file the console script opens for writing or writes
    is the output path as typed, trimmed, and what it writes there is
    the text the service returned for the prompt it was sent, unchanged.
    It opens and writes at most once, and never writes without having
    opened.  When the call to the service raises, the file is neither
    opened nor written.  When the call returns but reading the text of
    the answer raises, the file has already been opened for writing, so
    it is created or emptied, and nothing is written into it: the run
    ends with the error printed. *)
Theorem output_file_holds_the_answer :
  forall (w : World) (typed_template typed_docs typed_output : str),
    (forall path content,
        In (path, content)
           (writes (analyze_documents w typed_template typed_docs typed_output)) ->
        path = strip typed_output
        /\ exists key template_content docs_content,
             GOOGLE_API_KEY w = Some key
             /\ read_text w (strip typed_template) = Returns template_content
             /\ read_docs w 0 (filter (path_exists w) (doc_paths_of typed_docs)) []
                = inl docs_content
             /\ gemini w key (prompt template_content docs_content)
                = Returns (Returns content)
             /\ calls (analyze_documents w typed_template typed_docs typed_output)
                = [generate_content model_name
                     (prompt template_content docs_content)])
    /\ List.length (writes (analyze_documents w typed_template typed_docs
                              typed_output)) <= 1
    /\ (forall path,
          In path (opens (analyze_documents w typed_template typed_docs
                            typed_output)) ->
          path = strip typed_output)
    /\ List.length (opens (analyze_documents w typed_template typed_docs
                             typed_output)) <= 1
    /\ (writes (analyze_documents w typed_template typed_docs typed_output) = []
        \/ opens (analyze_documents w typed_template typed_docs typed_output)
           = [strip typed_output])
    /\ ((forall key prompt, exists e, gemini w key prompt = Raises e) ->
        opens (analyze_documents w typed_template typed_docs typed_output) = []
        /\ writes (analyze_documents w typed_template typed_docs typed_output) = [])
    /\ (forall key template_content docs_content e,
          accepted w typed_template typed_docs typed_output = true ->
          GOOGLE_API_KEY w = Some key ->
          read_text w (strip typed_template) = Returns template_content ->
          read_docs w 0 (filter (path_exists w) (doc_paths_of typed_docs)) []
          = inl docs_content ->
          gemini w key (prompt template_content docs_content)
          = Returns (Raises e) ->
          open_w w (strip typed_output) = Returns tt ->
          opens (analyze_documents w typed_template typed_docs typed_output)
          = [strip typed_output]
          /\ writes (analyze_documents w typed_template typed_docs typed_output)
             = []
          /\ analyze_documents w typed_template typed_docs typed_output
             = (genai_configure key
                :: print (lit "--- Gemini Document Analyzer ---")
                :: map not_found_warning
                     (filter (fun p => negb (path_exists w p))
                        (doc_paths_of typed_docs)))
               ++ [print (nl ++ lit "Analyzing documents with Gemini...");
                   generate_content model_name
                     (prompt template_content docs_content);
                   open_for_writing (strip typed_output);
                   print (lit "An error occurred during analysis: " ++ e)]).
Proof.
  intros w typed_template typed_docs typed_output.
  split; [|split; [|split; [|split; [|split; [|split]]]]].
  - rewrite writes_run, calls_run.
    destruct (accepted w typed_template typed_docs typed_output);
      [|intros ? ? []].
    destruct (GOOGLE_API_KEY w) as [key|]; [|intros ? ? []].
    destruct (read_text w (strip typed_template)) as [template_content|e];
      [|intros ? ? []].
    destruct (read_docs w 0 _ []) as [docs_content|[q e]]; [|intros ? ? []].
    destruct (gemini w key (prompt template_content docs_content))
      as [[t|e]|e] eqn:Eg; try (intros ? ? []).
    destruct (open_w w (strip typed_output)); [|intros ? ? []].
    intros path content [H|[]]. injection H as <- <-.
    split; [reflexivity|].
    now exists key, template_content, docs_content.
  - rewrite writes_run.
    destruct (accepted _ _ _ _); [|cbn; lia].
    destruct (GOOGLE_API_KEY w); [|cbn; lia].
    destruct (read_text w _); [|cbn; lia].
    destruct (read_docs w 0 _ []) as [dc|[q e]]; [|cbn; lia].
    destruct (gemini w _ _) as [[t|e]|e]; try destruct (open_w w _); cbn; lia.
  - rewrite opens_run.
    destruct (accepted _ _ _ _); [|intros ? []].
    destruct (GOOGLE_API_KEY w); [|intros ? []].
    destruct (read_text w _); [|intros ? []].
    destruct (read_docs w 0 _ []) as [dc|[q e]]; [|intros ? []].
    destruct (gemini w _ _) as [r|e]; [|intros ? []].
    destruct (open_w w _); [|intros ? []].
    intros path [H|[]]. now symmetry.
  - rewrite opens_run.
    destruct (accepted _ _ _ _); [|cbn; lia].
    destruct (GOOGLE_API_KEY w); [|cbn; lia].
    destruct (read_text w _); [|cbn; lia].
    destruct (read_docs w 0 _ []) as [dc|[q e]]; [|cbn; lia].
    destruct (gemini w _ _) as [r|e]; try destruct (open_w w _); cbn; lia.
  - rewrite writes_run, opens_run.
    destruct (accepted _ _ _ _); [|now left].
    destruct (GOOGLE_API_KEY w); [|now left].
    destruct (read_text w _); [|now left].
    destruct (read_docs w 0 _ []) as [dc|[q e]]; [|now left].
    destruct (gemini w _ _) as [[t|e]|e]; try destruct (open_w w _);
      solve [now left | now right].
  - intros Hfail. rewrite writes_run, opens_run.
    destruct (accepted _ _ _ _); [|now split].
    destruct (GOOGLE_API_KEY w) as [key|]; [|now split].
    destruct (read_text w _) as [tc|e]; [|now split].
    destruct (read_docs w 0 _ []) as [dc|[q e]]; [|now split].
    destruct (Hfail key (prompt tc dc)) as (e & ->). now split.
  - intros key template_content docs_content e H Hk Ht Hd Hg Ho.
    split; [|split].
    + rewrite opens_run, H, Hk, Ht, Hd, Hg, Ho. reflexivity.
    + rewrite writes_run, H, Hk, Ht, Hd, Hg. reflexivity.
    + now apply text_failure_trace.
Qed.

(** A run in which everything reads and the service answers, and a run
    in which the answer has no text: the output file is opened, and so
    emptied, but nothing is written. *)
Lemma output_file_holds_the_answer_witness :
  (lit "out.txt" = strip (lit " out.txt ")
   /\ exists key template_content docs_content,
        GOOGLE_API_KEY missing_b = Some key
        /\ read_text missing_b (strip (lit "t.txt")) = Returns template_content
        /\ read_docs missing_b 0
             (filter (path_exists missing_b) (doc_paths_of (lit "a.txt, b.txt"))) []
           = inl docs_content
        /\ gemini missing_b key (prompt template_content docs_content)
           = Returns (Returns (lit "report"))
        /\ calls (analyze_documents missing_b (lit "t.txt") (lit "a.txt, b.txt")
                    (lit " out.txt "))
           = [generate_content model_name (prompt template_content docs_content)])
  /\ opens (analyze_documents no_text_world (lit "t.txt") (lit "a.txt")
              (lit " out.txt "))
     = [strip (lit " out.txt ")]
  /\ writes (analyze_documents no_text_world (lit "t.txt") (lit "a.txt")
               (lit " out.txt "))
     = [].
Proof.
  split.
  - refine (proj1 (output_file_holds_the_answer missing_b (lit "t.txt")
                     (lit "a.txt, b.txt") (lit " out.txt "))
              (lit "out.txt") (lit "report") _).
    vm_compute. left. reflexivity.
  - pose proof (proj2 (proj2 (proj2 (proj2 (proj2 (proj2
                  (output_file_holds_the_answer no_text_world (lit "t.txt")
                     (lit "a.txt") (lit " out.txt ")))))))
                  (lit "key") (lit "text")
                  (header 0 (lit "a.txt") ++ lit "text" ++ nl)
                  (lit "blocked")) as H.
    destruct H as (Ho & Hw & _); try (vm_compute; reflexivity).
    split; assumption.
Defined.

Lemma strip_blank (s : str) : forallb isspace s = true -> strip s = [].
Proof.
  intros H. unfold strip, strip_set.
  assert (D : dropwhile isspace s = []).
  { induction s as [|c s IH]; [reflexivity|].
    cbn [forallb] in H. apply andb_true_iff in H as [Hc Hs].
    cbn [dropwhile]. rewrite Hc. now apply IH. }
  now rewrite D.
Qed.

(** X14.  A documents line that is empty or blank names one document,
    the empty path: the script warns that it is not found and stops for
    want of valid documents, before it asks anything of the service. *)
Theorem blank_documents_line_stops_the_run :
  forall (w : World) (typed_template typed_docs typed_output : str)
         (c : char) (k : str),
    forallb isspace typed_docs = true ->
    GOOGLE_API_KEY w = Some (c :: k) ->
    path_exists w (strip typed_template) = true ->
    path_exists w [] = false ->
    doc_paths_of typed_docs = [[]]
    /\ analyze_documents w typed_template typed_docs typed_output
       = [genai_configure (c :: k);
          print (lit "--- Gemini Document Analyzer ---");
          print (lit "Warning: Document '' not found. Skipping.");
          print (lit "Error: No valid documents provided.")].
Proof.
  intros w typed_template typed_docs typed_output c k Hblank Hkey Ht Hempty.
  assert (E : doc_paths_of typed_docs = [[]]).
  { unfold doc_paths_of. now rewrite (strip_blank _ Hblank). }
  split; [exact E|].
  rewrite (ConsoleFacts.analyze_documents_unfold w (c :: k)) by auto.
  rewrite E. cbn [filter]. rewrite Hempty. reflexivity.
Qed.

(** Three spaces typed at the documents prompt. *)
Lemma blank_documents_line_stops_the_run_witness :
  analyze_documents plain_world (lit "t.txt") (lit "   ") (lit "out.txt")
  = [genai_configure (lit "key");
     print (lit "--- Gemini Document Analyzer ---");
     print (lit "Warning: Document '' not found. Skipping.");
     print (lit "Error: No valid documents provided.")].
Proof.
  exact (proj2 (blank_documents_line_stops_the_run plain_world (lit "t.txt")
                  (lit "   ") (lit "out.txt") 107%N (lit "ey")
                  eq_refl eq_refl eq_refl eq_refl)).
Defined.

Lemma split_no_sep (sep : char) (s p : str) :
  In p (split sep s) -> ~ In sep p.
Proof.
  revert p; induction s as [|c s IH]; intros p; cbn [split].
  - intros [<-|[]] [].
  - destruct (c =? sep)%N eqn:E.
    + intros [<-|H]; [intros []|now apply IH].
    + apply N.eqb_neq in E.
      destruct (split sep s) as [|w ws] eqn:S.
      * intros [<-|[]] [H|[]]. congruence.
      * intros [<-|H].
        -- intros [H|H]; [congruence|]. apply (IH w); [now left|exact H].
        -- apply IH. now right.
Qed.

Lemma split_length (sep : char) (s : str) :
  List.length (split sep s) = S (count_occ N.eq_dec s sep).
Proof.
  induction s as [|c s IH]; [reflexivity|].
  cbn [split count_occ].
  destruct (c =? sep)%N eqn:E.
  - apply N.eqb_eq in E. destruct (N.eq_dec c sep); [|contradiction].
    cbn [List.length]. now rewrite IH.
  - apply N.eqb_neq in E. destruct (N.eq_dec c sep); [contradiction|].
    rewrite <- IH. now destruct (split sep s).
Qed.

Lemma strip_set_strip_set (p : char -> bool) (s : str) :
  strip_set p (strip_set p s) = strip_set p s.
Proof.
  set (r := strip_set p s).
  assert (D : forall l, (forall x l', l = x :: l' -> p x = false) ->
                        dropwhile p l = l).
  { intros [|x l'] H; [reflexivity|].
    cbn [dropwhile]. now rewrite (H x l' eq_refl). }
  unfold strip_set at 1.
  rewrite (D r) by (intros x l' H; now apply (NameMore.strip_set_first p s x l')).
  rewrite (D (rev r)).
  - apply rev_involutive.
  - intros x l' H. apply (NameMore.strip_set_last p s x (rev l')).
    fold r. rewrite <- (rev_involutive r), H. reflexivity.
Qed.

(** X15.  The document paths are the pieces of the typed line between
    commas, each trimmed: one more path than there are commas, none
    holding a comma, none starting or ending with white space.  A file
    whose name holds a comma, or starts or ends with a space, cannot be
    named at the prompt. *)
Theorem document_paths_are_trimmed_pieces :
  forall (typed_docs p : str),
    In p (doc_paths_of typed_docs) ->
    ~ In 44%N p
    /\ strip p = p
    /\ (forall x r, p = x :: r -> isspace x = false)
    /\ (forall x r, p = r ++ [x] -> isspace x = false)
    /\ List.length (doc_paths_of typed_docs)
       = S (count_occ N.eq_dec (strip typed_docs) 44%N).
Proof.
  intros typed_docs p H. unfold doc_paths_of in *.
  apply in_map_iff in H as (q & <- & Hq).
  split.
  { intros Hin. apply FilenameFacts.In_strip_set in Hin.
    exact (split_no_sep _ _ _ Hq Hin). }
  split; [apply strip_set_strip_set|].
  split; [intros x r; apply NameMore.strip_set_first|].
  split; [intros x r; apply NameMore.strip_set_last|].
  now rewrite length_map, split_length.
Qed.

(** Two paths typed with spaces around the comma. *)
Lemma document_paths_are_trimmed_pieces_witness :
  ~ In 44%N (lit "b.txt") /\ strip (lit "b.txt") = lit "b.txt".
Proof.
  refine (let H := document_paths_are_trimmed_pieces (lit " a.txt , b.txt ")
                     (lit "b.txt") _
          in conj (proj1 H) (proj1 (proj2 H))).
  vm_compute. right. left. reflexivity.
Defined.

(** X16.  The console script stops at the first check that fails, in
    this order: the key, the template path, the document paths, the
    output path.  It then prints that one error (after the warnings for
    missing documents, if it got that far), reads no file, calls
    nothing and writes nothing. *)
Theorem console_stops_at_the_first_failed_check :
  forall (w : World) (typed_template typed_docs typed_output : str),
    accepted w typed_template typed_docs typed_output = false ->
    analyze_documents w typed_template typed_docs typed_output
    = match GOOGLE_API_KEY w with
      | Some (c :: k) =>
          genai_configure (c :: k)
          :: print (lit "--- Gemini Document Analyzer ---")
          :: (if negb (path_exists w (strip typed_template)) then
                [print (lit "Error: Template file '" ++ strip typed_template
                            ++ lit "' not found.")]
              else
                map not_found_warning
                  (filter (fun p => negb (path_exists w p))
                          (doc_paths_of typed_docs))
                ++ [if nonempty (filter (path_exists w) (doc_paths_of typed_docs))
                    then print (lit "Error: Output path cannot be empty.")
                    else print (lit "Error: No valid documents provided.")])
      | _ => [print (lit "Error: GOOGLE_API_KEY not found in environment variables.")]
      end
    /\ calls (analyze_documents w typed_template typed_docs typed_output) = []
    /\ writes (analyze_documents w typed_template typed_docs typed_output) = [].
Proof.
  intros w typed_template typed_docs typed_output H.
  split; [now apply refused_trace|].
  now rewrite calls_run, writes_run, H.
Qed.

(** Everything in order except a blank output path. *)
Lemma console_stops_at_the_first_failed_check_witness :
  analyze_documents plain_world (lit "t.txt") (lit "a.txt,,b.txt") (lit "  ")
  = [genai_configure (lit "key");
     print (lit "--- Gemini Document Analyzer ---");
     print (lit "Warning: Document '' not found. Skipping.");
     print (lit "Error: Output path cannot be empty.")].
Proof.
  exact (proj1 (console_stops_at_the_first_failed_check plain_world (lit "t.txt")
                  (lit "a.txt,,b.txt") (lit "  ") eq_refl)).
Defined.

End ConsoleMore.
